(** * G90-SDR: CAT gateway, rigctld bridge and frequency synchronizer

    A shallow embedding of [scripts/rig_control.py],
    [scripts/rigctld_bridge.py] and [scripts/frequency_sync.py].

    Conventions of the embedding.
    - Python objects that are shared by reference ([RigControl]
      instances) live in a store indexed by object identity; class
      attributes ([RigControl._flrig_lock], [_last_request_time]) are
      fields of the world, shared by all instances.
    - [time.time()] is the field [now] of the world, an integer number
      of milliseconds; [time.sleep(d)] advances it by [d]; a remote
      call advances it by the duration the endpoint takes to answer.
      So 0.05 s is 50, 1.0 s is 1000 and 180 s is 180000.
    - The FlRig XML-RPC server and the SDR++ rigctl server are outside
      the repository.  Each is a total function from the requests seen
      so far and the current request to an answer: any deterministic
      endpoint, failing or not, is such a function.
    - A Python exception is the result [Raise]; [try]/[except] is
      [try_except].
    - Threads are interleaved at the granularity of one method call. *)

From Stdlib Require Import ZArith QArith String Ascii List Bool Lia DecimalString.
From Stdlib Require DecimalPos.
From stdpp Require Import base gmap strings list.

Open Scope string_scope.
Open Scope list_scope.
Open Scope Z_scope.

(** ** Python built-ins used by the three scripts *)

Module Py.

(** [str.isspace] on code points below 256: the separators of
    [str.split()] and [str.strip()]. *)
Definition isspace (c : ascii) : bool :=
  let n := N_of_ascii c in
  ((9 <=? n) && (n <=? 13) || (28 <=? n) && (n <=? 32)
   || (n =? 133) || (n =? 160))%N.

(** [str.upper] on ASCII letters; other code points below 128 are
    unchanged.  Code points from 128 on are left as they are: none of
    them upper-cases to an ASCII letter of a mode name. *)
Definition upper_char (c : ascii) : ascii :=
  let n := N_of_ascii c in
  if ((97 <=? n) && (n <=? 122))%N then ascii_of_N (n - 32) else c.

Fixpoint upper (s : string) : string :=
  match s with
  | EmptyString => EmptyString
  | String c s' => String (upper_char c) (upper s')
  end.

Fixpoint lstrip (s : string) : string :=
  match s with
  | String c s' => if isspace c then lstrip s' else s
  | EmptyString => EmptyString
  end.

Fixpoint rstrip (s : string) : string :=
  match s with
  | EmptyString => EmptyString
  | String c s' =>
      match rstrip s' with
      | EmptyString => if isspace c then EmptyString else String c EmptyString
      | r => String c r
      end
  end.

Definition strip (s : string) : string := rstrip (lstrip s).

(** [str.split()] with no argument: maximal runs of non-space
    characters.  [cur] is the word being read, reversed. *)
Fixpoint split_aux (s : string) (cur : list ascii) : list string :=
  let flush (rest : list string) :=
    match cur with
    | [] => rest
    | _ => string_of_list_ascii (rev cur) :: rest
    end in
  match s with
  | EmptyString => flush []
  | String c s' =>
      if isspace c then flush (split_aux s' []) else split_aux s' (c :: cur)
  end.

Definition split (s : string) : list string := split_aux s [].

(** [sub in s] for strings. *)
Fixpoint contains (sub s : string) : bool :=
  String.prefix sub s ||
  match s with
  | EmptyString => false
  | String _ s' => contains sub s'
  end.

(** [str(n)] for an [int].  The scripts print integers that come from
    a float or from a text of at most 1024 characters; the limit of
    4300 digits beyond which [str] raises is out of their reach and is
    not modelled. *)
Definition str_of_int (n : Z) : string := NilZero.string_of_int (Z.to_int n).

Definition digit_of (c : ascii) : option Z :=
  let n := N_of_ascii c in
  if ((48 <=? n) && (n <=? 57))%N then Some (Z.of_N (n - 48)) else None.

(** The digits of a decimal literal: a single underscore is allowed
    between two digits.  [acc] is the value read so far, [after_digit]
    says whether the previous character was a digit. *)
Fixpoint int_digits (s : string) (acc : Z) (after_digit : bool) : option Z :=
  match s with
  | EmptyString => if after_digit then Some acc else None
  | String c s' =>
      match digit_of c with
      | Some d => int_digits s' (10 * acc + d) true
      | None =>
          if (N_of_ascii c =? 95)%N && after_digit then int_digits s' acc false
          else None
      end
  end.

(** [int(s)] for a string, base 10: surrounding white space, an
    optional sign, then digits.  [None] stands for [ValueError].  The
    scripts call [int] on a text of at most 1024 characters that
    [str.strip()] or [str.split()] has freed of white space at both
    ends: on such a text it makes no difference which characters
    [int] itself skips as white space (on ASCII text not the
    separators 28 to 31), nor that [int] refuses more than 4300
    digits, and neither is modelled. *)
Definition int_of_str (s : string) : option Z :=
  match strip s with
  | String "-" ds => Z.opp <$> int_digits ds 0 false
  | String "+" ds => int_digits ds 0 false
  | ds => int_digits ds 0 false
  end.

(** [bytes.decode('ascii')] and [str.encode('ascii')] succeed exactly
    on code points below 128. *)
Definition is_ascii (s : string) : bool :=
  forallb (fun c => (N_of_ascii c <? 128)%N) (list_ascii_of_string s).

(** Python floats as far as the scripts compare them. *)
Inductive float := Finite (q : Q) | PosInf | NegInf | NaN.

(** [a <= b] on floats; every comparison with NaN is false. *)
Definition float_le (a b : float) : bool :=
  match a, b with
  | NaN, _ | _, NaN => false
  | NegInf, _ => true
  | _, PosInf => true
  | Finite x, Finite y => Qle_bool x y
  | _, _ => false
  end.

(** [int(x)] for a float: truncation towards zero; [None] stands for
    the [OverflowError]/[ValueError] of an infinity or a NaN. *)
Definition int_of_float (x : float) : option Z :=
  match x with
  | Finite q => Some (Z.quot (Qnum q) (Z.pos (Qden q)))
  | _ => None
  end.

(** The conversions to binary64 that the scripts rely on and this
    development keeps abstract: [float(n)] for an [int] and [float(s)]
    for a string, with [None] where Python raises. *)
Class FloatConv := {
  float_of_int : Z -> option float;
  float_of_str : string -> option float;
}.

(** [int(float(s))] for a string, [None] where Python raises. *)
Definition int_float `{FloatConv} (s : string) : option Z :=
  float_of_str s ≫= int_of_float.

End Py.

(** ** The world: clock, class attributes, object store, endpoints *)

(** Requests of the FlRig XML-RPC interface ([proxy.rig.<name>]). *)
Inductive Request :=
| rig_get_xcvr
| rig_get_vfo
| rig_set_vfo (hz : Py.float)
| rig_get_mode
| rig_set_mode (mode : string)
| rig_get_bw
| rig_set_bw (hz : Py.float)
| rig_get_power
| rig_set_power (watts : Py.float)
| rig_get_ptt
| rig_set_ptt (value : Z).

(** FlRig answers [rig.get_bw] with a string or a list of strings. *)
Inductive BwReply := BwStr (s : string) | BwList (l : list string).

(** The type of value FlRig answers each request with. *)
Definition reply_type (r : Request) : Type :=
  match r with
  | rig_get_xcvr | rig_get_vfo | rig_get_mode => string
  | rig_get_bw => BwReply
  | rig_get_power => Py.float
  | rig_get_ptt => Z
  | rig_set_vfo _ | rig_set_mode _ | rig_set_bw _ | rig_set_power _
  | rig_set_ptt _ => unit
  end.

(** An XML-RPC call returns a value or raises (fault, refused
    connection, timeout). *)
Inductive Outcome (A : Type) := Ok (v : A) | Fault.
Arguments Ok {A} v.
Arguments Fault {A}.

(** The FlRig server: answer and duration in ms, given the requests
    served before (oldest first) and the current one. *)
Definition FlRig := forall (seen : list Request) (r : Request), Outcome (reply_type r) * N.

(** The SDR++ rigctl server: the bytes that come back for a line
    handed to the socket, [None] when the socket raises. *)
Definition Display := list string -> string -> option string.

(** What the outside observes. *)
Inductive Event :=
| Rpc (at_ms : Z) (locked : bool) (req : Request)
| Released (rig : nat)
| SdrSent (line : string).

(** A [RigControl] instance. *)
Record RigObj := {
  host : string;
  port : Z;
  server_url : string;
  proxy : option string;
  _connected : bool;
}.

(** An [SDRControl] instance; [sock] tells whether a socket is held. *)
Record SdrObj := {
  sdr_host : string;
  sdr_port : Z;
  sock : bool;
  sdr_connected : bool;
}.

Global Instance RigObj_inhabited : Inhabited RigObj :=
  populate {| host := ""; port := 0; server_url := ""; proxy := None; _connected := false |}.

Global Instance SdrObj_inhabited : Inhabited SdrObj :=
  populate {| sdr_host := ""; sdr_port := 0; sock := false; sdr_connected := false |}.

(** - [now] is [time.time()];
    - [_last_request_time] is the class attribute of [RigControl];
    - [lock_depth] counts the holds of the re-entrant lock
      [RigControl._flrig_lock];
    - [rigs] and [sdrs] are the stores of [RigControl] and
      [SDRControl] instances, an instance being known by its index;
    - [flrig] is the FlRig server and [flrig_seen] the requests it has
      served; [display] is the SDR++ rigctl server, which answers a
      line (given without its newline) knowing the lines [display_seen]
      it received before;
    - [trace] lists the events, oldest first: [Rpc t locked r] is the
      request [r] put on the wire to FlRig at time [t], with [locked]
      telling whether [_flrig_lock] was held; [Released i] is
      [disconnect()] of instance [i]; [SdrSent l] is the line [l]
      handed to [sendall] of the SDR++ socket, without its newline. *)
Record World := {
  now : Z;
  _last_request_time : Z;
  lock_depth : nat;
  rigs : list RigObj;
  sdrs : list SdrObj;
  flrig : FlRig;
  flrig_seen : list Request;
  display : Display;
  display_seen : list string;
  trace : list Event;
}.

(** ** State and exceptions *)

Inductive result (A : Type) := Ret (a : A) | Raise.
Arguments Ret {A} a.
Arguments Raise {A}.

Definition M (S A : Type) : Type := S -> result A * S.

Global Instance M_ret {S} : MRet (M S) := fun A a s => (Ret a, s).
Global Instance M_bind {S} : MBind (M S) := fun A B k c s =>
  match c s with
  | (Ret a, s') => k a s'
  | (Raise, s') => (Raise, s')
  end.

Definition raise {S A} : M S A := fun s => (Raise, s).
Definition gets {S A} (f : S -> A) : M S A := fun s => (Ret (f s), s).
Definition modify {S} (f : S -> S) : M S unit := fun s => (Ret tt, f s).

(** [try: body / except Exception: handler] *)
Definition try_except {S A} (body handler : M S A) : M S A := fun s =>
  match body s with
  | (Ret a, s') => (Ret a, s')
  | (Raise, s') => handler s'
  end.

(** A value that may be missing, where missing is an exception. *)
Definition or_raise {S A} (o : option A) : M S A :=
  match o with Some a => mret a | None => raise end.

(** Run a computation on the second component of the state. *)
Definition lift {S W A} (c : M W A) : M (S * W) A := fun sw =>
  let '(r, w') := c sw.2 in (r, (sw.1, w')).

Definition set_now (t : Z) (w : World) : World :=
  {| now := t; _last_request_time := _last_request_time w;
     lock_depth := lock_depth w; rigs := rigs w; sdrs := sdrs w; flrig := flrig w;
     flrig_seen := flrig_seen w; display := display w;
     display_seen := display_seen w; trace := trace w |}.

Definition set_last_request_time (t : Z) (w : World) : World :=
  {| now := now w; _last_request_time := t;
     lock_depth := lock_depth w; rigs := rigs w; sdrs := sdrs w; flrig := flrig w;
     flrig_seen := flrig_seen w; display := display w;
     display_seen := display_seen w; trace := trace w |}.

Definition set_lock_depth (d : nat) (w : World) : World :=
  {| now := now w; _last_request_time := _last_request_time w;
     lock_depth := d; rigs := rigs w; sdrs := sdrs w; flrig := flrig w;
     flrig_seen := flrig_seen w; display := display w;
     display_seen := display_seen w; trace := trace w |}.

Definition set_rigs (r : list RigObj) (w : World) : World :=
  {| now := now w; _last_request_time := _last_request_time w;
     lock_depth := lock_depth w; rigs := r; sdrs := sdrs w; flrig := flrig w;
     flrig_seen := flrig_seen w; display := display w;
     display_seen := display_seen w; trace := trace w |}.

Definition set_sdrs (r : list SdrObj) (w : World) : World :=
  {| now := now w; _last_request_time := _last_request_time w;
     lock_depth := lock_depth w; rigs := rigs w; sdrs := r; flrig := flrig w;
     flrig_seen := flrig_seen w; display := display w;
     display_seen := display_seen w; trace := trace w |}.

Definition emit (e : Event) (w : World) : World :=
  {| now := now w; _last_request_time := _last_request_time w;
     lock_depth := lock_depth w; rigs := rigs w; sdrs := sdrs w; flrig := flrig w;
     flrig_seen := flrig_seen w; display := display w;
     display_seen := display_seen w; trace := trace w ++ [e] |}.

Definition saw_request (r : Request) (w : World) : World :=
  {| now := now w; _last_request_time := _last_request_time w;
     lock_depth := lock_depth w; rigs := rigs w; sdrs := sdrs w; flrig := flrig w;
     flrig_seen := flrig_seen w ++ [r]; display := display w;
     display_seen := display_seen w; trace := trace w |}.

Definition saw_line (l : string) (w : World) : World :=
  {| now := now w; _last_request_time := _last_request_time w;
     lock_depth := lock_depth w; rigs := rigs w; sdrs := sdrs w; flrig := flrig w;
     flrig_seen := flrig_seen w; display := display w;
     display_seen := display_seen w ++ [l]; trace := trace w |}.

(** [time.time()] *)
Definition time : M World Z := gets now.

(** [time.sleep(d)]; a negative [d] is a [ValueError]. *)
Definition sleep (d : Z) : M World unit :=
  if d <? 0 then raise else modify (fun w => set_now (now w + d) w).

(** One XML-RPC round trip, [proxy.rig.<req>(...)]: the request goes
    on the wire now, the answer comes back after the time FlRig
    takes. *)
Definition xmlrpc (req : Request) : M World (reply_type req) := fun w =>
  let '(out, took) := flrig w (flrig_seen w) req in
  let w1 := emit (Rpc (now w) (bool_decide (0 < lock_depth w)%nat) req) w in
  let w2 := set_now (now w + Z.of_N took) (saw_request req w1) in
  match out with
  | Ok v => (Ret v, w2)
  | Fault => (Raise, w2)
  end.

(** ** [scripts/rig_control.py]: class [RigControl] *)

Module RigControl.
Section RigControl.
Context `{Py.FloatConv}.

(** [_min_request_interval = 0.05] *)
Definition _min_request_interval : Z := 50.

Definition self_ (self : nat) : M World RigObj := gets (fun w => rigs w !!! self).

Definition update_self (self : nat) (f : RigObj -> RigObj) : M World unit :=
  modify (fun w => set_rigs (<[self := f (rigs w !!! self)]> (rigs w)) w).

Definition set_proxy (p : option string) (o : RigObj) : RigObj :=
  {| host := host o; port := port o; server_url := server_url o;
     proxy := p; _connected := _connected o |}.

Definition set_connected (c : bool) (o : RigObj) : RigObj :=
  {| host := host o; port := port o; server_url := server_url o;
     proxy := proxy o; _connected := c |}.

(** [RigControl(host, port)]: a new instance, returned by identity. *)
Definition __init__ (host : string) (port : Z) : M World nat := fun w =>
  let o := {| host := host; port := port;
              server_url := "http://" ++ host ++ ":" ++ Py.str_of_int port;
              proxy := None; _connected := false |} in
  (Ret (length (rigs w)), set_rigs (rigs w ++ [o]) w).

(** [with self._flrig_lock: body] *)
Definition with_flrig_lock {A} (body : M World A) : M World A := fun w =>
  let '(r, w') := body (set_lock_depth (S (lock_depth w)) w) in
  (r, set_lock_depth (pred (lock_depth w')) w').

Definition _safe_call {A} (func : M World A) : M World A :=
  with_flrig_lock (
    current_time ← time;
    last ← gets _last_request_time;
    let time_since_last := current_time - last in
    (if time_since_last <? _min_request_interval
     then sleep (_min_request_interval - time_since_last)
     else mret tt);;
    try_except
      (result ← func;
       t ← time;
       modify (set_last_request_time t);;
       mret result)
      (t ← time;
       modify (set_last_request_time t);;
       raise)).

Definition connect (self : nat) : M World bool :=
  try_except
    (o ← self_ self;
     update_self self (set_proxy (Some (server_url o)));;
     _ ← _safe_call (xmlrpc rig_get_xcvr);
     update_self self (set_connected true);;
     mret true)
    (update_self self (set_connected false);;
     mret false).

Definition disconnect (self : nat) : M World unit :=
  update_self self (set_proxy None);;
  update_self self (set_connected false);;
  modify (emit (Released self)).

Definition is_connected (self : nat) : M World bool :=
  o ← self_ self;
  mret (_connected o && bool_decide (proxy o <> None)).

Definition get_frequency (self : nat) : M World (option Z) :=
  c ← is_connected self;
  if negb c then mret None
  else
    try_except
      (freq_str ← _safe_call (xmlrpc rig_get_vfo);
       frequency ← or_raise (Py.int_float freq_str);
       mret (Some frequency))
      (mret None).

Definition set_frequency (self : nat) (frequency : Z) : M World bool :=
  c ← is_connected self;
  if negb c then mret false
  else
    try_except
      (x ← or_raise (Py.float_of_int frequency);
       _safe_call (xmlrpc (rig_set_vfo x));;
       mret true)
      (mret false).

Definition get_mode (self : nat) : M World (option string) :=
  c ← is_connected self;
  if negb c then mret None
  else
    try_except
      (mode ← _safe_call (xmlrpc rig_get_mode);
       mret (Some mode))
      (mret None).

Definition valid_modes : list string :=
  ["USB"; "LSB"; "CW"; "AM"; "FM"; "CW-R"; "RTTY"; "RTTY-R"].

Definition set_mode (self : nat) (mode : string) : M World bool :=
  c ← is_connected self;
  if negb c then mret false
  else if negb (bool_decide (Py.upper mode ∈ valid_modes)) then mret false
  else
    try_except
      (_safe_call (xmlrpc (rig_set_mode (Py.upper mode)));;
       mret true)
      (mret false).

Definition get_bandwidth (self : nat) : M World (option Z) :=
  c ← is_connected self;
  if negb c then mret None
  else
    try_except
      (bw_result ← _safe_call (xmlrpc rig_get_bw);
       match bw_result with
       | BwList [] => mret None
       | BwList (bw_str :: _) | BwStr bw_str =>
           bandwidth ← or_raise (Py.int_float bw_str);
           mret (Some bandwidth)
       end)
      (mret None).

Definition set_bandwidth (self : nat) (bandwidth : Z) : M World bool :=
  c ← is_connected self;
  if negb c then mret false
  else
    try_except
      (x ← or_raise (Py.float_of_int bandwidth);
       _safe_call (xmlrpc (rig_set_bw x));;
       mret true)
      (mret false).

Definition get_power (self : nat) : M World (option Py.float) :=
  c ← is_connected self;
  if negb c then mret None
  else
    try_except
      (power ← _safe_call (xmlrpc rig_get_power);
       mret (Some power))
      (mret None).

Definition set_power (self : nat) (power : Py.float) : M World bool :=
  c ← is_connected self;
  if negb c then mret false
  else if negb (Py.float_le (Py.Finite 0) power && Py.float_le power (Py.Finite 10))
  then mret false
  else
    try_except
      (_safe_call (xmlrpc (rig_set_power power));;
       mret true)
      (mret false).

Definition get_ptt (self : nat) : M World (option bool) :=
  c ← is_connected self;
  if negb c then mret None
  else
    try_except
      (ptt_state ← xmlrpc rig_get_ptt;
       mret (Some (negb (ptt_state =? 0))))
      (mret None).

Definition set_ptt (self : nat) (state : bool) : M World bool :=
  c ← is_connected self;
  if negb c then mret false
  else
    try_except
      (let ptt_value := if state then 1 else 0 in
       xmlrpc (rig_set_ptt ptt_value);;
       mret true)
      (mret false).

(** [RigState], the complete state of the radio. *)
Record RigState := {
  frequency : Z;
  mode : string;
  bandwidth : Z;
  power : Py.float;
  connected : bool;
}.

Definition get_state (self : nat) : M World (option RigState) :=
  c ← is_connected self;
  if negb c then mret None
  else
    try_except
      (frequency ← get_frequency self;
       mode ← get_mode self;
       bandwidth ← get_bandwidth self;
       power ← get_power self;
       match frequency, mode, bandwidth, power with
       | Some frequency, Some mode, Some bandwidth, Some power =>
           mret (Some {| frequency := frequency; mode := mode;
                         bandwidth := bandwidth; power := power;
                         connected := true |})
       | _, _, _, _ => mret None
       end)
      (mret None).

End RigControl.
End RigControl.

(** ** [scripts/frequency_sync.py]: class [SDRControl] *)

Module SDRControl.

Definition self_ (self : nat) : M World SdrObj := gets (fun w => sdrs w !!! self).

Definition update_self (self : nat) (f : SdrObj -> SdrObj) : M World unit :=
  modify (fun w => set_sdrs (<[self := f (sdrs w !!! self)]> (sdrs w)) w).

Definition set_connected (c : bool) (o : SdrObj) : SdrObj :=
  {| sdr_host := sdr_host o; sdr_port := sdr_port o; sock := sock o;
     sdr_connected := c |}.

(** [SDRControl(host, port)] *)
Definition __init__ (host : string) (port : Z) : M World nat := fun w =>
  let o := {| sdr_host := host; sdr_port := port; sock := false;
              sdr_connected := false |} in
  (Ret (length (sdrs w)), set_sdrs (sdrs w ++ [o]) w).

Definition set_sock (x : bool) (o : SdrObj) : SdrObj :=
  {| sdr_host := sdr_host o; sdr_port := sdr_port o; sock := x;
     sdr_connected := sdr_connected o |}.

(** What creating the socket and connecting it to SDR++ does. *)
Inductive Dial := NoSocket | Refused | Accepted.

Definition connect (self : nat) (net : Dial) : M World bool :=
  try_except
    (match net with
     | NoSocket => raise
     | Refused => update_self self (set_sock true);; raise
     | Accepted =>
         update_self self (set_sock true);;
         update_self self (set_connected true);;
         mret true
     end)
    (update_self self (set_connected false);;
     mret false).

Definition is_connected (self : nat) : M World bool :=
  o ← self_ self;
  mret (sdr_connected o && sock o).

(** [sock.sendall(f"{command}\n".encode('ascii'))] followed by
    [sock.recv(1024).decode('ascii')]. *)
Definition sendall_recv (command : string) : M World string := fun w =>
  if negb (Py.is_ascii command) then (Raise, w)
  else
    let w' := emit (SdrSent command) (saw_line command w) in
    match display w (display_seen w) command with
    | None => (Raise, w')
    | Some bytes =>
        let data := String.substring 0 1024 bytes in
        if Py.is_ascii data then (Ret data, w') else (Raise, w')
    end.

Definition send_command (self : nat) (command : string) : M World (option string) :=
  c ← is_connected self;
  if negb c then mret None
  else
    try_except
      (data ← sendall_recv command;
       let response := Py.strip data in
       mret (Some response))
      (update_self self (set_connected false);;
       mret None).

(** Truth value of an [Optional[str]]: neither [None] nor empty. *)
Definition truthy (response : option string) : bool :=
  match response with
  | Some (String _ _) => true
  | _ => false
  end.

Definition set_frequency (self : nat) (frequency : Z) : M World bool :=
  response ← send_command self ("F " ++ Py.str_of_int frequency);
  match response with
  | Some r => mret (truthy response && Py.contains "RPRT 0" r)
  | None => mret false
  end.

Definition get_frequency (self : nat) : M World (option Z) :=
  response ← send_command self "f";
  match response with
  | Some r => if truthy response then mret (Py.int_of_str r) else mret None
  | None => mret None
  end.

Definition set_mode (self : nat) (mode : string) : M World bool :=
  response ← send_command self ("M " ++ mode);
  match response with
  | Some r => mret (truthy response && Py.contains "RPRT 0" r)
  | None => mret false
  end.

(** [disconnect()]; closing the socket cannot leave its [try]. *)
Definition disconnect (self : nat) : M World unit :=
  update_self self (set_sock false);;
  update_self self (set_connected false).

End SDRControl.

(** ** [scripts/frequency_sync.py]: class [FrequencySync] *)

Module FrequencySync.
Section FrequencySync.
Context `{Py.FloatConv}.

(** The synchronizer: its two controllers by identity, and the
    cursors. *)
Record t := {
  rig : nat;
  sdr : nat;
  running : bool;
  last_rig_frequency : Z;
  last_sdr_frequency : Z;
  last_mode : string;
}.

Definition set_cursors (rf sf : Z) (s : t) : t :=
  {| rig := rig s; sdr := sdr s; running := running s;
     last_rig_frequency := rf; last_sdr_frequency := sf;
     last_mode := last_mode s |}.

Definition set_last_mode (m : string) (s : t) : t :=
  {| rig := rig s; sdr := sdr s; running := running s;
     last_rig_frequency := last_rig_frequency s;
     last_sdr_frequency := last_sdr_frequency s;
     last_mode := m |}.

(** [FrequencySync(flrig_host, flrig_port, sdr_host, sdr_port)] *)
Definition __init__ (flrig_host : string) (flrig_port : Z)
    (sdr_host : string) (sdr_port : Z) : M World t :=
  r ← RigControl.__init__ flrig_host flrig_port;
  d ← SDRControl.__init__ sdr_host sdr_port;
  mret {| rig := r; sdr := d; running := false;
          last_rig_frequency := 0; last_sdr_frequency := 0;
          last_mode := "" |}.

Definition self_ {A} (f : t -> A) : M (t * World) A := gets (fun sw => f sw.1).

Definition update_self (f : t -> t) : M (t * World) unit :=
  modify (fun sw => (f sw.1, sw.2)).

Definition connect (net : SDRControl.Dial) : M (t * World) bool :=
  r ← self_ rig;
  d ← self_ sdr;
  rig_ok ← lift (RigControl.connect r);
  sdr_ok ← lift (SDRControl.connect d net);
  mret (rig_ok && sdr_ok).

(** The second half of [sync_once], from "Detect which source
    changed" on, with the three values read.  [freq_ok] is [false]
    when an arm of the frequency conditional leaves the method with
    [return False]; nothing runs after that. *)
Definition propagate (rig_frequency sdr_frequency : Z) (rig_mode : string)
    : M (t * World) bool :=
  r ← self_ rig;
  d ← self_ sdr;
  last_rig ← self_ last_rig_frequency;
  last_sdr ← self_ last_sdr_frequency;
  last_m ← self_ last_mode;
  let rig_changed := negb (rig_frequency =? last_rig) in
  let sdr_changed := negb (sdr_frequency =? last_sdr) in
  let mode_changed := negb (String.eqb rig_mode last_m) in
  freq_ok ←
    (if rig_changed && sdr_changed then
       ok ← lift (SDRControl.set_frequency d rig_frequency);
       if ok : bool then
         update_self (set_cursors rig_frequency rig_frequency);; mret true
       else mret false
     else if rig_changed then
       ok ← lift (SDRControl.set_frequency d rig_frequency);
       if ok : bool then
         update_self (set_cursors rig_frequency rig_frequency);; mret true
       else mret false
     else if sdr_changed then
       ok ← lift (RigControl.set_frequency r sdr_frequency);
       if ok : bool then
         update_self (set_cursors sdr_frequency sdr_frequency);; mret true
       else mret false
     else mret true);
  if negb freq_ok then mret false
  else if mode_changed then
    ok ← lift (SDRControl.set_mode d rig_mode);
    if ok : bool then update_self (set_last_mode rig_mode);; mret true
    else mret false
  else mret true.

(** One cycle: the three reads, the two checks on what they gave, then
    [propagate]. *)
Definition sync_once : M (t * World) bool :=
  r ← self_ rig;
  d ← self_ sdr;
  rig_frequency ← lift (RigControl.get_frequency r);
  sdr_frequency ← lift (SDRControl.get_frequency d);
  rig_mode ← lift (RigControl.get_mode r);
  match rig_frequency, rig_mode with
  | Some rig_frequency, Some rig_mode =>
      last_sdr ← self_ last_sdr_frequency;
      let sdr_frequency := default last_sdr sdr_frequency in
      propagate rig_frequency sdr_frequency rig_mode
  | _, _ => mret false
  end.

Definition set_running (r : bool) (s : t) : t :=
  {| rig := rig s; sdr := sdr s; running := r;
     last_rig_frequency := last_rig_frequency s;
     last_sdr_frequency := last_sdr_frequency s;
     last_mode := last_mode s |}.

(** [start()]; the thread it starts runs [sync_loop]. *)
Definition start : M (t * World) bool :=
  running ← self_ running;
  if running : bool then mret false
  else
    r ← self_ rig;
    d ← self_ sdr;
    rig_ok ← lift (RigControl.is_connected r);
    sdr_ok ← lift (SDRControl.is_connected d);
    if negb rig_ok || negb sdr_ok then mret false
    else
      sync_once;;
      update_self (set_running true);;
      mret true.

(** [stop()]; the [join(timeout=2.0)] changes nothing that is
    modelled. *)
Definition stop : M (t * World) unit :=
  running ← self_ running;
  if running : bool then update_self (set_running false) else mret tt.

Definition disconnect : M (t * World) unit :=
  stop;;
  r ← self_ rig;
  d ← self_ sdr;
  lift (RigControl.disconnect r);;
  lift (SDRControl.disconnect d).

(** The first [n] turns of [sync_loop].  [sync_interval], in ms, is
    the attribute the constructor sets and nothing assigns again. *)
Fixpoint sync_loop (sync_interval : Z) (n : nat) : M (t * World) unit :=
  match n with
  | O => mret tt
  | S n' =>
      running ← self_ running;
      if running : bool then
        try_except
          (sync_once;; lift (sleep sync_interval))
          (lift (sleep 1000));;
        sync_loop sync_interval n'
      else mret tt
  end.

End FrequencySync.
End FrequencySync.

(** ** [scripts/rigctld_bridge.py]: class [RigctldBridge] *)

Module RigctldBridge.
Section RigctldBridge.
Context `{Py.FloatConv}.

(** A [dict] from strings to strings, in insertion order. *)
Definition dict := list (string * string).

(** [d[k] = v]: an existing key keeps its place and takes the new
    value, a new key goes last. *)
Fixpoint dict_set (k v : string) (d : dict) : dict :=
  match d with
  | [] => [(k, v)]
  | (k', v') :: d' =>
      if String.eqb k k' then (k, v) :: d' else (k', v') :: dict_set k v d'
  end.

(** [d.get(k, dflt)] *)
Fixpoint dict_get (k : string) (d : dict) (dflt : string) : string :=
  match d with
  | [] => dflt
  | (k', v') :: d' => if String.eqb k k' then v' else dict_get k d' dflt
  end.

Definition mode_map_init : dict :=
  [ ("USB", "USB"); ("LSB", "LSB"); ("CW", "CW"); ("CWR", "CW-R");
    ("AM", "AM"); ("FM", "FM"); ("RTTY", "RTTY"); ("RTTYR", "RTTY-R");
    ("PKTUSB", "USB"); ("PKTLSB", "LSB") ].

(** [{v: k for k, v in mode_map.items()}] *)
Definition reverse_dict (d : dict) : dict :=
  foldl (fun acc kv => dict_set kv.2 kv.1 acc) [] d.

Record t := {
  host : string;
  port : Z;
  rig : nat;
  owns_rig : bool;
  server_socket : bool;
  running : bool;
  server_thread : bool;
  ptt_on_time : option Z;
  ptt_timeout : Z;
  ptt_monitor_thread : bool;
  mode_map : dict;
  mode_map_reverse : dict;
}.

Definition set_running (r : bool) (b : t) : t :=
  {| host := host b; port := port b; rig := rig b; owns_rig := owns_rig b;
     server_socket := server_socket b; running := r;
     server_thread := server_thread b; ptt_on_time := ptt_on_time b;
     ptt_timeout := ptt_timeout b; ptt_monitor_thread := ptt_monitor_thread b;
     mode_map := mode_map b; mode_map_reverse := mode_map_reverse b |}.

Definition set_server_socket (x : bool) (b : t) : t :=
  {| host := host b; port := port b; rig := rig b; owns_rig := owns_rig b;
     server_socket := x; running := running b;
     server_thread := server_thread b; ptt_on_time := ptt_on_time b;
     ptt_timeout := ptt_timeout b; ptt_monitor_thread := ptt_monitor_thread b;
     mode_map := mode_map b; mode_map_reverse := mode_map_reverse b |}.

Definition set_threads (x : bool) (b : t) : t :=
  {| host := host b; port := port b; rig := rig b; owns_rig := owns_rig b;
     server_socket := server_socket b; running := running b;
     server_thread := x; ptt_on_time := ptt_on_time b;
     ptt_timeout := ptt_timeout b; ptt_monitor_thread := x;
     mode_map := mode_map b; mode_map_reverse := mode_map_reverse b |}.

Definition set_ptt_on_time (x : option Z) (b : t) : t :=
  {| host := host b; port := port b; rig := rig b; owns_rig := owns_rig b;
     server_socket := server_socket b; running := running b;
     server_thread := server_thread b; ptt_on_time := x;
     ptt_timeout := ptt_timeout b; ptt_monitor_thread := ptt_monitor_thread b;
     mode_map := mode_map b; mode_map_reverse := mode_map_reverse b |}.

(** [RigctldBridge(host, port, flrig_host, flrig_port, rig_control)];
    [rig_control] is [None] or a [RigControl] instance, which is always
    true as a condition. *)
Definition __init__ (host : string) (port : Z) (flrig_host : string)
    (flrig_port : Z) (rig_control : option nat) : M World t :=
  '(r, owns) ←
    match rig_control with
    | Some r => mret (r, false)
    | None => r ← RigControl.__init__ flrig_host flrig_port; mret (r, true)
    end;
  mret {| host := host; port := port; rig := r; owns_rig := owns;
          server_socket := false; running := false; server_thread := false;
          ptt_on_time := None; ptt_timeout := 180000;
          ptt_monitor_thread := false;
          mode_map := mode_map_init;
          mode_map_reverse := reverse_dict mode_map_init |}.

Definition self_ {A} (f : t -> A) : M (t * World) A := gets (fun sw => f sw.1).

Definition update_self (f : t -> t) : M (t * World) unit :=
  modify (fun sw => (f sw.1, sw.2)).

Definition connect_to_rig : M (t * World) bool :=
  owns ← self_ owns_rig;
  r ← self_ rig;
  if negb owns then lift (RigControl.is_connected r)
  else
    ok ← lift (RigControl.connect r);
    if negb ok then mret false else mret true.

(** What creating, binding and listening on the server socket does. *)
Inductive Listen := SocketFails | BindFails | Listening.

Definition start (net : Listen) : M (t * World) bool :=
  r ← self_ running;
  if r : bool then mret false
  else
    ok ← connect_to_rig;
    if negb ok then mret false
    else
      match net with
      | SocketFails => mret false
      | BindFails => update_self (set_server_socket true);; mret false
      | Listening =>
          update_self (set_server_socket true);;
          update_self (set_running true);;
          update_self (set_threads true);;
          mret true
      end.

(** Truth value of [self.ptt_on_time], an [Optional[float]]. *)
Definition truthy_time (x : option Z) : bool :=
  match x with
  | Some t => negb (t =? 0)
  | None => false
  end.

Definition _set_ptt (state : bool) : M (t * World) bool :=
  r ← self_ rig;
  try_except
    (if state then
       ok ← lift (RigControl.set_ptt r true);
       if ok : bool then
         t ← lift time;
         update_self (set_ptt_on_time (Some t));;
         mret true
       else mret false
     else
       ok ← lift (RigControl.set_ptt r false);
       if ok : bool then
         update_self (set_ptt_on_time None);;
         mret true
       else mret false)
    (try_except
       (lift (RigControl.set_ptt r false);;
        update_self (set_ptt_on_time None))
       (mret tt);;
     mret false).

(** [stop()]; closing the socket cannot leave the [try], and the two
    [join(timeout=2.0)] change nothing that is modelled. *)
Definition stop : M (t * World) unit :=
  r ← self_ running;
  if negb r then mret tt
  else
    update_self (set_running false);;
    update_self (set_server_socket false);;
    try_except (_set_ptt false;; mret tt) (mret tt);;
    g ← self_ rig;
    lift (RigControl.disconnect g).

(** The body of [while self.running] in [_ptt_monitor_loop]. *)
Definition _ptt_monitor_iteration : M (t * World) unit :=
  try_except
    (on ← self_ ptt_on_time;
     (match on with
      | Some t0 =>
          if truthy_time on then
            t ← lift time;
            let duration := t - t0 in
            limit ← self_ ptt_timeout;
            if limit <? duration then _set_ptt false;; mret tt else mret tt
          else mret tt
      | None => mret tt
      end);;
     lift (sleep 1000))
    (lift (sleep 1000)).

(** The first [n] turns of [_ptt_monitor_loop]. *)
Fixpoint _ptt_monitor_loop (n : nat) : M (t * World) unit :=
  match n with
  | O => mret tt
  | S n' =>
      r ← self_ running;
      if r : bool then _ptt_monitor_iteration;; _ptt_monitor_loop n'
      else mret tt
  end.

Definition nl : string := String (ascii_of_N 10) "".

Definition _dump_state : string :=
"0
2
2
150000.000000 30000000.000000 0x1ff -1 -1 0x10000003 0x3
0 0 0 0 0 0 0
150000.000000 30000000.000000 0x1ff -1 -1 0x10000003 0x3
0 0 0 0 0 0 0
0 0
0 0
0x1ff 1
0x1ff 0
0 0
0x1e 2400
0x2 500
0x1 8000
0x1 2400
0x20 15000
0x20 8000
0x40 230000
0 0
9990
9990
10000
0
10
10
10000
1
1
1
0
0
0
".

Definition _process_command (command : string) : M (t * World) string :=
  let parts := Py.split command in
  match parts with
  | [] => mret "RPRT -1"
  | cmd :: args =>
      g ← self_ rig;
      try_except
        (if String.eqb cmd "f" then
           freq ← lift (RigControl.get_frequency g);
           match freq with
           | Some freq => mret (Py.str_of_int freq)
           | None => mret "RPRT -1"
           end
         else if String.eqb cmd "F" then
           match args with
           | [] => mret "RPRT -1"
           | a :: _ =>
               freq ← or_raise (Py.int_float a);
               ok ← lift (RigControl.set_frequency g freq);
               if ok : bool then mret "RPRT 0" else mret "RPRT -1"
           end
         else if String.eqb cmd "m" then
           mode ← lift (RigControl.get_mode g);
           match mode with
           | Some (String _ _ as mode) =>
               rev ← self_ mode_map_reverse;
               let hamlib_mode := dict_get mode rev "USB" in
               mret (hamlib_mode ++ nl ++ "0")%string
           | _ => mret "RPRT -1"
           end
         else if String.eqb cmd "M" then
           match args with
           | [] => mret "RPRT -1"
           | a :: _ =>
               let hamlib_mode := Py.upper a in
               fwd ← self_ mode_map;
               let flrig_mode := dict_get hamlib_mode fwd "USB" in
               ok ← lift (RigControl.set_mode g flrig_mode);
               if ok : bool then mret "RPRT 0" else mret "RPRT -1"
           end
         else if String.eqb cmd "t" then
           ptt ← lift (RigControl.get_ptt g);
           match ptt with
           | Some ptt => mret (if ptt : bool then "1" else "0")
           | None => mret "RPRT -1"
           end
         else if String.eqb cmd "T" then
           match args with
           | [] => mret "RPRT -1"
           | a :: _ =>
               ptt ← or_raise (Py.int_of_str a);
               ok ← _set_ptt (ptt =? 1);
               if ok : bool then mret "RPRT 0" else mret "RPRT -1"
           end
         else if String.eqb cmd "v" then mret "VFOA"
         else if String.eqb cmd "V" then mret "RPRT 0"
         else if String.eqb cmd "s" then mret ("0" ++ nl ++ "VFOA")%string
         else if String.eqb cmd "S" then mret "RPRT 0"
         else if String.eqb cmd "\dump_state" then mret _dump_state
         else if String.eqb cmd "\get_powerstat" then mret "1"
         else if String.eqb cmd "\chk_vfo" then mret "RPRT 0"
         else if String.eqb cmd "q" || String.eqb cmd "Q" then mret "RPRT 0"
         else mret "RPRT -1")
        (mret "RPRT -1")
  end.

(** What the client socket does at one turn of the loop of
    [_handle_client]: [recv] returns [data], empty when the peer has
    closed, and the [sendall] that follows succeeds or raises; or
    [recv] raises (nothing came for 30 s, or the connection was
    reset). *)
Inductive Read := Bytes (data : string) (sendall_ok : bool) | RecvRaises.

(** [_handle_client] for a client socket that makes the reads [reads]
    and is closed by the peer after them; the result lists what
    [sendall] sent, oldest first.  An exception leaves the loop: the
    [except] logs it and the [finally] closes the socket. *)
Fixpoint _handle_client (reads : list Read) : M (t * World) (list string) :=
  match reads with
  | [] => mret []
  | read :: rest =>
      r ← self_ running;
      if negb r then mret []
      else
        match read with
        | RecvRaises => mret []
        | Bytes data sendall_ok =>
            if String.eqb data "" then mret []
            else if negb (Py.is_ascii data) then mret []
            else
              let command := Py.strip data in
              if String.eqb command "" then _handle_client rest
              else
                out ← try_except
                        (response ← _process_command command; mret (Some response))
                        (mret None);
                match out with
                | None => mret []
                | Some response =>
                    if String.eqb response "" then _handle_client rest
                    else if negb (Py.is_ascii response) then mret []
                    else if negb sendall_ok then mret []
                    else
                      sent ← _handle_client rest;
                      mret ((response ++ nl)%string :: sent)
                end
        end
  end.

End RigctldBridge.
End RigctldBridge.

(** ** Test doubles: endpoints that behave, endpoints that fail *)

Module Fake.

(** Decimal conversions without rounding: [float(n)] is [n], and
    [float(s)] reads an unsigned [digits] or [digits.digits]. *)
Fixpoint until_dot (s : string) : string * option string :=
  match s with
  | EmptyString => (EmptyString, None)
  | String c s' =>
      if (N_of_ascii c =? 46)%N then (EmptyString, Some s')
      else let '(a, b) := until_dot s' in (String c a, b)
  end.

Definition decimal_of_str (s : string) : option Py.float :=
  let '(ip, fp) := until_dot s in
  i ← Py.int_digits ip 0 false;
  match fp with
  | None => Some (Py.Finite (i # 1))
  | Some fs =>
      f ← Py.int_digits fs 0 false;
      let scale := 10 ^ Z.of_nat (String.length fs) in
      Some (Py.Finite ((i * scale + f) # Z.to_pos scale))
  end.

Definition exact : Py.FloatConv :=
  {| Py.float_of_int := fun n => Some (Py.Finite (n # 1));
     Py.float_of_str := decimal_of_str |}.

(** A rig that stores the last value set. *)
Record Rig := { st_vfo : Z; st_mode : string; st_ptt : Z }.

Definition serve (st : Rig) (r : Request) : Rig :=
  match r with
  | rig_set_vfo x =>
      {| st_vfo := default (st_vfo st) (Py.int_of_float x);
         st_mode := st_mode st; st_ptt := st_ptt st |}
  | rig_set_mode m => {| st_vfo := st_vfo st; st_mode := m; st_ptt := st_ptt st |}
  | rig_set_ptt v => {| st_vfo := st_vfo st; st_mode := st_mode st; st_ptt := v |}
  | _ => st
  end.

Definition answer (st : Rig) (r : Request) : reply_type r :=
  match r return reply_type r with
  | rig_get_xcvr => "Xiegu-G90"
  | rig_get_vfo => Py.str_of_int (st_vfo st)
  | rig_get_mode => st_mode st
  | rig_get_bw => BwList ["2400"]
  | rig_get_power => Py.Finite 5
  | rig_get_ptt => st_ptt st
  | rig_set_vfo _ | rig_set_mode _ | rig_set_bw _ | rig_set_power _
  | rig_set_ptt _ => tt
  end.

(** FlRig in front of such a rig, answering after [took] ms. *)
Definition server (init : Rig) (took : N) : FlRig := fun seen r =>
  (Ok (answer (foldl serve init seen) r), took).

(** The same, except that the requests selected by [bad] raise. *)
Definition faulty (bad : Request -> bool) (f : FlRig) : FlRig := fun seen r =>
  if bad r then (Fault, (f seen r).2) else f seen r.

(** The request [rig.set_ptt(0)]. *)
Definition is_ptt_off (r : Request) : bool :=
  match r with
  | rig_set_ptt 0 => true
  | _ => false
  end.

(** The request [rig.get_vfo()]. *)
Definition is_get_vfo (r : Request) : bool :=
  match r with
  | rig_get_vfo => true
  | _ => false
  end.

(** The request [rig.set_vfo(x)]. *)
Definition is_set_vfo (r : Request) : bool :=
  match r with
  | rig_set_vfo _ => true
  | _ => false
  end.

(** An SDR++ that reports [hz] and accepts every command. *)
Definition sdrpp (hz : string) : Display := fun _ line =>
  if String.eqb line "f" then Some hz else Some "RPRT 0".

(** An SDR++ that reports [first] the first time it is asked, [later]
    from then on. *)
Definition retuned (first later : string) : Display := fun seen line =>
  if String.eqb line "f"
  then Some (if bool_decide ("f" ∈ seen) then later else first)
  else Some "RPRT 0".

Definition g90 : Rig := {| st_vfo := 14074000; st_mode := "USB"; st_ptt := 0 |}.

(** The world before any object exists. *)
Definition boot (f : FlRig) (d : Display) : World :=
  {| now := 1700000000000; _last_request_time := 0; lock_depth := 0;
     rigs := []; sdrs := []; flrig := f; flrig_seen := [];
     display := d; display_seen := []; trace := [] |}.

(** The world once a [RigControl] has been created and connected; it
    is instance 0. *)
Definition station (f : FlRig) (d : Display) : World :=
  ((r ← RigControl.__init__ "127.0.0.1" 12345; RigControl.connect r) (boot f d)).2.

(** A bridge that has been started.  With [shared], the caller has
    created and connected the gateway and hands it to the bridge;
    without, the bridge creates its own. *)
Definition bridge (shared : bool) (f : FlRig) (d : Display) : RigctldBridge.t * World :=
  let w := if shared then station f d else boot f d in
  let rig_control := if shared then Some 0%nat else None in
  match RigctldBridge.__init__ "0.0.0.0" 4532 "127.0.0.1" 12345 rig_control w with
  | (Ret b, w') => (RigctldBridge.start RigctldBridge.Listening (b, w')).2
  | (Raise, w') =>
      ({| RigctldBridge.host := ""; RigctldBridge.port := 0;
          RigctldBridge.rig := 0; RigctldBridge.owns_rig := false;
          RigctldBridge.server_socket := false; RigctldBridge.running := false;
          RigctldBridge.server_thread := false; RigctldBridge.ptt_on_time := None;
          RigctldBridge.ptt_timeout := 0; RigctldBridge.ptt_monitor_thread := false;
          RigctldBridge.mode_map := []; RigctldBridge.mode_map_reverse := [] |}, w')
  end.

(** The started bridge after a client has sent [T 1]. *)
Definition keyed `{Py.FloatConv} (shared : bool) (f : FlRig) (d : Display)
    : RigctldBridge.t * World :=
  (RigctldBridge._process_command "T 1" (bridge shared f d)).2.

(** A synchronizer, created and connected, after its first cycle. *)
Definition synchronizer `{Py.FloatConv} (f : FlRig) (d : Display)
    : FrequencySync.t * World :=
  match FrequencySync.__init__ "127.0.0.1" 12345 "127.0.0.1" 4532 (boot f d) with
  | (Ret s, w) =>
      ((FrequencySync.connect SDRControl.Accepted;; FrequencySync.sync_once) (s, w)).2
  | (Raise, w) =>
      ({| FrequencySync.rig := 0; FrequencySync.sdr := 0;
          FrequencySync.running := false;
          FrequencySync.last_rig_frequency := 0;
          FrequencySync.last_sdr_frequency := 0;
          FrequencySync.last_mode := "" |}, w)
  end.

End Fake.

(** ** Callers of the gateway *)

(** The ten operations of the gateway. *)
Inductive Call :=
| GetFrequency
| SetFrequency (hz : Z)
| GetMode
| SetMode (mode : string)
| GetBandwidth
| SetBandwidth (hz : Z)
| GetPower
| SetPower (watts : Py.float)
| GetPtt
| SetPtt (on : bool).

Definition perform `{Py.FloatConv} (g : nat) (c : Call) : M World unit :=
  match c with
  | GetFrequency => RigControl.get_frequency g;; mret tt
  | SetFrequency hz => RigControl.set_frequency g hz;; mret tt
  | GetMode => RigControl.get_mode g;; mret tt
  | SetMode mode => RigControl.set_mode g mode;; mret tt
  | GetBandwidth => RigControl.get_bandwidth g;; mret tt
  | SetBandwidth hz => RigControl.set_bandwidth g hz;; mret tt
  | GetPower => RigControl.get_power g;; mret tt
  | SetPower watts => RigControl.set_power g watts;; mret tt
  | GetPtt => RigControl.get_ptt g;; mret tt
  | SetPtt on => RigControl.set_ptt g on;; mret tt
  end.

(** Calls made one after the other, each on the instance named, after
    the caller has let the given number of ms pass. *)
Definition session `{Py.FloatConv} (l : list (N * nat * Call)) (w : World) : World :=
  foldl (fun w x => (perform x.1.2 x.2 (set_now (now w + Z.of_N x.1.1) w)).2) w l.

(** The operations written with [_safe_call]. *)
Definition uses_safe_call (c : Call) : bool :=
  match c with
  | GetPtt | SetPtt _ => false
  | _ => true
  end.

(** ** Notions used in the statements *)

(** [RigControl.is_connected] as a function of the world. *)
Definition connected_in (w : World) (g : nat) : bool :=
  let o := rigs w !!! g in _connected o && bool_decide (proxy o <> None).

(** Whether FlRig, in the state it is in, answers [req] without
    raising, and how long it takes. *)
Definition succeeds (w : World) (req : Request) : bool :=
  match (flrig w (flrig_seen w) req).1 with Ok _ => true | Fault => false end.

(** What FlRig answers, as the result of a call. *)
Definition answer_of (w : World) (req : Request) : result (reply_type req) :=
  match (flrig w (flrig_seen w) req).1 with Ok v => Ret v | Fault => Raise end.

Definition took (w : World) (req : Request) : Z :=
  Z.of_N (flrig w (flrig_seen w) req).2.

(** The world after [req] went on the wire at time [t], with the lock
    held or not, and was answered; [stamp] tells whether the answer
    time is recorded in [_last_request_time]. *)
Definition served (t : Z) (locked stamp : bool) (req : Request) (w : World) : World :=
  {| now := t + took w req;
     _last_request_time := if stamp then t + took w req else _last_request_time w;
     lock_depth := lock_depth w; rigs := rigs w; sdrs := sdrs w;
     flrig := flrig w; flrig_seen := flrig_seen w ++ [req];
     display := display w; display_seen := display_seen w;
     trace := trace w ++ [Rpc t locked req] |}.

(** The time at which a request passed to [_safe_call] goes on the
    wire: now, or when the minimum interval since the last request has
    elapsed. *)
Definition slot (w : World) : Z :=
  Z.max (now w) (_last_request_time w + RigControl._min_request_interval).

(** The requests to FlRig in a trace, with the time each went on the
    wire. *)
Definition rpcs (tr : list Event) : list (Z * Request) :=
  omap (fun e => match e with Rpc t _ r => Some (t, r) | _ => None end) tr.

(** Every two consecutive requests are at least [d] ms apart. *)
Fixpoint spaced (d : Z) (l : list (Z * Request)) : Prop :=
  match l with
  | a :: (b :: _) as l' => a.1 + d <= b.1 /\ spaced d l'
  | _ => True
  end.

(** The same, as a test. *)
Fixpoint spacedb (d : Z) (l : list (Z * Request)) : bool :=
  match l with
  | a :: (b :: _) as l' => (a.1 + d <=? b.1) && spacedb d l'
  | _ => true
  end.

(** The last request on the trace went on the wire no later than the
    time recorded in [_last_request_time]. *)
Definition stamped (w : World) : Prop :=
  forall t r, last (rpcs (trace w)) = Some (t, r) -> t <= _last_request_time w.

(** The world after [RigControl.disconnect] of instance [g]. *)
Definition disconnected (g : nat) (w : World) : World :=
  (RigControl.disconnect g w).2.

(** The world after [SDRControl.send_command] of instance [d] was
    given [line]. *)
Definition told (d : nat) (line : string) (w : World) : World :=
  (SDRControl.send_command d line w).2.

(** The end of a cycle: the mode of the rig goes to SDR++ when it
    differs from the cursor, and the cursor follows when SDR++ took
    it. *)
Definition mode_step (m : string) (sw : FrequencySync.t * World)
    : result bool * (FrequencySync.t * World) :=
  if String.eqb m (FrequencySync.last_mode sw.1) then (Ret true, sw)
  else
    let r := SDRControl.set_mode (FrequencySync.sdr sw.1) m sw.2 in
    match r.1 with
    | Ret true => (Ret true, (FrequencySync.set_last_mode m sw.1, r.2))
    | _ => (Ret false, (sw.1, r.2))
    end.

(** [0 <= power <= 10] *)
Definition in_power_range (power : Py.float) : bool :=
  Py.float_le (Py.Finite 0) power && Py.float_le power (Py.Finite 10).

(** The two tables of a bridge are those [__init__] builds. *)
Definition tables_built (b : RigctldBridge.t) : Prop :=
  RigctldBridge.mode_map b = RigctldBridge.mode_map_init
  /\ RigctldBridge.mode_map_reverse b
     = RigctldBridge.reverse_dict RigctldBridge.mode_map_init.

(** The reply to [m] for a mode name. *)
Definition mode_reply (hamlib_mode : string) : string :=
  (hamlib_mode ++ RigctldBridge.nl ++ "0")%string.

(** A method of the bridge that leaves the bridge object as it is. *)
Definition keeps_bridge {A} (c : M (RigctldBridge.t * World) A) : Prop :=
  forall b w, (c (b, w)).2.1 = b.

(** The keys of a [dict]. *)
Definition keys (d : RigctldBridge.dict) : list string := d.*1.

(** The values of a [dict]. *)
Definition values (d : RigctldBridge.dict) : list string := d.*2.

(** ** Further notions *)

(** [stamped], as a test. *)
Definition stampedb (w : World) : bool :=
  match last (rpcs (trace w)) with
  | Some (t, _) => t <=? _last_request_time w
  | None => true
  end.

(** The first words [_process_command] knows. *)
Definition command_names : list string :=
  [ "f"; "F"; "m"; "M"; "t"; "T"; "v"; "V"; "s"; "S";
    "\dump_state"; "\get_powerstat"; "\chk_vfo"; "q"; "Q" ].

(** The commands answered without the gateway, with their replies. *)
Definition stub_replies : list (string * string) :=
  [ ("v", "VFOA"); ("V", "RPRT 0");
    ("s", ("0" ++ RigctldBridge.nl ++ "VFOA")%string); ("S", "RPRT 0");
    ("\dump_state", RigctldBridge._dump_state); ("\get_powerstat", "1");
    ("\chk_vfo", "RPRT 0"); ("q", "RPRT 0"); ("Q", "RPRT 0") ].

(** Every value a computation returns satisfies [P]. *)
Definition yields {S A} (P : A -> Prop) (c : M S A) : Prop :=
  forall s a, (c s).1 = Ret a -> P a.

(** A computation from which no exception escapes. *)
Definition never_raises {S A} (c : M S A) : Prop :=
  forall s, exists a, (c s).1 = Ret a.

(** [c], run from a state in [I], ends in a state in [I], whether it
    returns or raises, and every value it returns satisfies [P]. *)
Definition maintains {S A} (I : S -> Prop) (P : A -> Prop) (c : M S A) : Prop :=
  forall s, I s -> I (c s).2 /\ forall a, (c s).1 = Ret a -> P a.

(** A bridge that is running, with the tables [__init__] builds. *)
Definition serving (sw : RigctldBridge.t * World) : Prop :=
  tables_built sw.1 /\ RigctldBridge.running sw.1 = true.

(** A reply that [_handle_client] puts on the wire: not empty, and
    ASCII. *)
Definition sendable (reply : string) : Prop :=
  reply <> "" /\ Py.is_ascii reply = true.

(** A read of a client that is there: some ASCII bytes came, and the
    client takes the reply. *)
Definition live (r : RigctldBridge.Read) : Prop :=
  match r with
  | RigctldBridge.Bytes data sendall_ok =>
      data <> "" /\ Py.is_ascii data = true /\ sendall_ok = true
  | RigctldBridge.RecvRaises => False
  end.

(** The commands in a sequence of reads: each read stripped, the blank
    ones left out. *)
Definition commands (reads : list RigctldBridge.Read) : list string :=
  omap (fun r => match r with
                 | RigctldBridge.Bytes data _ =>
                     if String.eqb (Py.strip data) "" then None
                     else Some (Py.strip data)
                 | RigctldBridge.RecvRaises => None
                 end) reads.

(** The reply lines to a list of commands, one after the other. *)
Fixpoint replies `{Py.FloatConv} (cmds : list string)
    : M (RigctldBridge.t * World) (list string) :=
  match cmds with
  | [] => mret []
  | c :: cs =>
      response ← RigctldBridge._process_command c;
      sent ← replies cs;
      mret ((response ++ RigctldBridge.nl)%string :: sent)
  end.

(** The world after [n] ticks of [d] ms. *)
Definition later (d : Z) (n : nat) (w : World) : World :=
  set_now (now w + d * Z.of_nat n) w.

(** The two frequency cursors of a synchronizer hold the same value. *)
Definition cursors_agree (s : FrequencySync.t) : Prop :=
  FrequencySync.last_rig_frequency s = FrequencySync.last_sdr_frequency s.

(** [SDRControl.is_connected] as a function of the world. *)
Definition sdr_connected_in (w : World) (d : nat) : bool :=
  let o := sdrs w !!! d in sdr_connected o && sock o.


(** The requests to FlRig so far kept the minimum interval, and the
    time of the last one is on record. *)
Definition paced (w : World) : Prop :=
  stamped w /\ spaced 50 (rpcs (trace w)).

(** * Properties *)

(** ** The built-ins and the command table on examples *)

Example split_set_frequency :
  Py.split "F 14074000.000000" = ["F"; "14074000.000000"].
Proof. reflexivity. Qed.

Example split_runs_of_space :
  Py.split ("  M" ++ String (ascii_of_N 9) " cwr " ++ RigctldBridge.nl)%string
  = ["M"; "cwr"].
Proof. reflexivity. Qed.

Example strip_line : Py.strip ("  f" ++ RigctldBridge.nl)%string = "f".
Proof. reflexivity. Qed.

Example upper_mode : Py.upper "cw-r" = "CW-R".
Proof. reflexivity. Qed.

Example int_of_str_accepts :
  Py.int_of_str " -1_000 " = Some (-1000) /\ Py.int_of_str "+007" = Some 7.
Proof. split; reflexivity. Qed.

Example int_of_str_rejects :
  Py.int_of_str "1__0" = None /\ Py.int_of_str "" = None
  /\ Py.int_of_str "1.0" = None /\ Py.int_of_str "-" = None.
Proof. repeat split; reflexivity. Qed.

Example contains_report :
  Py.contains "RPRT 0" "xx RPRT 0" = true /\ Py.contains "RPRT 0" "RPRT -1" = false.
Proof. split; reflexivity. Qed.

Example str_of_int_signs :
  Py.str_of_int 14074000 = "14074000" /\ Py.str_of_int 0 = "0"
  /\ Py.str_of_int (-5) = "-5".
Proof. repeat split; reflexivity. Qed.

(** [F 14074000.000000] sets 14074000 Hz and replies [RPRT 0]; the
    unknown command [Z] replies [RPRT -1] and asks nothing of FlRig;
    a set followed by a get reads the value back. *)
Example command_table_samples :
  let s := Fake.bridge true (Fake.server Fake.g90 3) (Fake.sdrpp "14074000") in
  let f := @RigctldBridge._process_command Fake.exact "F 7100000.000000" s in
  let z := @RigctldBridge._process_command Fake.exact "Z" s in
  f.1 = Ret "RPRT 0"
  /\ trace f.2.2 = trace s.2 ++ [Rpc 1700000000053 true (rig_set_vfo (Py.Finite 7100000))]
  /\ (@RigctldBridge._process_command Fake.exact "f" f.2).1 = Ret "7100000"
  /\ z = (Ret "RPRT -1", s).
Proof. cbv zeta. repeat apply conj; vm_compute; reflexivity. Qed.

(** ** The CAT gateway *)

Section Gateway.
Context `{Py.FloatConv}.

Lemma xmlrpc_run (req : Request) (w : World) :
  xmlrpc req w =
    (answer_of w req,
     served (now w) (bool_decide (0 < lock_depth w)%nat) false req w).
Proof.
  unfold xmlrpc, answer_of, served, took.
  destruct (flrig w (flrig_seen w) req) as [[v|] n]; reflexivity.
Qed.

(** A call through [_safe_call] goes on the wire in its slot, with the
    lock held, and stamps the time of the answer. *)
Lemma safe_call_run (req : Request) (w : World) :
  RigControl._safe_call (xmlrpc req) w =
    (answer_of w req, served (slot w) true true req w).
Proof.
  unfold RigControl._safe_call, RigControl.with_flrig_lock, slot.
  unfold mbind, M_bind, time, gets, sleep, modify, try_except, mret, M_ret, raise.
  cbn [now _last_request_time set_lock_depth].
  unfold RigControl._min_request_interval.
  destruct (Z.ltb_spec (now w - _last_request_time w) 50) as [Hlt|Hge].
  - destruct (Z.ltb_spec (50 - (now w - _last_request_time w)) 0); [lia|].
    rewrite xmlrpc_run. unfold answer_of, served, took. cbn.
    replace (now w + (50 - (now w - _last_request_time w)))
      with (Z.max (now w) (_last_request_time w + 50)) by lia.
    destruct (flrig w (flrig_seen w) req) as [[v|] n]; reflexivity.
  - rewrite xmlrpc_run. unfold answer_of, served, took. cbn.
    replace (Z.max (now w) (_last_request_time w + 50)) with (now w) by lia.
    destruct (flrig w (flrig_seen w) req) as [[v|] n]; reflexivity.
Qed.

Lemma succeeds_answer (w : World) (req : Request) :
  succeeds w req = match answer_of w req with Ret _ => true | Raise => false end.
Proof. unfold succeeds, answer_of. destruct (flrig w (flrig_seen w) req).1; reflexivity. Qed.

Lemma is_connected_run (g : nat) (w : World) :
  RigControl.is_connected g w = (Ret (connected_in w g), w).
Proof. reflexivity. Qed.

End Gateway.

(** Unfolds the plumbing of a gateway method down to its remote call. *)
Ltac gateway_op :=
  unfold mbind, M_bind; rewrite ?is_connected_run;
  cbn [negb];
  unfold try_except, mbind, M_bind, mret, M_ret, or_raise, raise;
  rewrite ?safe_call_run, ?xmlrpc_run.

Section GatewayMethods.
Context `{Py.FloatConv}.

Lemma get_mode_run (g : nat) (w : World) :
  RigControl.get_mode g w =
    if connected_in w g
    then (Ret (match answer_of w rig_get_mode with Ret m => Some m | Raise => None end),
          served (slot w) true true rig_get_mode w)
    else (Ret None, w).
Proof.
  unfold RigControl.get_mode. gateway_op.
  destruct (connected_in w g); [|reflexivity]. gateway_op.
  destruct (answer_of w rig_get_mode); reflexivity.
Qed.

Lemma set_mode_run (g : nat) (mode : string) (w : World) :
  RigControl.set_mode g mode w =
    if connected_in w g && bool_decide (Py.upper mode ∈ RigControl.valid_modes)
    then (Ret (succeeds w (rig_set_mode (Py.upper mode))),
          served (slot w) true true (rig_set_mode (Py.upper mode)) w)
    else (Ret false, w).
Proof.
  unfold RigControl.set_mode. gateway_op.
  destruct (connected_in w g); [|reflexivity]. cbn [negb andb].
  destruct (bool_decide _); [|reflexivity]. gateway_op.
  rewrite succeeds_answer.
  destruct (answer_of w _); reflexivity.
Qed.

Lemma set_power_run (g : nat) (power : Py.float) (w : World) :
  RigControl.set_power g power w =
    if connected_in w g
       && (Py.float_le (Py.Finite 0) power && Py.float_le power (Py.Finite 10))
    then (Ret (succeeds w (rig_set_power power)),
          served (slot w) true true (rig_set_power power) w)
    else (Ret false, w).
Proof.
  unfold RigControl.set_power. gateway_op.
  destruct (connected_in w g); [|reflexivity]. cbn [negb andb].
  destruct (_ && _); [|reflexivity]. gateway_op.
  rewrite succeeds_answer.
  destruct (answer_of w _); reflexivity.
Qed.

Lemma get_ptt_run (g : nat) (w : World) :
  RigControl.get_ptt g w =
    if connected_in w g
    then (Ret (match answer_of w rig_get_ptt with
               | Ret v => Some (negb (v =? 0))
               | Raise => None
               end),
          served (now w) (bool_decide (0 < lock_depth w)%nat) false rig_get_ptt w)
    else (Ret None, w).
Proof.
  unfold RigControl.get_ptt. gateway_op.
  destruct (connected_in w g); [|reflexivity]. gateway_op.
  destruct (answer_of w rig_get_ptt); reflexivity.
Qed.

Lemma set_ptt_run (g : nat) (state : bool) (w : World) :
  let req := rig_set_ptt (if state then 1 else 0) in
  RigControl.set_ptt g state w =
    if connected_in w g
    then (Ret (succeeds w req),
          served (now w) (bool_decide (0 < lock_depth w)%nat) false req w)
    else (Ret false, w).
Proof.
  unfold RigControl.set_ptt. gateway_op.
  destruct (connected_in w g); [|reflexivity]. gateway_op.
  rewrite succeeds_answer.
  destruct (answer_of w _); reflexivity.
Qed.

Lemma get_frequency_run (g : nat) (w : World) :
  RigControl.get_frequency g w =
    if connected_in w g
    then (Ret (match answer_of w rig_get_vfo with
               | Ret s => Py.int_float s
               | Raise => None
               end),
          served (slot w) true true rig_get_vfo w)
    else (Ret None, w).
Proof.
  unfold RigControl.get_frequency. gateway_op.
  destruct (connected_in w g); [|reflexivity]. gateway_op.
  destruct (answer_of w rig_get_vfo) as [s|]; [|reflexivity].
  destruct (Py.int_float s); reflexivity.
Qed.

Lemma set_frequency_run (g : nat) (hz : Z) (w : World) :
  RigControl.set_frequency g hz w =
    match connected_in w g, Py.float_of_int hz with
    | true, Some x =>
        (Ret (succeeds w (rig_set_vfo x)),
         served (slot w) true true (rig_set_vfo x) w)
    | _, _ => (Ret false, w)
    end.
Proof.
  unfold RigControl.set_frequency. gateway_op.
  destruct (connected_in w g); [|reflexivity]. gateway_op.
  destruct (Py.float_of_int hz) as [x|]; [|reflexivity]. gateway_op.
  rewrite succeeds_answer.
  destruct (answer_of w _); reflexivity.
Qed.

Lemma set_bandwidth_run (g : nat) (hz : Z) (w : World) :
  RigControl.set_bandwidth g hz w =
    match connected_in w g, Py.float_of_int hz with
    | true, Some x =>
        (Ret (succeeds w (rig_set_bw x)),
         served (slot w) true true (rig_set_bw x) w)
    | _, _ => (Ret false, w)
    end.
Proof.
  unfold RigControl.set_bandwidth. gateway_op.
  destruct (connected_in w g); [|reflexivity]. gateway_op.
  destruct (Py.float_of_int hz) as [x|]; [|reflexivity]. gateway_op.
  rewrite succeeds_answer.
  destruct (answer_of w _); reflexivity.
Qed.

Lemma get_bandwidth_run (g : nat) (w : World) :
  RigControl.get_bandwidth g w =
    if connected_in w g
    then (Ret (match answer_of w rig_get_bw with
               | Ret (BwList []) | Raise => None
               | Ret (BwList (s :: _)) | Ret (BwStr s) => Py.int_float s
               end),
          served (slot w) true true rig_get_bw w)
    else (Ret None, w).
Proof.
  unfold RigControl.get_bandwidth. gateway_op.
  destruct (connected_in w g); [|reflexivity]. gateway_op.
  destruct (answer_of w rig_get_bw) as [[s|[|s l]]|]; try reflexivity;
    destruct (Py.int_float s); reflexivity.
Qed.

Lemma get_power_run (g : nat) (w : World) :
  RigControl.get_power g w =
    if connected_in w g
    then (Ret (match answer_of w rig_get_power with Ret p => Some p | Raise => None end),
          served (slot w) true true rig_get_power w)
    else (Ret None, w).
Proof.
  unfold RigControl.get_power. gateway_op.
  destruct (connected_in w g); [|reflexivity]. gateway_op.
  destruct (answer_of w rig_get_power); reflexivity.
Qed.

End GatewayMethods.

(** ** Spacing of the requests *)

Section Spacing.
Context `{Py.FloatConv}.

Lemma spaced_snoc (d : Z) (l : list (Z * Request)) (b : Z * Request) :
  spaced d l ->
  (forall a, last l = Some a -> a.1 + d <= b.1) ->
  spaced d (l ++ [b]).
Proof.
  induction l as [|a [|a' l] IH]; intros Hs Hl.
  - exact I.
  - cbn. split; [apply Hl; reflexivity | exact I].
  - destruct Hs as [Ha Hs]. split; [exact Ha|].
    apply IH; [exact Hs|]. intros x Hx. apply Hl. exact Hx.
Qed.

Lemma spacedb_spec (d : Z) (l : list (Z * Request)) :
  spacedb d l = true <-> spaced d l.
Proof.
  induction l as [|a [|b l] IH]; [easy | easy |].
  change (spacedb d (a :: b :: l)) with ((a.1 + d <=? b.1) && spacedb d (b :: l)).
  change (spaced d (a :: b :: l)) with (a.1 + d <= b.1 /\ spaced d (b :: l)).
  rewrite andb_true_iff, Z.leb_le, IH. reflexivity.
Qed.

Lemma not_spaced (d : Z) (l : list (Z * Request)) :
  spacedb d l = false -> ~ spaced d l.
Proof. intros Hb Hs. apply spacedb_spec in Hs. congruence. Qed.

Lemma rpcs_snoc (tr : list Event) (t : Z) (k : bool) (r : Request) :
  rpcs (tr ++ [Rpc t k r]) = rpcs tr ++ [(t, r)].
Proof. unfold rpcs. rewrite omap_app. reflexivity. Qed.

(** A request that went through [_safe_call] keeps the trace spaced
    and stamped. *)
Lemma served_in_slot_spaced (req : Request) (w : World) :
  stamped w ->
  spaced 50 (rpcs (trace w)) ->
  stamped (served (slot w) true true req w)
  /\ spaced 50 (rpcs (trace (served (slot w) true true req w))).
Proof.
  intros Hst Hsp. cbn [served trace]. rewrite rpcs_snoc. split.
  - intros t r. cbn [trace _last_request_time served].
    rewrite rpcs_snoc, last_snoc. intros [= <- <-]. unfold took. lia.
  - apply spaced_snoc; [exact Hsp|]. intros [t r] Hl. cbn.
    specialize (Hst t r Hl). unfold slot, RigControl._min_request_interval. lia.
Qed.

Lemma pause_keeps (ms : N) (w : World) :
  stamped w /\ spaced 50 (rpcs (trace w)) ->
  stamped (set_now (now w + Z.of_N ms) w)
  /\ spaced 50 (rpcs (trace (set_now (now w + Z.of_N ms) w))).
Proof. intros H0. exact H0. Qed.

(** Each of the eight operations written with [_safe_call] leaves the
    world as it is or puts one request on the wire in its slot. *)
Lemma perform_safe (g : nat) (c : Call) (w : World) :
  uses_safe_call c = true ->
  (perform g c w).2 = w
  \/ exists req, (perform g c w).2 = served (slot w) true true req w.
Proof.
  intros Hc. destruct c; try discriminate Hc; unfold perform, mbind, M_bind.
  - rewrite get_frequency_run. destruct (connected_in w g); eauto.
  - rewrite set_frequency_run.
    destruct (connected_in w g), (Py.float_of_int hz); eauto.
  - rewrite get_mode_run. destruct (connected_in w g); eauto.
  - rewrite set_mode_run. destruct (_ && _); eauto.
  - rewrite get_bandwidth_run. destruct (connected_in w g); eauto.
  - rewrite set_bandwidth_run.
    destruct (connected_in w g), (Py.float_of_int hz); eauto.
  - rewrite get_power_run. destruct (connected_in w g); eauto.
  - rewrite set_power_run. destruct (_ && _); eauto.
Qed.

Lemma session_cons (ms : N) (g : nat) (c : Call) (l : list (N * nat * Call)) (w : World) :
  session ((ms, g, c) :: l) w
  = session l (perform g c (set_now (now w + Z.of_N ms) w)).2.
Proof. reflexivity. Qed.

(** X1.  The eight operations written with [_safe_call], called in any
    order, on any instances, with any pauses: every two consecutive
    requests to FlRig are at least 50 ms apart. *)
Theorem safe_calls_are_spaced (l : list (N * nat * Call)) (w : World) :
  Forall (fun x => uses_safe_call x.2 = true) l ->
  stamped w ->
  spaced 50 (rpcs (trace w)) ->
  spaced 50 (rpcs (trace (session l w))).
Proof.
  intros Hl Hst Hsp.
  enough (stamped (session l w) /\ spaced 50 (rpcs (trace (session l w)))) by tauto.
  revert w Hst Hsp. induction Hl as [|[[ms g] c] l Hc _ IH]; intros w Hst Hsp.
  - split; assumption.
  - rewrite session_cons. cbn in Hc.
    destruct (pause_keeps ms w (conj Hst Hsp)) as [Hst' Hsp'].
    destruct (perform_safe g c (set_now (now w + Z.of_N ms) w) Hc) as [->|[req ->]].
    + apply IH; assumption.
    + destruct (served_in_slot_spaced req _ Hst' Hsp'). apply IH; assumption.
Qed.

End Spacing.

(** C1 (as the code has it).  [get_ptt] and [set_ptt] call the proxy
    directly, not through [_safe_call]: on a connected gateway a
    [set_ptt(True)] followed at once by a [get_ptt()] puts two requests
    on the wire without the lock held and 3 ms apart, the time the
    first one took, although the request before them was stamped less
    than 50 ms earlier; the trace is not spaced by the minimum
    interval. *)
Theorem ptt_calls_bypass_safe_call :
  let w := Fake.station (Fake.server Fake.g90 3) (Fake.sdrpp "14074000") in
  let w' := @session Fake.exact [(0%N, 0%nat, SetPtt true); (0%N, 0%nat, GetPtt)] w in
  connected_in w 0 = true
  /\ trace w = [Rpc 1700000000000 true rig_get_xcvr]
  /\ trace w' = trace w ++ [Rpc (now w) false (rig_set_ptt 1);
                            Rpc (now w + 3) false rig_get_ptt]
  /\ now w = 1700000000003
  /\ _last_request_time w' = _last_request_time w
  /\ ~ spaced 50 (rpcs (trace w')).
Proof.
  cbv zeta. repeat apply conj; try (vm_compute; reflexivity).
  apply not_spaced. vm_compute. reflexivity.
Qed.

(** ** Validation of arguments *)

Section Validation.
Context `{Py.FloatConv}.

(** C6 (amended).  [set_mode] with a mode whose upper-cased form is
    not one of the eight modes, and [set_power] with a power outside
    0..10, return [False] and leave the world as it is: no request
    goes to FlRig.  On a connected gateway, a mode whose upper-cased
    form is one of the eight and a power within 0..10 put the request
    on the wire, through [_safe_call], and the result tells whether
    FlRig answered. *)
Theorem set_mode_set_power_validate (g : nat) (w : World) :
  (forall mode, Py.upper mode ∉ RigControl.valid_modes ->
     RigControl.set_mode g mode w = (Ret false, w))
  /\ (forall power, in_power_range power = false ->
     RigControl.set_power g power w = (Ret false, w))
  /\ (forall mode, connected_in w g = true ->
     Py.upper mode ∈ RigControl.valid_modes ->
     RigControl.set_mode g mode w =
       (Ret (succeeds w (rig_set_mode (Py.upper mode))),
        served (slot w) true true (rig_set_mode (Py.upper mode)) w))
  /\ (forall power, connected_in w g = true ->
     in_power_range power = true ->
     RigControl.set_power g power w =
       (Ret (succeeds w (rig_set_power power)),
        served (slot w) true true (rig_set_power power) w)).
Proof.
  repeat split.
  - intros mode Hm. rewrite set_mode_run, (bool_decide_eq_false_2 _ Hm).
    rewrite andb_false_r. reflexivity.
  - intros power Hp. rewrite set_power_run. fold (in_power_range power).
    rewrite Hp, andb_false_r. reflexivity.
  - intros mode Hc Hm. rewrite set_mode_run, Hc, (bool_decide_eq_true_2 _ Hm).
    reflexivity.
  - intros power Hc Hp. rewrite set_power_run. fold (in_power_range power).
    rewrite Hc, Hp. reflexivity.
Qed.

End Validation.

Lemma set_mode_set_power_validate_witness :
  let w := Fake.station (Fake.server Fake.g90 3) (Fake.sdrpp "14074000") in
  RigControl.set_mode 0 "SSB" w = (Ret false, w)
  /\ RigControl.set_power 0 (Py.Finite (21 # 2)) w = (Ret false, w)
  /\ RigControl.set_mode 0 "cw-r" w =
       (Ret true, served (slot w) true true (rig_set_mode "CW-R") w)
  /\ RigControl.set_power 0 (Py.Finite 5) w =
       (Ret true, served (slot w) true true (rig_set_power (Py.Finite 5)) w).
Proof.
  intros w.
  destruct (set_mode_set_power_validate 0 w) as (H1 & H2 & H3 & H4).
  split; [|split; [|split]].
  - apply H1. intros Hin. apply (bool_decide_eq_true_2 _) in Hin.
    vm_compute in Hin. discriminate Hin.
  - apply H2. reflexivity.
  - apply (H3 "cw-r"); [reflexivity|].
    apply (bool_decide_eq_true_1 _). reflexivity.
  - apply (H4 (Py.Finite 5)); reflexivity.
Defined.

(** C6 (as stated) fails on the code: "usb" is not one of the eight
    modes, yet [set_mode("usb")] on a connected gateway succeeds and
    sends [rig.set_mode("USB")] to FlRig. *)
Lemma set_mode_lower_case_reaches_flrig :
  let w := Fake.station (Fake.server Fake.g90 3) (Fake.sdrpp "14074000") in
  ("usb" ∉ RigControl.valid_modes)
  /\ (RigControl.set_mode 0 "usb" w).1 = Ret true
  /\ trace (RigControl.set_mode 0 "usb" w).2
     = trace w ++ [Rpc 1700000000053 true (rig_set_mode "USB")].
Proof.
  cbv zeta. split; [|split]; try (vm_compute; reflexivity).
  apply (bool_decide_eq_false_1 _). vm_compute. reflexivity.
Qed.

(** ** The bridge: PTT safety and shutdown *)

Section Bridge.
Context `{Py.FloatConv}.

Lemma lift_run {S A} (c : M World A) (s : S) (w : World) :
  lift c (s, w) = ((c w).1, (s, (c w).2)).
Proof. unfold lift. cbn. destruct (c w); reflexivity. Qed.

(** [_set_ptt]: one [rig.set_ptt] request, not through [_safe_call];
    the session start is recorded or cleared when FlRig answered. *)
Lemma _set_ptt_run (state : bool) (b : RigctldBridge.t) (w : World) :
  let req := rig_set_ptt (if state then 1 else 0) in
  let w' := served (now w) (bool_decide (0 < lock_depth w)%nat) false req w in
  RigctldBridge._set_ptt state (b, w) =
    if connected_in w (RigctldBridge.rig b) then
      if succeeds w req
      then (Ret true,
            (RigctldBridge.set_ptt_on_time (if state then Some (now w') else None) b, w'))
      else (Ret false, (b, w'))
    else (Ret false, (b, w)).
Proof.
  cbv zeta. unfold RigctldBridge._set_ptt, RigctldBridge.self_, RigctldBridge.update_self.
  unfold try_except, mbind, M_bind, gets, modify, mret, M_ret, time.
  cbn [fst snd]. destruct state.
  - rewrite lift_run, set_ptt_run.
    destruct (connected_in w (RigctldBridge.rig b)); [|reflexivity].
    cbn [fst snd]. destruct (succeeds w (rig_set_ptt 1)); reflexivity.
  - rewrite lift_run, set_ptt_run.
    destruct (connected_in w (RigctldBridge.rig b)); [|reflexivity].
    cbn [fst snd]. destruct (succeeds w (rig_set_ptt 0)); reflexivity.
Qed.

Lemma disconnected_trace (g : nat) (w : World) :
  trace (disconnected g w) = trace w ++ [Released g].
Proof. reflexivity. Qed.

Lemma disconnected_not_connected (g : nat) (w : World) :
  connected_in (disconnected g w) g = false.
Proof.
  unfold connected_in, disconnected, RigControl.disconnect, RigControl.update_self.
  unfold mbind, M_bind, modify. cbn [snd rigs set_rigs emit].
  destruct (decide (g < length (rigs w))%nat) as [Hlt|Hge].
  - rewrite !list_lookup_total_insert_eq; [reflexivity| |]; rewrite ?length_insert; exact Hlt.
  - rewrite !list_insert_ge by (rewrite ?length_insert; lia).
    rewrite list_lookup_total_alt, lookup_ge_None_2 by lia. reflexivity.
Qed.

Lemma stop_run (b : RigctldBridge.t) (w : World) :
  RigctldBridge.stop (b, w) =
    if RigctldBridge.running b then
      let b0 := RigctldBridge.set_server_socket false (RigctldBridge.set_running false b) in
      let s1 := (RigctldBridge._set_ptt false (b0, w)).2 in
      (Ret tt, (s1.1, disconnected (RigctldBridge.rig b) s1.2))
    else (Ret tt, (b, w)).
Proof.
  unfold RigctldBridge.stop, RigctldBridge.self_, RigctldBridge.update_self.
  unfold try_except, mbind, M_bind, gets, modify, mret, M_ret.
  cbn [fst snd]. destruct (RigctldBridge.running b); [|reflexivity].
  cbn [negb fst snd]. rewrite !_set_ptt_run. cbv zeta.
  cbn [RigctldBridge.rig RigctldBridge.set_server_socket RigctldBridge.set_running].
  destruct (connected_in w (RigctldBridge.rig b)).
  - destruct (succeeds w (rig_set_ptt 0)); cbn [fst snd]; rewrite lift_run; reflexivity.
  - cbn [fst snd]. rewrite lift_run. reflexivity.
Qed.

End Bridge.

Section Shutdown.
Context `{Py.FloatConv}.

(** C4.  [stop()] on a running bridge calls [_set_ptt(False)] and only
    then [rig.disconnect()], whatever FlRig answers: when the gateway
    is connected the request [rig.set_ptt(0)] goes on the wire, while
    the gateway is still connected, before the gateway is released;
    this holds with a PTT session open or not, and when the request
    raises. *)
Theorem stop_forces_ptt_off_before_release (b : RigctldBridge.t) (w : World) :
  RigctldBridge.running b = true ->
  let b0 := RigctldBridge.set_server_socket false (RigctldBridge.set_running false b) in
  let g := RigctldBridge.rig b in
  exists ok b1 w1,
    RigctldBridge._set_ptt false (b0, w) = (Ret ok, (b1, w1))
    /\ RigctldBridge.stop (b, w) = (Ret tt, (b1, disconnected g w1))
    /\ trace (disconnected g w1)
       = trace w
         ++ (if connected_in w g
             then [Rpc (now w) (bool_decide (0 < lock_depth w)%nat) (rig_set_ptt 0)]
             else [])
         ++ [Released g]
    /\ connected_in w1 g = connected_in w g
    /\ connected_in (disconnected g w1) g = false.
Proof.
  intros Hrun b0 g. rewrite stop_run, Hrun. cbv zeta. fold b0.
  rewrite _set_ptt_run. cbv zeta.
  change (RigctldBridge.rig b0) with g.
  destruct (connected_in w g) eqn:Hc.
  - destruct (succeeds w (rig_set_ptt 0));
      do 3 eexists; (split; [reflexivity|]); cbn [fst snd];
      (split; [reflexivity|]); rewrite disconnected_trace, disconnected_not_connected;
      cbn [trace served]; rewrite <- app_assoc; repeat split; exact Hc.
  - do 3 eexists. split; [reflexivity|]. cbn [fst snd]. split; [reflexivity|].
    rewrite disconnected_trace, disconnected_not_connected. repeat split. exact Hc.
Qed.

(** C3 (as the code has it).  [stop()] calls [self.rig.disconnect()]
    without looking at [owns_rig]: a running bridge that was handed a
    shared, connected gateway leaves it disconnected. *)
Theorem stop_releases_shared_gateway (b : RigctldBridge.t) (w : World) :
  RigctldBridge.running b = true ->
  RigctldBridge.owns_rig b = false ->
  connected_in w (RigctldBridge.rig b) = true ->
  let w' := (RigctldBridge.stop (b, w)).2.2 in
  connected_in w' (RigctldBridge.rig b) = false
  /\ last (trace w') = Some (Released (RigctldBridge.rig b)).
Proof.
  intros Hrun _ _. cbv zeta. rewrite stop_run, Hrun. cbv zeta. cbn [fst snd].
  split; [apply disconnected_not_connected|].
  rewrite disconnected_trace. apply last_snoc.
Qed.

End Shutdown.

Lemma stop_forces_ptt_off_before_release_witness :
  let s := @Fake.keyed Fake.exact false
             (Fake.faulty Fake.is_ptt_off (Fake.server Fake.g90 3))
             (Fake.sdrpp "14074000") in
  RigctldBridge.running s.1 = true
  /\ RigctldBridge.ptt_on_time s.1 = Some 1700000000006
  /\ exists b1 w1,
      RigctldBridge.stop s = (Ret tt, (b1, disconnected 0 w1))
      /\ trace (disconnected 0 w1)
         = trace s.2 ++ (if connected_in s.2 0
                         then [Rpc (now s.2) (bool_decide (0 < lock_depth s.2)%nat)
                                 (rig_set_ptt 0)]
                         else [])
           ++ [Released 0%nat]
      /\ connected_in w1 0 = connected_in s.2 0.
Proof.
  intros s.
  assert (Hrun : RigctldBridge.running s.1 = true) by (vm_compute; reflexivity).
  split; [exact Hrun|]. split; [vm_compute; reflexivity|].
  destruct (stop_forces_ptt_off_before_release s.1 s.2 Hrun)
    as (ok & b1 & w1 & Hptt & Hstop & Htr & Hc & _).
  exists b1, w1. rewrite <- surjective_pairing in Hstop.
  split; [exact Hstop|]. split; [exact Htr|exact Hc].
Defined.

Lemma stop_releases_shared_gateway_witness :
  let s := Fake.bridge true (Fake.server Fake.g90 3) (Fake.sdrpp "14074000") in
  let w' := (RigctldBridge.stop s).2.2 in
  connected_in s.2 0 = true
  /\ connected_in w' 0 = false
  /\ last (trace w') = Some (Released 0%nat)
  /\ (@RigControl.get_frequency Fake.exact 0 s.2).1 = Ret (Some 14074000)
  /\ (@RigControl.get_frequency Fake.exact 0 w').1 = Ret None.
Proof.
  intros s w'.
  destruct (stop_releases_shared_gateway s.1 s.2) as [H1 H2];
    try (vm_compute; reflexivity).
  rewrite <- surjective_pairing in H1, H2.
  split; [vm_compute; reflexivity|]. split; [exact H1|]. split; [exact H2|].
  split; vm_compute; reflexivity.
Defined.

(** ** The PTT watchdog *)

Section Watchdog.
Context `{Py.FloatConv}.

Lemma set_now_set_now (t u : Z) (w : World) :
  set_now t (set_now u w) = set_now t w.
Proof. reflexivity. Qed.

(** A turn of the watchdog with no session, or a session within the
    ceiling: one second passes, nothing else happens. *)
Lemma iteration_idle (b : RigctldBridge.t) (w : World) :
  match RigctldBridge.ptt_on_time b with
  | Some t0 => t0 = 0 \/ now w - t0 <= RigctldBridge.ptt_timeout b
  | None => True
  end ->
  RigctldBridge._ptt_monitor_iteration (b, w)
  = (Ret tt, (b, set_now (now w + 1000) w)).
Proof.
  intros Hidle.
  unfold RigctldBridge._ptt_monitor_iteration, RigctldBridge.self_.
  unfold try_except, mbind, M_bind, gets, mret, M_ret, time.
  cbn [fst snd]. destruct (RigctldBridge.ptt_on_time b) as [t0|]; [|reflexivity].
  unfold RigctldBridge.truthy_time. destruct (Z.eqb_spec t0 0) as [->|Hne].
  - reflexivity.
  - cbn [negb]. rewrite lift_run. cbn [fst snd gets].
    destruct (Z.ltb_spec (RigctldBridge.ptt_timeout b) (now w - t0)); [lia|].
    reflexivity.
Qed.

(** A turn of the watchdog with a session beyond the ceiling:
    [_set_ptt(False)], then one second passes. *)
Lemma iteration_fires (b : RigctldBridge.t) (w : World) (t0 : Z) :
  RigctldBridge.ptt_on_time b = Some t0 ->
  t0 <> 0 ->
  RigctldBridge.ptt_timeout b < now w - t0 ->
  RigctldBridge._ptt_monitor_iteration (b, w)
  = let s := (RigctldBridge._set_ptt false (b, w)).2 in
    (Ret tt, (s.1, set_now (now s.2 + 1000) s.2)).
Proof.
  intros Hon Hne Hlate.
  unfold RigctldBridge._ptt_monitor_iteration, RigctldBridge.self_.
  unfold try_except, mbind, M_bind, gets, mret, M_ret, time.
  cbn [fst snd]. rewrite Hon. unfold RigctldBridge.truthy_time.
  destruct (Z.eqb_spec t0 0) as [->|_]; [congruence|].
  cbn [negb]. rewrite lift_run. cbn [fst snd gets].
  destruct (Z.ltb_spec (RigctldBridge.ptt_timeout b) (now w - t0)); [|lia].
  rewrite !_set_ptt_run. cbv zeta.
  destruct (connected_in w (RigctldBridge.rig b)); [|reflexivity].
  destruct (succeeds w (rig_set_ptt 0)); reflexivity.
Qed.

(** While the session is within the ceiling the loop only lets time
    pass: [k] idle turns, then the rest of the loop. *)
Lemma loop_idle (k m : nat) (b : RigctldBridge.t) (w : World) (t0 : Z) :
  RigctldBridge.running b = true ->
  RigctldBridge.ptt_on_time b = Some t0 ->
  (k = 0%nat \/ now w + 1000 * (Z.of_nat k - 1) - t0 <= RigctldBridge.ptt_timeout b) ->
  RigctldBridge._ptt_monitor_loop (k + m) (b, w)
  = RigctldBridge._ptt_monitor_loop m (b, set_now (now w + 1000 * Z.of_nat k) w).
Proof.
  intros Hrun Hon. revert w. induction k as [|k IH]; intros w Hk.
  - cbn [Nat.add]. replace (now w + 1000 * Z.of_nat 0) with (now w) by lia.
    destruct w; reflexivity.
  - destruct Hk as [Hk|Hk]; [discriminate Hk|].
    cbn [Nat.add RigctldBridge._ptt_monitor_loop].
    unfold mbind, M_bind, RigctldBridge.self_, gets. cbn [fst snd]. rewrite Hrun.
    rewrite iteration_idle by (rewrite Hon; right; lia).
    rewrite IH by (cbn [now set_now]; destruct k; [left; reflexivity | right; lia]).
    cbn [now set_now]. rewrite set_now_set_now. f_equal. f_equal.
    unfold set_now. f_equal. lia.
Qed.

(** The watchdog on a session whose recorded start [t0] stands: no
    PTT-off and no further PTT-on comes while the watchdog, starting
    a turn no later than [t0 + 180 s], runs.  Then the first [n] turns
    do nothing but sleep one second each, and turn [n + 1], which
    starts at a time [t] later than [t0 + 180 s] by at most one
    second, is [_set_ptt(False)] followed by the sleep: with the
    gateway connected, [rig.set_ptt(0)] goes on the wire at [t], and
    the session is cleared when FlRig answers it. *)
Theorem watchdog_forces_ptt_off (b : RigctldBridge.t) (w : World) (t0 : Z) :
  RigctldBridge.running b = true ->
  RigctldBridge.ptt_on_time b = Some t0 ->
  t0 <> 0 ->
  RigctldBridge.ptt_timeout b = 180000 ->
  now w <= t0 + 180000 ->
  let n := Z.to_nat ((t0 + 180000 - now w) / 1000 + 1) in
  let t := now w + 1000 * Z.of_nat n in
  let forced := (RigctldBridge._set_ptt false (b, set_now t w)).2 in
  let out := RigctldBridge._ptt_monitor_loop (S n) (b, w) in
  t0 + 180000 < t <= t0 + 181000
  /\ (forall k, (k <= n)%nat ->
        RigctldBridge._ptt_monitor_loop k (b, w)
        = (Ret tt, (b, set_now (now w + 1000 * Z.of_nat k) w)))
  /\ out = (Ret tt, (forced.1, set_now (now forced.2 + 1000) forced.2))
  /\ (connected_in w (RigctldBridge.rig b) = true ->
      trace out.2.2
      = trace w ++ [Rpc t (bool_decide (0 < lock_depth w)%nat) (rig_set_ptt 0)]
      /\ (succeeds w (rig_set_ptt 0) = true ->
          RigctldBridge.ptt_on_time out.2.1 = None)).
Proof.
  intros Hrun Hon Hne Hto Hnow n t forced out.
  assert (Hn : Z.of_nat n = (t0 + 180000 - now w) / 1000 + 1).
  { subst n. apply Z2Nat.id.
    assert (0 <= (t0 + 180000 - now w) / 1000) by (apply Z.div_pos; lia). lia. }
  assert (Hdiv := Z.div_mod (t0 + 180000 - now w) 1000 ltac:(lia)).
  assert (Hmod := Z.mod_pos_bound (t0 + 180000 - now w) 1000 ltac:(lia)).
  assert (Ht : t0 + 180000 < t <= t0 + 181000) by (subst t; lia).
  assert (Hout : out = (Ret tt, (forced.1, set_now (now forced.2 + 1000) forced.2))).
  { subst out. replace (S n) with (n + 1)%nat by lia.
    rewrite (loop_idle n 1 b w t0 Hrun Hon) by (right; rewrite Hto; lia).
    fold t. cbn [RigctldBridge._ptt_monitor_loop].
    unfold mbind, M_bind, RigctldBridge.self_, gets, mret, M_ret. cbn [fst snd].
    rewrite Hrun.
    rewrite (iteration_fires b (set_now t w) t0 Hon Hne)
      by (rewrite Hto; cbn [now set_now]; lia).
    reflexivity. }
  split; [exact Ht|]. split; [|split; [exact Hout|]].
  - intros k Hk. replace k with (k + 0)%nat by lia.
    rewrite (loop_idle k 0 b w t0 Hrun Hon).
    + replace (k + 0)%nat with k by lia. reflexivity.
    + destruct k; [left; reflexivity|right]. rewrite Hto. lia.
  - intros Hc. rewrite Hout. subst forced. rewrite _set_ptt_run. cbv zeta.
    change (connected_in (set_now t w) (RigctldBridge.rig b))
      with (connected_in w (RigctldBridge.rig b)).
    change (succeeds (set_now t w) (rig_set_ptt 0)) with (succeeds w (rig_set_ptt 0)).
    rewrite Hc. destruct (succeeds w (rig_set_ptt 0)); cbn; split; try reflexivity.
    discriminate.
Qed.

(** *** Commands that leave the session alone *)

Lemma keeps_ret {A} (a : A) : keeps_bridge (mret a).
Proof. intros b w. reflexivity. Qed.

Lemma keeps_raise {A} : keeps_bridge (@raise _ A).
Proof. intros b w. reflexivity. Qed.

Lemma keeps_or_raise {A} (o : option A) : keeps_bridge (or_raise o).
Proof. intros b w. destruct o; reflexivity. Qed.

Lemma keeps_lift {A} (c : M World A) : keeps_bridge (lift c).
Proof. intros b w. rewrite lift_run. reflexivity. Qed.

Lemma keeps_self_ {A} (f : RigctldBridge.t -> A) : keeps_bridge (RigctldBridge.self_ f).
Proof. intros b w. reflexivity. Qed.

Lemma keeps_bind {A B} (c : M (RigctldBridge.t * World) A)
    (k : A -> M (RigctldBridge.t * World) B) :
  keeps_bridge c -> (forall a, keeps_bridge (k a)) -> keeps_bridge (c ≫= k).
Proof.
  intros Hc Hk b w. unfold mbind, M_bind. specialize (Hc b w).
  destruct (c (b, w)) as [[a|] [b' w']]; cbn [fst snd] in Hc |- *; subst b'.
  - apply Hk.
  - reflexivity.
Qed.

Lemma keeps_try {A} (body handler : M (RigctldBridge.t * World) A) :
  keeps_bridge body -> keeps_bridge handler -> keeps_bridge (try_except body handler).
Proof.
  intros Hb Hh b w. unfold try_except. specialize (Hb b w).
  destruct (body (b, w)) as [[a|] [b' w']]; cbn [fst snd] in Hb |- *; subst b'.
  - reflexivity.
  - apply Hh.
Qed.

Create HintDb keeps discriminated.
#[local] Hint Resolve keeps_ret keeps_raise keeps_or_raise keeps_lift keeps_self_
  keeps_try : keeps.

(** X11.  Every command other than [T] leaves the bridge object, and with it
    the PTT session, as it is: the session changes only by a PTT
    command or by the watchdog. *)
Lemma other_commands_keep_session (command cmd : string) (args : list string) :
  Py.split command = cmd :: args ->
  cmd <> "T" ->
  keeps_bridge (RigctldBridge._process_command command).
Proof.
  intros Hsplit Hcmd. unfold RigctldBridge._process_command. rewrite Hsplit.
  apply keeps_bind; [auto with keeps|]. intros g.
  apply keeps_try; [|auto with keeps].
  repeat match goal with
  | |- keeps_bridge (if String.eqb cmd ?x then _ else _) =>
      destruct (String.eqb_spec cmd x)
  | |- keeps_bridge (if String.eqb cmd ?x || String.eqb cmd ?y then _ else _) =>
      destruct (String.eqb cmd x || String.eqb cmd y)
  | |- keeps_bridge (_ ≫= _) => apply keeps_bind; [auto with keeps|intros ?]
  | |- keeps_bridge (match ?x with _ => _ end) => destruct x
  | |- keeps_bridge _ => solve [auto with keeps]
  end.
  contradiction.
Qed.

End Watchdog.

Lemma watchdog_forces_ptt_off_witness :
  let s := @Fake.keyed Fake.exact false (Fake.server Fake.g90 3) (Fake.sdrpp "14074000") in
  let t0 := 1700000000006 in
  let n := Z.to_nat ((t0 + 180000 - now s.2) / 1000 + 1) in
  let t := now s.2 + 1000 * Z.of_nat n in
  let out := RigctldBridge._ptt_monitor_loop (S n) (s.1, s.2) in
  RigctldBridge.ptt_on_time s.1 = Some t0
  /\ now s.2 = t0
  /\ n = 181%nat
  /\ t = t0 + 181000
  /\ trace out.2.2
     = trace s.2 ++ [Rpc t (bool_decide (0 < lock_depth s.2)%nat) (rig_set_ptt 0)]
  /\ RigctldBridge.ptt_on_time out.2.1 = None.
Proof.
  intros s t0 n t out.
  assert (Hrun : RigctldBridge.running s.1 = true) by (vm_compute; reflexivity).
  assert (Hon : RigctldBridge.ptt_on_time s.1 = Some t0) by (vm_compute; reflexivity).
  assert (Hne : t0 <> 0) by discriminate.
  assert (Hto : RigctldBridge.ptt_timeout s.1 = 180000) by (vm_compute; reflexivity).
  assert (Hc : connected_in s.2 (RigctldBridge.rig s.1) = true) by (vm_compute; reflexivity).
  assert (Hnow : now s.2 <= t0 + 180000) by (vm_compute; discriminate).
  destruct (watchdog_forces_ptt_off s.1 s.2 t0 Hrun Hon Hne Hto Hnow)
    as (_ & _ & _ & Hconn).
  destruct (Hconn Hc) as [Htr Hoff].
  split; [exact Hon|]. split; [vm_compute; reflexivity|].
  split; [vm_compute; reflexivity|]. split; [vm_compute; reflexivity|].
  split; [exact Htr|]. apply Hoff. vm_compute. reflexivity.
Defined.

(** C2 (as the code has it).  The transmitter stays keyed beyond the
    ceiling of 180 s that the bridge announces ("max 3 minutes, then
    auto-release").  A client keys the transmitter with [T 1] at [t0],
    the watchdog runs 100 turns, the client sends [T 1] again, and the
    watchdog runs 100 more turns: no PTT-off came and 200 s have
    passed since [t0], yet the watchdog has sent no [rig.set_ptt(0)]
    and the session is still open.  [_set_ptt(True)] assigns
    [ptt_on_time] on every PTT-on that succeeds, also while a session
    is open, so that the second [T 1] has restarted the clock the
    watchdog reads. *)
Lemma rekeyed_session_outlives_ceiling :
  let s1 := @Fake.keyed Fake.exact false (Fake.server Fake.g90 3) (Fake.sdrpp "14074000") in
  let s2 := (RigctldBridge._ptt_monitor_loop 100 s1).2 in
  let s3 := (@RigctldBridge._process_command Fake.exact "T 1" s2).2 in
  let s4 := (RigctldBridge._ptt_monitor_loop 100 s3).2 in
  let t0 := 1700000000006 in
  RigctldBridge.ptt_on_time s1.1 = Some t0
  /\ now s1.2 = t0
  /\ now s4.2 = t0 + 200003
  /\ RigctldBridge.running s4.1 = true
  /\ RigctldBridge.ptt_on_time s4.1 = Some (t0 + 100003)
  /\ trace s4.2 = [ Rpc 1700000000000 true rig_get_xcvr;
                    Rpc (t0 - 3) false (rig_set_ptt 1);
                    Rpc (t0 + 100000) false (rig_set_ptt 1) ].
Proof. cbv zeta. repeat apply conj; vm_compute; reflexivity. Qed.

(** ** The synchronizer *)

Section Synchronizer.
Context `{Py.FloatConv}.

(** [send_command] does not raise. *)
Lemma send_command_total (d : nat) (line : string) (w : World) :
  exists r, SDRControl.send_command d line w = (Ret r, told d line w).
Proof.
  unfold told, SDRControl.send_command, SDRControl.is_connected, SDRControl.self_.
  unfold try_except, mbind, M_bind, gets, mret, M_ret. cbn [fst snd].
  destruct (_ && _); cbn [negb]; [|eauto].
  destruct (SDRControl.sendall_recv line w) as [[data|] w']; eauto.
Qed.

(** [send_command] talks to SDR++ only: nothing of FlRig or of the
    gateways changes, and SDR++ has seen at most the line. *)
Lemma told_frame (d : nat) (line : string) (w : World) :
  flrig_seen (told d line w) = flrig_seen w
  /\ rigs (told d line w) = rigs w
  /\ rpcs (trace (told d line w)) = rpcs (trace w)
  /\ (display_seen (told d line w) = display_seen w
      \/ display_seen (told d line w) = display_seen w ++ [line]).
Proof.
  unfold told, SDRControl.send_command, SDRControl.is_connected, SDRControl.self_.
  unfold try_except, mbind, M_bind, gets, mret, M_ret. cbn [fst snd].
  destruct (_ && _); cbn [negb]; [|cbn; tauto].
  unfold SDRControl.sendall_recv.
  destruct (Py.is_ascii line); cbn [negb]; [|cbn; tauto].
  destruct (display w (display_seen w) line) as [bytes|].
  - destruct (Py.is_ascii _); cbn; unfold rpcs; rewrite omap_app, app_nil_r; tauto.
  - cbn; unfold rpcs; rewrite omap_app, app_nil_r; tauto.
Qed.

Lemma sdr_set_frequency_run (d : nat) (hz : Z) (w : World) :
  exists ok, SDRControl.set_frequency d hz w
             = (Ret ok, told d ("F " ++ Py.str_of_int hz) w).
Proof.
  unfold SDRControl.set_frequency, mbind, M_bind.
  destruct (send_command_total d ("F " ++ Py.str_of_int hz) w) as [r ->].
  destruct r; eauto.
Qed.

Lemma sdr_set_mode_run (d : nat) (mode : string) (w : World) :
  exists ok, SDRControl.set_mode d mode w = (Ret ok, told d ("M " ++ mode) w).
Proof.
  unfold SDRControl.set_mode, mbind, M_bind.
  destruct (send_command_total d ("M " ++ mode) w) as [r ->].
  destruct r; eauto.
Qed.

Lemma sdr_get_frequency_run (d : nat) (w : World) :
  exists r, SDRControl.get_frequency d w = (Ret r, told d "f" w).
Proof.
  unfold SDRControl.get_frequency, mbind, M_bind.
  destruct (send_command_total d "f" w) as [r ->].
  destruct r as [r|]; [|eauto]. destruct (SDRControl.truthy _); eauto.
Qed.

Lemma rig_set_frequency_total (g : nat) (hz : Z) (w : World) :
  exists ok, RigControl.set_frequency g hz w
             = (Ret ok, (RigControl.set_frequency g hz w).2).
Proof.
  rewrite set_frequency_run.
  destruct (connected_in w g), (Py.float_of_int hz); eauto.
Qed.

Lemma mode_step_run (m last_m : string) (d : nat) (s : FrequencySync.t) (w : World) :
  last_m = FrequencySync.last_mode s ->
  d = FrequencySync.sdr s ->
  (if negb (String.eqb m last_m) then
     ok ← lift (SDRControl.set_mode d m);
     if ok : bool
     then FrequencySync.update_self (FrequencySync.set_last_mode m);; mret true
     else mret false
   else mret true) (s, w)
  = mode_step m (s, w).
Proof.
  intros -> ->. unfold mode_step. cbn [fst snd].
  destruct (String.eqb m (FrequencySync.last_mode s)); [reflexivity|].
  cbn [negb]. unfold mbind, M_bind. rewrite lift_run.
  destruct (sdr_set_mode_run (FrequencySync.sdr s) m w) as [ok ->].
  cbn [fst snd]. destruct ok; reflexivity.
Qed.

(** An arm of the frequency conditional: the write, then the cursors
    when it succeeded. *)
Lemma arm_run (c : M World bool) (f : FrequencySync.t -> FrequencySync.t)
    (s : FrequencySync.t) (w w' : World) (ok : bool) :
  c w = (Ret ok, w') ->
  (ok ← lift c;
   if ok : bool then FrequencySync.update_self f;; mret true else mret false) (s, w)
  = (Ret ok, (if ok then f s else s, w')).
Proof.
  intros Hc. unfold mbind, M_bind. rewrite lift_run, Hc. cbn [fst snd].
  destruct ok; reflexivity.
Qed.

(** [propagate], arm by arm. *)
Lemma propagate_run (rf sf : Z) (m : string) (s : FrequencySync.t) (w : World) :
  FrequencySync.propagate rf sf m (s, w) =
    if negb (rf =? FrequencySync.last_rig_frequency s) then
      let push := SDRControl.set_frequency (FrequencySync.sdr s) rf w in
      match push.1 with
      | Ret true => mode_step m (FrequencySync.set_cursors rf rf s, push.2)
      | _ => (Ret false, (s, push.2))
      end
    else if negb (sf =? FrequencySync.last_sdr_frequency s) then
      let push := RigControl.set_frequency (FrequencySync.rig s) sf w in
      match push.1 with
      | Ret true => mode_step m (FrequencySync.set_cursors sf sf s, push.2)
      | _ => (Ret false, (s, push.2))
      end
    else mode_step m (s, w).
Proof.
  unfold FrequencySync.propagate, FrequencySync.self_.
  unfold mbind at 1 2 3 4 5 6, M_bind at 1 2 3 4 5 6, gets. cbn [fst snd].
  destruct (sdr_set_frequency_run (FrequencySync.sdr s) rf w) as [ok1 Hok1].
  destruct (rig_set_frequency_total (FrequencySync.rig s) sf w) as [ok2 Hok2].
  cbv zeta.
  destruct (negb (rf =? FrequencySync.last_rig_frequency s));
    destruct (negb (sf =? FrequencySync.last_sdr_frequency s)); cbn [andb].
  - rewrite (arm_run _ _ s w _ ok1 Hok1), Hok1. cbn [fst snd].
    destruct ok1; cbn [negb]; [|reflexivity]. apply mode_step_run; reflexivity.
  - rewrite (arm_run _ _ s w _ ok1 Hok1), Hok1. cbn [fst snd].
    destruct ok1; cbn [negb]; [|reflexivity]. apply mode_step_run; reflexivity.
  - rewrite (arm_run _ _ s w _ ok2 Hok2), Hok2. cbn [fst snd].
    destruct ok2; cbn [negb]; [|reflexivity]. apply mode_step_run; reflexivity.
  - cbn [negb]. apply mode_step_run; reflexivity.
Qed.

(** One cycle, from what the three reads give. *)
Lemma sync_once_run (s : FrequencySync.t) (w : World) :
  let r1 := RigControl.get_frequency (FrequencySync.rig s) w in
  let r2 := SDRControl.get_frequency (FrequencySync.sdr s) r1.2 in
  let r3 := RigControl.get_mode (FrequencySync.rig s) r2.2 in
  FrequencySync.sync_once (s, w) =
    match r1.1, r2.1, r3.1 with
    | Ret (Some rf), Ret sf, Ret (Some m) =>
        FrequencySync.propagate rf (default (FrequencySync.last_sdr_frequency s) sf) m
          (s, r3.2)
    | _, _, _ => (Ret false, (s, r3.2))
    end.
Proof.
  cbv zeta. unfold FrequencySync.sync_once, FrequencySync.self_.
  unfold mbind at 1 2 3 4 5, M_bind at 1 2 3 4 5, gets. cbn [fst snd].
  rewrite !lift_run. cbn [fst snd].
  set (r1 := RigControl.get_frequency (FrequencySync.rig s) w).
  set (r2 := SDRControl.get_frequency (FrequencySync.sdr s) r1.2).
  set (r3 := RigControl.get_mode (FrequencySync.rig s) r2.2).
  assert (H1 : exists a, r1.1 = Ret a).
  { subst r1. rewrite get_frequency_run. destruct (connected_in _ _); eauto. }
  assert (H2 : exists a, r2.1 = Ret a).
  { subst r2. destruct (sdr_get_frequency_run (FrequencySync.sdr s) r1.2) as [a ->]. eauto. }
  assert (H3 : exists a, r3.1 = Ret a).
  { subst r3. rewrite get_mode_run. destruct (connected_in _ _); eauto. }
  destruct H1 as [a1 ->], H2 as [a2 ->], H3 as [a3 ->].
  destruct a1 as [rf|]; [|reflexivity]. destruct a3 as [m|]; reflexivity.
Qed.

(** The mode step writes at most the mode line to SDR++ and leaves the
    frequency cursors alone. *)
Lemma mode_step_frame (m : string) (s : FrequencySync.t) (w : World) :
  let out := mode_step m (s, w) in
  (out.2.2 = w \/ out.2.2 = told (FrequencySync.sdr s) ("M " ++ m) w)
  /\ FrequencySync.last_rig_frequency out.2.1 = FrequencySync.last_rig_frequency s
  /\ FrequencySync.last_sdr_frequency out.2.1 = FrequencySync.last_sdr_frequency s.
Proof.
  cbv zeta. unfold mode_step. cbn [fst snd].
  destruct (String.eqb m (FrequencySync.last_mode s)); [cbn; tauto|].
  destruct (sdr_set_mode_run (FrequencySync.sdr s) m w) as [ok ->].
  cbn [fst snd]. destruct ok; cbn; tauto.
Qed.

Lemma connected_in_rigs (w w' : World) (g : nat) :
  rigs w' = rigs w -> connected_in w' g = connected_in w g.
Proof. unfold connected_in. intros ->. reflexivity. Qed.

(** The three reads leave the gateway as connected as it was, and a
    frequency read that gave a value was made on a connected gateway. *)
Lemma reads_connected (s : FrequencySync.t) (w : World) (rf : Z) :
  let r1 := RigControl.get_frequency (FrequencySync.rig s) w in
  let r2 := SDRControl.get_frequency (FrequencySync.sdr s) r1.2 in
  let r3 := RigControl.get_mode (FrequencySync.rig s) r2.2 in
  r1.1 = Ret (Some rf) ->
  connected_in r3.2 (FrequencySync.rig s) = true.
Proof.
  cbv zeta. intros H1.
  assert (Hc : connected_in w (FrequencySync.rig s) = true).
  { rewrite get_frequency_run in H1.
    destruct (connected_in w (FrequencySync.rig s)); [reflexivity|discriminate H1]. }
  rewrite <- Hc. apply connected_in_rigs.
  destruct (sdr_get_frequency_run (FrequencySync.sdr s)
              (RigControl.get_frequency (FrequencySync.rig s) w).2) as [a ->].
  cbn [snd].
  set (w2 := told (FrequencySync.sdr s) "f"
               (RigControl.get_frequency (FrequencySync.rig s) w).2).
  assert (Hr : rigs w2 = rigs w).
  { subst w2.
    destruct (told_frame (FrequencySync.sdr s) "f"
                (RigControl.get_frequency (FrequencySync.rig s) w).2) as (_ & -> & _).
    rewrite get_frequency_run, Hc. reflexivity. }
  rewrite get_mode_run.
  destruct (connected_in w2 (FrequencySync.rig s)); cbn [snd served rigs]; exact Hr.
Qed.

(** C5 (amended).  In a cycle whose three reads succeed:
    - if the rig frequency differs from its cursor, whether the
      display frequency differs from its own or not, the rig value is
      written to the display, nothing is written to the rig endpoint,
      and, when the write succeeded, both cursors are the rig value;
    - if only the display frequency differs, the display value is
      written to the rig (it goes on the wire as [rig.set_vfo]) and,
      when the write succeeded, both cursors are the display value;
    - if neither differs, nothing is written to the rig endpoint, the
      display is given at most the mode line, and the frequency cursors
      stay;
    - a frequency write that failed ends the cycle with the cursors
      as they were.
    After the frequency write the display is given at most the mode
    line. *)
Theorem sync_once_frequency_priority (s : FrequencySync.t) (w : World)
    (rf sf : Z) (m : string) :
  let r1 := RigControl.get_frequency (FrequencySync.rig s) w in
  let r2 := SDRControl.get_frequency (FrequencySync.sdr s) r1.2 in
  let r3 := RigControl.get_mode (FrequencySync.rig s) r2.2 in
  r1.1 = Ret (Some rf) ->
  r2.1 = Ret (Some sf) ->
  r3.1 = Ret (Some m) ->
  let w3 := r3.2 in
  let d := FrequencySync.sdr s in
  let out := FrequencySync.sync_once (s, w) in
  let s' := out.2.1 in
  let w' := out.2.2 in
  (rf <> FrequencySync.last_rig_frequency s ->
     let push := SDRControl.set_frequency d rf w3 in
     push.2 = told d ("F " ++ Py.str_of_int rf) w3
     /\ (w' = push.2 \/ w' = told d ("M " ++ m) push.2)
     /\ flrig_seen w' = flrig_seen w3
     /\ (push.1 = Ret true ->
         FrequencySync.last_rig_frequency s' = rf
         /\ FrequencySync.last_sdr_frequency s' = rf)
     /\ (push.1 <> Ret true -> out = (Ret false, (s, push.2))))
  /\ (rf = FrequencySync.last_rig_frequency s ->
      sf <> FrequencySync.last_sdr_frequency s ->
     let push := RigControl.set_frequency (FrequencySync.rig s) sf w3 in
     (forall x, Py.float_of_int sf = Some x ->
        push = (Ret (succeeds w3 (rig_set_vfo x)),
                served (slot w3) true true (rig_set_vfo x) w3))
     /\ (w' = push.2 \/ w' = told d ("M " ++ m) push.2)
     /\ (push.1 = Ret true ->
         FrequencySync.last_rig_frequency s' = sf
         /\ FrequencySync.last_sdr_frequency s' = sf)
     /\ (push.1 <> Ret true -> out = (Ret false, (s, push.2))))
  /\ (rf = FrequencySync.last_rig_frequency s ->
      sf = FrequencySync.last_sdr_frequency s ->
     (w' = w3 \/ w' = told d ("M " ++ m) w3)
     /\ flrig_seen w' = flrig_seen w3
     /\ FrequencySync.last_rig_frequency s' = FrequencySync.last_rig_frequency s
     /\ FrequencySync.last_sdr_frequency s' = FrequencySync.last_sdr_frequency s).
Proof.
  intros r1 r2 r3 H1 H2 H3 w3 d out s' w'.
  assert (Hc := reads_connected s w rf H1). fold r1 r2 r3 w3 in Hc.
  assert (Hout : out = FrequencySync.propagate rf sf m (s, w3)).
  { subst out. rewrite sync_once_run. fold r1 r2 r3. rewrite H1, H2, H3. reflexivity. }
  rewrite propagate_run in Hout. cbv zeta in Hout. subst d.
  set (d := FrequencySync.sdr s) in *.
  split; [|split].
  - intros Hr. apply Z.eqb_neq in Hr. rewrite Hr in Hout. cbn [negb] in Hout.
    cbv zeta.
    destruct (sdr_set_frequency_run d rf w3) as [ok Hok].
    rewrite Hok in Hout |- *. cbn [fst snd] in Hout |- *.
    split; [reflexivity|].
    destruct ok.
    + destruct (mode_step_frame m (FrequencySync.set_cursors rf rf s)
                  (told d ("F " ++ Py.str_of_int rf) w3)) as (Hw & Hrc & Hsc).
      rewrite <- Hout in Hw, Hrc, Hsc. fold s' w' in Hw, Hrc, Hsc.
      cbn in Hw, Hrc, Hsc. split; [exact Hw|]. split.
      * destruct Hw as [Hw | Hw]; rewrite Hw.
        -- apply (told_frame d _ w3).
        -- destruct (told_frame d ("M " ++ m) (told d ("F " ++ Py.str_of_int rf) w3))
             as (Hf & _). etransitivity; [exact Hf|]. apply (told_frame d _ w3).
      * split; [intros _; split; assumption|]. intros Hn. congruence.
    + subst w'. rewrite Hout. cbn [fst snd]. split; [left; reflexivity|].
      split; [apply (told_frame d _ w3)|]. split; [discriminate|]. reflexivity.
  - intros Hr Hs. apply Z.eqb_neq in Hs. apply Z.eqb_eq in Hr.
    rewrite Hr, Hs in Hout. cbn [negb] in Hout. cbv zeta.
    split.
    { intros x Hx. rewrite set_frequency_run, Hc, Hx. reflexivity. }
    destruct (rig_set_frequency_total (FrequencySync.rig s) sf w3) as [ok Hok].
    rewrite Hok in Hout |- *. cbn [fst snd] in Hout |- *.
    destruct ok.
    + destruct (mode_step_frame m (FrequencySync.set_cursors sf sf s)
                  (RigControl.set_frequency (FrequencySync.rig s) sf w3).2)
        as (Hw & Hrc & Hsc).
      rewrite <- Hout in Hw, Hrc, Hsc. fold s' w' in Hw, Hrc, Hsc.
      cbn in Hw, Hrc, Hsc. split; [exact Hw|].
      split; [intros _; split; assumption|]. intros Hn. congruence.
    + subst w'. rewrite Hout. cbn [fst snd]. split; [left; reflexivity|].
      split; [discriminate|]. reflexivity.
  - intros Hr Hs. apply Z.eqb_eq in Hs. apply Z.eqb_eq in Hr.
    rewrite Hr, Hs in Hout. cbn [negb] in Hout.
    destruct (mode_step_frame m s w3) as (Hw & Hrc & Hsc).
    rewrite <- Hout in Hw, Hrc, Hsc. fold s' w' in Hw, Hrc, Hsc.
    split; [exact Hw|]. split; [|split; assumption].
    destruct Hw as [Hw | Hw]; rewrite Hw; [reflexivity|].
    apply (told_frame d _ w3).
Qed.

(** The three reads ask FlRig for the frequency and the mode and
    SDR++ for the frequency, nothing else. *)
Lemma reads_only_read (s : FrequencySync.t) (w : World) :
  let r1 := RigControl.get_frequency (FrequencySync.rig s) w in
  let r2 := SDRControl.get_frequency (FrequencySync.sdr s) r1.2 in
  let r3 := RigControl.get_mode (FrequencySync.rig s) r2.2 in
  exists asked lines,
    flrig_seen r3.2 = flrig_seen w ++ asked
    /\ Forall (fun r => r = rig_get_vfo \/ r = rig_get_mode) asked
    /\ display_seen r3.2 = display_seen w ++ lines
    /\ Forall (fun l => l = "f") lines.
Proof.
  cbv zeta.
  set (r1 := RigControl.get_frequency (FrequencySync.rig s) w).
  assert (H1 : exists a1, flrig_seen r1.2 = flrig_seen w ++ a1
                 /\ Forall (fun r => r = rig_get_vfo \/ r = rig_get_mode) a1
                 /\ display_seen r1.2 = display_seen w).
  { subst r1. rewrite get_frequency_run. destruct (connected_in _ _); cbn.
    - exists [rig_get_vfo]. repeat split. repeat constructor.
    - exists []. rewrite app_nil_r. repeat split. constructor. }
  destruct H1 as (a1 & Hf1 & Ha1 & Hd1).
  destruct (sdr_get_frequency_run (FrequencySync.sdr s) r1.2) as [sf ->].
  cbn [snd]. set (w2 := told (FrequencySync.sdr s) "f" r1.2).
  destruct (told_frame (FrequencySync.sdr s) "f" r1.2) as (Hf2 & _ & _ & Hd2).
  fold w2 in Hf2, Hd2.
  assert (H2 : exists l2, display_seen w2 = display_seen w ++ l2
                 /\ Forall (fun l => l = "f") l2).
  { destruct Hd2 as [Hd2|Hd2]; rewrite Hd2, Hd1.
    - exists []. rewrite app_nil_r. split; [reflexivity|constructor].
    - exists ["f"]. split; [reflexivity|repeat constructor]. }
  destruct H2 as (l2 & Hd2' & Hl2).
  rewrite get_mode_run. destruct (connected_in w2 _); cbn [snd served flrig_seen display_seen].
  - exists (a1 ++ [rig_get_mode]), l2. rewrite Hf2, Hf1, app_assoc.
    split; [reflexivity|]. split; [|split; assumption].
    apply Forall_app. split; [exact Ha1|].
    constructor; [right; reflexivity|constructor].
  - exists a1, l2. rewrite Hf2, Hf1. repeat split; assumption.
Qed.

(** C7.  A cycle in which the rig frequency or the rig mode could not
    be read returns [False] with the synchronizer as it was, and the
    world is the one the three reads left: FlRig was asked only for
    the frequency and the mode, SDR++ only for the frequency.  A cycle
    in which only the display frequency could not be read goes on as
    if the display had answered with [last_sdr_frequency]: the display
    side counts as unchanged, so nothing is written to the rig
    endpoint, and when the rig frequency is at its cursor the display
    is given at most the mode line. *)
Theorem sync_once_read_failures (s : FrequencySync.t) (w : World) :
  let r1 := RigControl.get_frequency (FrequencySync.rig s) w in
  let r2 := SDRControl.get_frequency (FrequencySync.sdr s) r1.2 in
  let r3 := RigControl.get_mode (FrequencySync.rig s) r2.2 in
  let w3 := r3.2 in
  let d := FrequencySync.sdr s in
  let out := FrequencySync.sync_once (s, w) in
  (r1.1 = Ret None \/ r3.1 = Ret None ->
     out = (Ret false, (s, w3))
     /\ exists asked lines,
         flrig_seen w3 = flrig_seen w ++ asked
         /\ Forall (fun r => r = rig_get_vfo \/ r = rig_get_mode) asked
         /\ display_seen w3 = display_seen w ++ lines
         /\ Forall (fun l => l = "f") lines)
  /\ (forall rf m,
        r1.1 = Ret (Some rf) -> r3.1 = Ret (Some m) -> r2.1 = Ret None ->
        out = FrequencySync.propagate rf (FrequencySync.last_sdr_frequency s) m (s, w3)
        /\ flrig_seen out.2.2 = flrig_seen w3
        /\ (rf = FrequencySync.last_rig_frequency s ->
            (out.2.2 = w3 \/ out.2.2 = told d ("M " ++ m) w3)
            /\ FrequencySync.last_rig_frequency out.2.1
               = FrequencySync.last_rig_frequency s
            /\ FrequencySync.last_sdr_frequency out.2.1
               = FrequencySync.last_sdr_frequency s)).
Proof.
  intros r1 r2 r3 w3 d out. split.
  - intros Hfail. split; [|apply reads_only_read].
    subst out. rewrite sync_once_run. fold r1 r2 r3 w3.
    destruct Hfail as [Hf|Hf]; rewrite Hf; [reflexivity|].
    destruct r1.1 as [[rf|]|]; try reflexivity; destruct r2.1; reflexivity.
  - intros rf m H1 H3 H2.
    assert (Hout : out = FrequencySync.propagate rf
                           (FrequencySync.last_sdr_frequency s) m (s, w3)).
    { subst out. rewrite sync_once_run. fold r1 r2 r3 w3. rewrite H1, H2, H3.
      reflexivity. }
    split; [exact Hout|].
    rewrite propagate_run in Hout. cbv zeta in Hout.
    rewrite Z.eqb_refl in Hout. cbn [negb] in Hout. fold d in Hout.
    destruct (negb (rf =? FrequencySync.last_rig_frequency s)) eqn:Hr.
    + split; [|intros ->; rewrite Z.eqb_refl in Hr; discriminate Hr].
      destruct (sdr_set_frequency_run d rf w3) as [ok Hok].
      rewrite Hok in Hout. cbn [fst snd] in Hout. destruct ok.
      * destruct (mode_step_frame m (FrequencySync.set_cursors rf rf s)
                    (told d ("F " ++ Py.str_of_int rf) w3)) as (Hw & _).
        rewrite <- Hout in Hw. cbn in Hw.
        destruct Hw as [Hw | Hw]; rewrite Hw.
        -- apply (told_frame d _ w3).
        -- destruct (told_frame d ("M " ++ m) (told d ("F " ++ Py.str_of_int rf) w3))
             as (Hf & _). etransitivity; [exact Hf|]. apply (told_frame d _ w3).
      * rewrite Hout. cbn [snd]. apply (told_frame d _ w3).
    + destruct (mode_step_frame m s w3) as (Hw & Hrc & Hsc).
      rewrite <- Hout in Hw, Hrc, Hsc. fold d in Hw.
      split; [|intros _; split; [exact Hw|split; assumption]].
      destruct Hw as [Hw | Hw]; rewrite Hw; [reflexivity|].
      apply (told_frame d _ w3).
Qed.

End Synchronizer.

Lemma sync_once_frequency_priority_witness :
  let s := @Fake.synchronizer Fake.exact (Fake.server Fake.g90 3)
             (Fake.retuned "14074000" "7100000") in
  let out := @FrequencySync.sync_once Fake.exact (s.1, s.2) in
  FrequencySync.last_rig_frequency s.1 = 14074000
  /\ FrequencySync.last_sdr_frequency s.1 = 14074000
  /\ FrequencySync.last_rig_frequency out.2.1 = 7100000
  /\ FrequencySync.last_sdr_frequency out.2.1 = 7100000.
Proof.
  intros s out.
  split; [vm_compute; reflexivity|]. split; [vm_compute; reflexivity|].
  assert (H1 : (@RigControl.get_frequency Fake.exact (FrequencySync.rig s.1) s.2).1
               = Ret (Some 14074000)) by (vm_compute; reflexivity).
  assert (H2 : (SDRControl.get_frequency (FrequencySync.sdr s.1)
                  (@RigControl.get_frequency Fake.exact (FrequencySync.rig s.1) s.2).2).1
               = Ret (Some 7100000)) by (vm_compute; reflexivity).
  assert (H3 : (RigControl.get_mode (FrequencySync.rig s.1)
                  (SDRControl.get_frequency (FrequencySync.sdr s.1)
                     (@RigControl.get_frequency Fake.exact (FrequencySync.rig s.1) s.2).2).2).1
               = Ret (Some "USB")) by (vm_compute; reflexivity).
  destruct (@sync_once_frequency_priority Fake.exact s.1 s.2 14074000 7100000 "USB"
              H1 H2 H3) as (_ & Hc & _).
  assert (Hr : 14074000 = FrequencySync.last_rig_frequency s.1)
    by (vm_compute; reflexivity).
  assert (Hs : 7100000 <> FrequencySync.last_sdr_frequency s.1).
  { apply Z.eqb_neq. vm_compute. reflexivity. }
  destruct (Hc Hr Hs) as (_ & _ & Hcur & _).
  apply Hcur. vm_compute. reflexivity.
Defined.

(** C5 (as stated) fails on the code.  Only the display frequency
    changed (the rig reads 14074000, its cursor; the display reads
    7100000 against a cursor of 14074000) and FlRig refuses
    [rig.set_vfo]: the display value is pushed to the rig, the cycle
    returns [False], and both cursors stay 14074000. *)
Lemma failed_push_to_rig_keeps_cursors :
  let s := @Fake.synchronizer Fake.exact
             (Fake.faulty Fake.is_set_vfo (Fake.server Fake.g90 3))
             (Fake.retuned "14074000" "7100000") in
  let out := @FrequencySync.sync_once Fake.exact s in
  (@RigControl.get_frequency Fake.exact (FrequencySync.rig s.1) s.2).1
    = Ret (Some 14074000)
  /\ FrequencySync.last_rig_frequency s.1 = 14074000
  /\ FrequencySync.last_sdr_frequency s.1 = 14074000
  /\ trace out.2.2
     = trace s.2 ++ [ Rpc 1700000000159 true rig_get_vfo; SdrSent "f";
                      Rpc 1700000000212 true rig_get_mode;
                      Rpc 1700000000265 true (rig_set_vfo (Py.Finite 7100000)) ]
  /\ out.1 = Ret false
  /\ FrequencySync.last_rig_frequency out.2.1 = 14074000
  /\ FrequencySync.last_sdr_frequency out.2.1 = 14074000.
Proof. cbv zeta. repeat apply conj; vm_compute; reflexivity. Qed.

Lemma sync_once_read_failures_witness :
  let deaf := @Fake.synchronizer Fake.exact
                (Fake.faulty Fake.is_get_vfo (Fake.server Fake.g90 3))
                (Fake.sdrpp "7100000") in
  let blind := @Fake.synchronizer Fake.exact (Fake.server Fake.g90 3)
                 (Fake.sdrpp "n/a") in
  (exists w3, @FrequencySync.sync_once Fake.exact (deaf.1, deaf.2)
              = (Ret false, (deaf.1, w3)))
  /\ FrequencySync.last_sdr_frequency blind.1 = 14074000
  /\ @FrequencySync.sync_once Fake.exact (blind.1, blind.2)
     = @FrequencySync.propagate Fake.exact 14074000
         (FrequencySync.last_sdr_frequency blind.1) "USB"
         (blind.1,
          (RigControl.get_mode (FrequencySync.rig blind.1)
             (SDRControl.get_frequency (FrequencySync.sdr blind.1)
                (@RigControl.get_frequency Fake.exact
                   (FrequencySync.rig blind.1) blind.2).2).2).2).
Proof.
  intros deaf blind. split; [|split].
  - destruct (@sync_once_read_failures Fake.exact deaf.1 deaf.2) as [Hfail _].
    assert (Hnone : (@RigControl.get_frequency Fake.exact
                       (FrequencySync.rig deaf.1) deaf.2).1 = Ret None)
      by (vm_compute; reflexivity).
    destruct (Hfail (or_introl Hnone)) as [Hout _].
    eexists. exact Hout.
  - vm_compute. reflexivity.
  - destruct (@sync_once_read_failures Fake.exact blind.1 blind.2) as [_ Hblind].
    assert (H1 : (@RigControl.get_frequency Fake.exact
                    (FrequencySync.rig blind.1) blind.2).1 = Ret (Some 14074000))
      by (vm_compute; reflexivity).
    assert (H3 : (RigControl.get_mode (FrequencySync.rig blind.1)
                    (SDRControl.get_frequency (FrequencySync.sdr blind.1)
                       (@RigControl.get_frequency Fake.exact
                          (FrequencySync.rig blind.1) blind.2).2).2).1
                 = Ret (Some "USB")) by (vm_compute; reflexivity).
    assert (H2 : (SDRControl.get_frequency (FrequencySync.sdr blind.1)
                    (@RigControl.get_frequency Fake.exact
                       (FrequencySync.rig blind.1) blind.2).2).1 = Ret None)
      by (vm_compute; reflexivity).
    destruct (Hblind 14074000 "USB" H1 H3 H2) as [Hout _].
    exact Hout.
Defined.

(** ** The bridge: mode commands *)

Section ModeCommands.
Context `{Py.FloatConv}.

(** A key that is not in a [dict] gets the default. *)
Lemma dict_get_default (k dflt : string) (d : RigctldBridge.dict) :
  k ∉ keys d -> RigctldBridge.dict_get k d dflt = dflt.
Proof.
  unfold keys. induction d as [|[k' v'] d IH]; intros Hk; [reflexivity|].
  cbn [RigctldBridge.dict_get]. rewrite fmap_cons in Hk.
  apply not_elem_of_cons in Hk as [Hne Hk].
  destruct (String.eqb_spec k k') as [->|_]; [contradiction|]. apply IH, Hk.
Qed.

(** The command [M <mode> ...]. *)
Lemma process_set_mode (command a : string) (rest : list string)
    (b : RigctldBridge.t) (w : World) :
  Py.split command = "M" :: a :: rest ->
  let flrig_mode := RigctldBridge.dict_get (Py.upper a) (RigctldBridge.mode_map b) "USB" in
  let r := RigControl.set_mode (RigctldBridge.rig b) flrig_mode w in
  RigctldBridge._process_command command (b, w)
  = (Ret (match r.1 with Ret true => "RPRT 0" | _ => "RPRT -1" end), (b, r.2)).
Proof.
  intros Hsplit. cbv zeta. unfold RigctldBridge._process_command. rewrite Hsplit.
  unfold RigctldBridge.self_, try_except.
  unfold mbind at 1, M_bind at 1, gets. cbn [fst snd].
  cbn [String.eqb Ascii.eqb Bool.eqb].
  unfold mbind, M_bind, gets. cbn [fst snd]. rewrite lift_run.
  rewrite set_mode_run. destruct (_ && _); cbn [fst snd]; [|reflexivity].
  destruct (succeeds w _); reflexivity.
Qed.

(** The command [m]. *)
Lemma process_get_mode (command : string) (rest : list string)
    (b : RigctldBridge.t) (w : World) :
  Py.split command = "m" :: rest ->
  let r := RigControl.get_mode (RigctldBridge.rig b) w in
  RigctldBridge._process_command command (b, w)
  = (Ret (match r.1 with
          | Ret (Some (String _ _ as mode)) =>
              RigctldBridge.dict_get mode (RigctldBridge.mode_map_reverse b) "USB"
              ++ RigctldBridge.nl ++ "0"
          | _ => "RPRT -1"
          end)%string, (b, r.2)).
Proof.
  intros Hsplit. cbv zeta. unfold RigctldBridge._process_command. rewrite Hsplit.
  unfold RigctldBridge.self_, try_except.
  unfold mbind at 1, M_bind at 1, gets. cbn [fst snd].
  cbn [String.eqb Ascii.eqb Bool.eqb].
  unfold mbind, M_bind, gets. cbn [fst snd]. rewrite lift_run.
  rewrite get_mode_run. destruct (connected_in _ _); cbn [fst snd]; [|reflexivity].
  destruct (answer_of w rig_get_mode) as [[|c m]|]; reflexivity.
Qed.

(** C8.  The forward table sends each of the ten external names to
    its internal counterpart, PKTUSB and PKTLSB going to USB and LSB;
    the reverse table answers USB for every internal mode that is not
    a value of the forward table; [M CWR] calls [set_mode] of the
    gateway with CW-R and replies by its result; and [m], when the
    gateway reports CW-R, replies CWR, a newline and 0. *)
Theorem mode_translation (b : RigctldBridge.t) (w : World) :
  tables_built b ->
  let fwd := RigctldBridge.mode_map b in
  let rev := RigctldBridge.mode_map_reverse b in
  map (fun k => RigctldBridge.dict_get k fwd "USB")
    ["USB"; "LSB"; "CW"; "CWR"; "AM"; "FM"; "RTTY"; "RTTYR"; "PKTUSB"; "PKTLSB"]
  = ["USB"; "LSB"; "CW"; "CW-R"; "AM"; "FM"; "RTTY"; "RTTY-R"; "USB"; "LSB"]
  /\ (forall mode, mode ∉ values fwd -> RigctldBridge.dict_get mode rev "USB" = "USB")
  /\ (let r := RigControl.set_mode (RigctldBridge.rig b) "CW-R" w in
      RigctldBridge._process_command "M CWR" (b, w)
      = (Ret (match r.1 with Ret true => "RPRT 0" | _ => "RPRT -1" end), (b, r.2)))
  /\ (let r := RigControl.get_mode (RigctldBridge.rig b) w in
      r.1 = Ret (Some "CW-R") ->
      RigctldBridge._process_command "m" (b, w) = (Ret (mode_reply "CWR"), (b, r.2))).
Proof.
  intros [Hfwd Hrev]. cbv zeta. rewrite Hfwd, Hrev. split; [reflexivity|]. split; [|split].
  - intros mode Hm. apply dict_get_default. intros Hin. apply Hm.
    revert Hin. unfold keys, values. cbn.
    rewrite !elem_of_cons. rewrite elem_of_nil. tauto.
  - rewrite (process_set_mode "M CWR" "CWR" [] b w eq_refl). cbv zeta.
    rewrite Hfwd. reflexivity.
  - intros Hr. rewrite (process_get_mode "m" [] b w eq_refl). cbv zeta.
    rewrite Hr, Hrev. reflexivity.
Qed.

(** C9.  The reverse table is built from the forward one with later
    entries writing over earlier ones: USB goes back to PKTUSB and LSB
    to PKTLSB.  So when the gateway reports USB, [m] replies PKTUSB, a
    newline and 0, not USB; and for LSB it replies PKTLSB. *)
Theorem reverse_table_prefers_packet_modes (b : RigctldBridge.t) (w : World) :
  tables_built b ->
  let rev := RigctldBridge.mode_map_reverse b in
  let r := RigControl.get_mode (RigctldBridge.rig b) w in
  RigctldBridge.dict_get "USB" rev "USB" = "PKTUSB"
  /\ RigctldBridge.dict_get "LSB" rev "USB" = "PKTLSB"
  /\ (r.1 = Ret (Some "USB") ->
      RigctldBridge._process_command "m" (b, w) = (Ret (mode_reply "PKTUSB"), (b, r.2))
      /\ mode_reply "PKTUSB" <> mode_reply "USB")
  /\ (r.1 = Ret (Some "LSB") ->
      RigctldBridge._process_command "m" (b, w) = (Ret (mode_reply "PKTLSB"), (b, r.2))
      /\ mode_reply "PKTLSB" <> mode_reply "LSB").
Proof.
  intros [Hfwd Hrev]. cbv zeta. rewrite Hrev.
  split; [reflexivity|]. split; [reflexivity|]. split.
  - intros Hr. split; [|discriminate].
    rewrite (process_get_mode "m" [] b w eq_refl). cbv zeta.
    rewrite Hr, Hrev. reflexivity.
  - intros Hr. split; [|discriminate].
    rewrite (process_get_mode "m" [] b w eq_refl). cbv zeta.
    rewrite Hr, Hrev. reflexivity.
Qed.

(** C10.  A command [M <word>] whose upper-cased word is not an
    external mode name calls [set_mode] of the gateway with USB and
    replies by its result alone: [RPRT 0] when it succeeded, [RPRT -1]
    when it failed.  On a connected gateway the request
    [rig.set_mode("USB")] goes to FlRig and the reply is [RPRT 0]
    exactly when FlRig answered it. *)
Theorem unknown_mode_sets_usb (b : RigctldBridge.t) (w : World)
    (command word : string) (rest : list string) :
  tables_built b ->
  Py.split command = "M" :: word :: rest ->
  Py.upper word ∉ keys RigctldBridge.mode_map_init ->
  let r := RigControl.set_mode (RigctldBridge.rig b) "USB" w in
  RigctldBridge._process_command command (b, w)
  = (Ret (match r.1 with Ret true => "RPRT 0" | _ => "RPRT -1" end), (b, r.2))
  /\ (connected_in w (RigctldBridge.rig b) = true ->
      RigctldBridge._process_command command (b, w)
      = (Ret (if succeeds w (rig_set_mode "USB") then "RPRT 0" else "RPRT -1"),
         (b, served (slot w) true true (rig_set_mode "USB") w))).
Proof.
  intros [Hfwd _] Hsplit Hword. cbv zeta.
  rewrite (process_set_mode command word rest b w Hsplit). cbv zeta.
  rewrite Hfwd, (dict_get_default _ _ _ Hword). split; [reflexivity|].
  intros Hc. rewrite set_mode_run, Hc. cbn [andb].
  change (Py.upper "USB") with "USB".
  rewrite (bool_decide_eq_true_2 ("USB" ∈ RigControl.valid_modes))
    by (apply elem_of_cons; left; reflexivity).
  cbn [fst snd]. destruct (succeeds w _); reflexivity.
Qed.

End ModeCommands.

Lemma mode_translation_witness :
  let s := Fake.bridge true (Fake.server Fake.g90 3) (Fake.sdrpp "14074000") in
  let s1 := (@RigctldBridge._process_command Fake.exact "M CWR" (s.1, s.2)).2 in
  tables_built s.1
  /\ (@RigctldBridge._process_command Fake.exact "M CWR" (s.1, s.2)).1 = Ret "RPRT 0"
  /\ last (trace s1.2) = Some (Rpc 1700000000053 true (rig_set_mode "CW-R"))
  /\ (@RigctldBridge._process_command Fake.exact "m" (s1.1, s1.2)).1
     = Ret (mode_reply "CWR").
Proof.
  intros s s1.
  assert (Hs : tables_built s.1) by (split; vm_compute; reflexivity).
  assert (Hs1 : tables_built s1.1) by (split; vm_compute; reflexivity).
  destruct (@mode_translation Fake.exact s.1 s.2 Hs) as (_ & _ & HM & _).
  destruct (@mode_translation Fake.exact s1.1 s1.2 Hs1) as (_ & _ & _ & Hm).
  split; [exact Hs|]. split; [|split].
  - rewrite HM. vm_compute. reflexivity.
  - vm_compute. reflexivity.
  - rewrite Hm; [reflexivity|]. vm_compute. reflexivity.
Defined.

Lemma reverse_table_prefers_packet_modes_witness :
  let s := Fake.bridge true (Fake.server Fake.g90 3) (Fake.sdrpp "14074000") in
  tables_built s.1
  /\ (RigControl.get_mode (RigctldBridge.rig s.1) s.2).1 = Ret (Some "USB")
  /\ (@RigctldBridge._process_command Fake.exact "m" (s.1, s.2)).1
     = Ret (mode_reply "PKTUSB").
Proof.
  intros s.
  assert (Hs : tables_built s.1) by (split; vm_compute; reflexivity).
  assert (Hr : (RigControl.get_mode (RigctldBridge.rig s.1) s.2).1 = Ret (Some "USB"))
    by (vm_compute; reflexivity).
  destruct (@reverse_table_prefers_packet_modes Fake.exact s.1 s.2 Hs)
    as (_ & _ & Husb & _).
  destruct (Husb Hr) as [Hm _].
  split; [exact Hs|]. split; [exact Hr|]. rewrite Hm. reflexivity.
Defined.

Lemma unknown_mode_sets_usb_witness :
  let s := Fake.bridge true (Fake.server Fake.g90 3) (Fake.sdrpp "14074000") in
  let out := @RigctldBridge._process_command Fake.exact "M olivia" (s.1, s.2) in
  out.1 = Ret "RPRT 0"
  /\ trace out.2.2 = trace s.2 ++ [Rpc (slot s.2) true (rig_set_mode "USB")].
Proof.
  intros s out.
  assert (Hs : tables_built s.1) by (split; vm_compute; reflexivity).
  assert (Hsplit : Py.split "M olivia" = ["M"; "olivia"]) by reflexivity.
  assert (Hword : Py.upper "olivia" ∉ keys RigctldBridge.mode_map_init).
  { apply (bool_decide_eq_false_1 _). vm_compute. reflexivity. }
  destruct (@unknown_mode_sets_usb Fake.exact s.1 s.2 "M olivia" "olivia" []
              Hs Hsplit Hword) as [_ Hconn].
  assert (Hc : connected_in s.2 (RigctldBridge.rig s.1) = true)
    by (vm_compute; reflexivity).
  subst out. rewrite (Hconn Hc). cbn [fst snd served trace]. split; [|reflexivity].
  vm_compute. reflexivity.
Defined.

(** * Further properties *)

(** ** The gateway: connection and failure *)

Section GatewayMore.
Context `{Py.FloatConv}.

Lemma stampedb_stamped (w : World) : stampedb w = true -> stamped w.
Proof.
  unfold stampedb, stamped. intros Hb t r Hl. rewrite Hl in Hb.
  apply Z.leb_le, Hb.
Qed.

(** X2.  On a gateway that is not connected each of the ten operations
    returns its failure value at once: nothing goes to FlRig, no time
    passes, the world is as it was. *)
Theorem disconnected_gateway_is_inert (g : nat) (w : World) :
  connected_in w g = false ->
  RigControl.get_frequency g w = (Ret None, w)
  /\ (forall hz, RigControl.set_frequency g hz w = (Ret false, w))
  /\ RigControl.get_mode g w = (Ret None, w)
  /\ (forall mode, RigControl.set_mode g mode w = (Ret false, w))
  /\ RigControl.get_bandwidth g w = (Ret None, w)
  /\ (forall hz, RigControl.set_bandwidth g hz w = (Ret false, w))
  /\ RigControl.get_power g w = (Ret None, w)
  /\ (forall watts, RigControl.set_power g watts w = (Ret false, w))
  /\ RigControl.get_ptt g w = (Ret None, w)
  /\ (forall on, RigControl.set_ptt g on w = (Ret false, w)).
Proof.
  intros Hc. repeat apply conj; intros;
    rewrite ?get_frequency_run, ?set_frequency_run, ?get_mode_run, ?set_mode_run,
      ?get_bandwidth_run, ?set_bandwidth_run, ?get_power_run, ?set_power_run,
      ?get_ptt_run, ?set_ptt_run; cbv zeta; rewrite Hc; reflexivity.
Qed.

(** X3.  Whatever FlRig does, no exception escapes an operation of the
    gateway, and the operation leaves [_flrig_lock] as it found it:
    the lock is released also when the request raises. *)
Theorem gateway_catches_and_unlocks (g : nat) (c : Call) (w : World) :
  (perform g c w).1 = Ret tt
  /\ lock_depth (perform g c w).2 = lock_depth w.
Proof.
  destruct c; unfold perform, mbind, M_bind;
    rewrite ?get_frequency_run, ?set_frequency_run, ?get_mode_run, ?set_mode_run,
      ?get_bandwidth_run, ?set_bandwidth_run, ?get_power_run, ?set_power_run,
      ?get_ptt_run, ?set_ptt_run; cbv zeta;
    repeat match goal with
    | |- context [if ?b then _ else _] => destruct b
    | |- context [match ?o with Some _ => _ | None => _ end] => destruct o
    end; split; reflexivity.
Qed.

Lemma connect_run (g : nat) (w : World) :
  let o := rigs w !!! g in
  let w1 := set_rigs (<[g := RigControl.set_proxy (Some (server_url o)) o]> (rigs w)) w in
  let w2 := served (slot w) true true rig_get_xcvr w1 in
  let ok := succeeds w rig_get_xcvr in
  RigControl.connect g w
  = (Ret ok, set_rigs (<[g := RigControl.set_connected ok (rigs w2 !!! g)]> (rigs w2)) w2).
Proof.
  cbv zeta. unfold RigControl.connect, RigControl.self_, RigControl.update_self.
  unfold try_except, mbind, M_bind, gets, modify, mret, M_ret.
  rewrite safe_call_run, succeeds_answer.
  change (answer_of (set_rigs _ w) rig_get_xcvr) with (answer_of w rig_get_xcvr).
  change (slot (set_rigs _ w)) with (slot w).
  destruct (answer_of w rig_get_xcvr) as [v|]; reflexivity.
Qed.

(** X4.  [connect()] on an instance returns [True] exactly when
    FlRig answers [rig.get_xcvr], and [is_connected()] afterwards is
    that result: a failed attempt leaves the instance disconnected,
    also when it was connected before.  The request goes through
    [_safe_call], and the other instances are not touched. *)
Theorem connect_reports_flrig (g : nat) (w : World) :
  (g < length (rigs w))%nat ->
  let out := RigControl.connect g w in
  out.1 = Ret (succeeds w rig_get_xcvr)
  /\ connected_in out.2 g = succeeds w rig_get_xcvr
  /\ trace out.2 = trace w ++ [Rpc (slot w) true rig_get_xcvr]
  /\ (forall g', g' <> g -> rigs out.2 !!! g' = rigs w !!! g').
Proof.
  intros Hg. cbv zeta. rewrite connect_run. cbv zeta. cbn [fst snd].
  split; [reflexivity|]. split; [|split; [reflexivity|]].
  - unfold connected_in. cbn [rigs set_rigs served].
    rewrite list_lookup_total_insert_eq by (rewrite ?length_insert; exact Hg).
    rewrite list_lookup_total_insert_eq by exact Hg.
    cbn [RigControl.set_connected RigControl.set_proxy _connected proxy].
    destruct (succeeds w rig_get_xcvr); reflexivity.
  - intros g' Hne. cbn [rigs set_rigs served].
    rewrite !list_lookup_total_insert_ne by congruence. reflexivity.
Qed.

End GatewayMore.

Lemma disconnected_gateway_is_inert_witness :
  let w := (RigControl.__init__ "127.0.0.1" 12345
              (Fake.boot (Fake.server Fake.g90 3) (Fake.sdrpp "14074000"))).2 in
  @RigControl.get_frequency Fake.exact 0 w = (Ret None, w)
  /\ RigControl.set_ptt 0 true w = (Ret false, w).
Proof.
  intros w.
  assert (Hc : connected_in w 0 = false) by (vm_compute; reflexivity).
  destruct (@disconnected_gateway_is_inert Fake.exact 0 w Hc)
    as (Hf & _ & _ & _ & _ & _ & _ & _ & _ & Hp).
  split; [exact Hf|apply Hp].
Defined.

Lemma connect_reports_flrig_witness :
  let w := Fake.station (Fake.faulty (fun _ => true) (Fake.server Fake.g90 3))
             (Fake.sdrpp "14074000") in
  let w1 := Fake.station (Fake.server Fake.g90 3) (Fake.sdrpp "14074000") in
  (RigControl.connect 0 w).1 = Ret (succeeds w rig_get_xcvr)
  /\ succeeds w rig_get_xcvr = false
  /\ connected_in (RigControl.connect 0 w).2 0 = succeeds w rig_get_xcvr
  /\ connected_in (RigControl.connect 0 w1).2 0 = succeeds w1 rig_get_xcvr
  /\ succeeds w1 rig_get_xcvr = true.
Proof.
  intros w w1.
  assert (Hg : (0 < length (rigs w))%nat) by (vm_compute; lia).
  assert (Hg1 : (0 < length (rigs w1))%nat) by (vm_compute; lia).
  destruct (connect_reports_flrig 0 w Hg) as (Hr & Hc & _).
  destruct (connect_reports_flrig 0 w1 Hg1) as (_ & Hc1 & _).
  split; [exact Hr|]. split; [vm_compute; reflexivity|].
  split; [exact Hc|]. split; [exact Hc1|]. vm_compute. reflexivity.
Defined.

(** ** Decimal text: [str(n)] and [int(s)] *)

Section DecimalText.

Lemma int_digits_acc (d : Decimal.uint) (p : positive) :
  Py.int_digits (NilEmpty.string_of_uint d) (Z.pos p) true
  = Some (Z.pos (Pos.of_uint_acc d p)).
Proof.
  revert p. induction d as [|d IH|d IH|d IH|d IH|d IH|d IH|d IH|d IH|d IH|d IH];
    intros p; [reflexivity|..];
    cbn [NilEmpty.string_of_uint Py.int_digits Pos.of_uint_acc];
    match goal with
    | |- context [Py.digit_of ?c] =>
        let v := eval vm_compute in (Py.digit_of c) in
        change (Py.digit_of c) with v
    end; cbv iota beta;
    match goal with
    | |- Py.int_digits _ ?a true = Some (Z.pos (Pos.of_uint_acc _ ?q)) =>
        replace a with (Z.pos q) by lia
    end; apply IH.
Qed.

Lemma int_digits_zero (d : Decimal.uint) (after : bool) :
  d <> Decimal.Nil \/ after = true ->
  Py.int_digits (NilEmpty.string_of_uint d) 0 after
  = Some (Z.of_N (Pos.of_uint d)).
Proof.
  revert after. induction d as [|d IH|d IH|d IH|d IH|d IH|d IH|d IH|d IH|d IH|d IH];
    intros after Hd.
  - destruct Hd as [Hd | ->]; [contradiction|reflexivity].
  - cbn [NilEmpty.string_of_uint Py.int_digits Pos.of_uint].
    change (Py.digit_of "0") with (Some 0). cbv iota beta.
    change (10 * 0 + 0) with 0. apply IH. right. reflexivity.
  - apply (int_digits_acc d 1).
  - apply (int_digits_acc d 2).
  - apply (int_digits_acc d 3).
  - apply (int_digits_acc d 4).
  - apply (int_digits_acc d 5).
  - apply (int_digits_acc d 6).
  - apply (int_digits_acc d 7).
  - apply (int_digits_acc d 8).
  - apply (int_digits_acc d 9).
Qed.

(** The characters of a decimal numeral: no white space, all ASCII. *)
Lemma uint_text_plain (d : Decimal.uint) :
  Py.rstrip (NilEmpty.string_of_uint d) = NilEmpty.string_of_uint d
  /\ Py.is_ascii (NilEmpty.string_of_uint d) = true.
Proof.
  induction d as [|d [IH1 IH2]|d [IH1 IH2]|d [IH1 IH2]|d [IH1 IH2]|d [IH1 IH2]
                  |d [IH1 IH2]|d [IH1 IH2]|d [IH1 IH2]|d [IH1 IH2]|d [IH1 IH2]];
    [split; reflexivity|..];
    (split;
     [ cbn [NilEmpty.string_of_uint Py.rstrip]; rewrite IH1;
       destruct (NilEmpty.string_of_uint d); reflexivity
     | unfold Py.is_ascii in *; cbn [NilEmpty.string_of_uint list_ascii_of_string forallb];
       rewrite IH2; reflexivity ]).
Qed.

Lemma uint_text_starts_with_digit (d : Decimal.uint) :
  d <> Decimal.Nil ->
  exists c s, NilEmpty.string_of_uint d = String c s
              /\ Py.isspace c = false /\ c <> "-"%char /\ c <> "+"%char.
Proof.
  destruct d; [contradiction|..]; intros _; do 2 eexists;
    (split; [reflexivity|]); (split; [reflexivity|]); split; discriminate.
Qed.

(** A text that begins with a character that is no white space and
    ends with one: [strip] leaves it alone, and takes white space
    around it away. *)
Lemma strip_padded (s : string) :
  Py.rstrip s = s ->
  (exists c s', s = String c s' /\ Py.isspace c = false) ->
  Py.strip s = s /\ Py.strip (" " ++ s ++ RigctldBridge.nl)%string = s.
Proof.
  intros Hr (c & s' & -> & Hc). unfold Py.strip. split.
  - cbn [Py.lstrip]. rewrite Hc. exact Hr.
  - change (Py.lstrip (" " ++ String c s' ++ RigctldBridge.nl)%string)
      with (Py.lstrip (String c (s' ++ RigctldBridge.nl)%string)).
    cbn [Py.lstrip]. rewrite Hc.
    change (String c (s' ++ RigctldBridge.nl)%string)
      with (String c s' ++ RigctldBridge.nl)%string.
    revert Hr. generalize (String c s'). clear.
    intros s. induction s as [|a s IH]; [reflexivity|].
    change (String a s ++ RigctldBridge.nl)%string
      with (String a (s ++ RigctldBridge.nl)%string).
    cbn [Py.rstrip]. intros Hr.
    destruct (Py.rstrip s) as [|b r] eqn:Hs.
    + destruct (Py.isspace a) eqn:Ha; [discriminate Hr|].
      injection Hr as <-. reflexivity.
    + injection Hr as Hr. rewrite IH by exact Hr. destruct s; [discriminate Hs|].
      reflexivity.
Qed.

Lemma pos_text (p : positive) :
  Pos.to_uint p <> Decimal.Nil
  /\ Pos.of_uint (Pos.to_uint p) = N.pos p
  /\ NilZero.string_of_uint (Pos.to_uint p) = NilEmpty.string_of_uint (Pos.to_uint p).
Proof.
  assert (Hnil := DecimalPos.Unsigned.to_uint_nonnil p).
  split; [exact Hnil|]. split; [apply DecimalPos.Unsigned.of_to|].
  destruct (Pos.to_uint p); [contradiction|..]; reflexivity.
Qed.

(** The shape of [str(n)]: no white space at either end, all ASCII. *)
Lemma str_of_int_shape (n : Z) :
  Py.rstrip (Py.str_of_int n) = Py.str_of_int n
  /\ (exists c s', Py.str_of_int n = String c s' /\ Py.isspace c = false)
  /\ Py.is_ascii (Py.str_of_int n) = true.
Proof.
  unfold Py.str_of_int. destruct n as [|p|p]; cbn [Z.to_int NilZero.string_of_int].
  - split; [reflexivity|]. split; [|reflexivity]. do 2 eexists. split; reflexivity.
  - destruct (pos_text p) as (Hnil & _ & ->).
    destruct (uint_text_plain (Pos.to_uint p)) as [Hr Ha].
    destruct (uint_text_starts_with_digit _ Hnil) as (c & s & Hs & Hc & _).
    split; [exact Hr|]. split; [eauto|exact Ha].
  - destruct (pos_text p) as (Hnil & _ & ->).
    destruct (uint_text_plain (Pos.to_uint p)) as [Hr Ha].
    destruct (uint_text_starts_with_digit _ Hnil) as (c & s & Hs & Hc & _).
    split; [cbn [Py.rstrip]; rewrite Hr, Hs; reflexivity|].
    split; [do 2 eexists; split; reflexivity|].
    unfold Py.is_ascii in *. cbn [list_ascii_of_string forallb]. rewrite Ha. reflexivity.
Qed.

Lemma str_of_int_nonempty (n : Z) : Py.str_of_int n <> "".
Proof. destruct (str_of_int_shape n) as (_ & (c & s & -> & _) & _). discriminate. Qed.

Lemma str_of_int_ascii (n : Z) : Py.is_ascii (Py.str_of_int n) = true.
Proof. apply str_of_int_shape. Qed.

(** [int()] of the digits [str()] prints. *)
Lemma int_of_str_plain (n : Z) : Py.int_of_str (Py.str_of_int n) = Some n.
Proof.
  destruct (str_of_int_shape n) as (Hr & Hc & _).
  destruct (strip_padded _ Hr Hc) as [Hstrip _].
  unfold Py.int_of_str. rewrite Hstrip. clear Hr Hc Hstrip.
  unfold Py.str_of_int. destruct n as [|p|p]; cbn [Z.to_int NilZero.string_of_int].
  - reflexivity.
  - destruct (pos_text p) as (Hnil & Hof & ->).
    destruct (uint_text_starts_with_digit _ Hnil) as (c & s & Hs & _ & Hm & Hq).
    transitivity (Py.int_digits (NilEmpty.string_of_uint (Pos.to_uint p)) 0 false).
    + rewrite Hs. destruct c as [[|] [|] [|] [|] [|] [|] [|] [|]];
        try reflexivity; congruence.
    + rewrite int_digits_zero by (left; exact Hnil). rewrite Hof. reflexivity.
  - destruct (pos_text p) as (Hnil & Hof & ->).
    rewrite int_digits_zero by (left; exact Hnil). rewrite Hof. reflexivity.
Qed.

End DecimalText.

Lemma safe_calls_are_spaced_witness :
  let w := ((r ← RigControl.__init__ "127.0.0.1" 12345; RigControl.connect r)
              (Fake.station (Fake.server Fake.g90 3) (Fake.sdrpp "14074000"))).2 in
  let l := [ (0%N, 0%nat, GetFrequency); (20%N, 1%nat, SetMode "cw");
             (0%N, 1%nat, GetPower); (400%N, 0%nat, SetFrequency 7100000) ] in
  spaced 50 (rpcs (trace (@session Fake.exact l w)))
  /\ map fst (rpcs (trace (@session Fake.exact l w)))
     = [ 1700000000000; 1700000000053; 1700000000106; 1700000000159;
         1700000000212; 1700000000615 ].
Proof.
  intros w l. split; [|vm_compute; reflexivity].
  apply (@safe_calls_are_spaced Fake.exact l w).
  - repeat constructor.
  - apply stampedb_stamped. vm_compute. reflexivity.
  - apply spacedb_spec. vm_compute. reflexivity.
Defined.

(** ** The command table: replies and refusals *)

Section CommandTable.
Context `{Py.FloatConv}.

Lemma yields_ret {S A} (P : A -> Prop) (a : A) : P a -> yields (S := S) P (mret a).
Proof. intros Ha s a' [= <-]. exact Ha. Qed.

Lemma yields_raise {S A} (P : A -> Prop) : yields (S := S) P raise.
Proof. intros s a [=]. Qed.

Lemma yields_bind {S A B} (P : B -> Prop) (c : M S A) (k : A -> M S B) :
  (forall a, yields P (k a)) -> yields P (c ≫= k).
Proof.
  intros Hk s b. unfold mbind, M_bind. destruct (c s) as [[a|] s']; [apply Hk|].
  intros [=].
Qed.

Lemma yields_try {S A} (P : A -> Prop) (body handler : M S A) :
  yields P body -> yields P handler -> yields P (try_except body handler).
Proof.
  intros Hb Hh s a. unfold try_except. specialize (Hb s).
  destruct (body s) as [[a'|] s']; [apply Hb|apply Hh].
Qed.

Lemma never_raises_try {S A} (body handler : M S A) :
  never_raises handler -> never_raises (try_except body handler).
Proof.
  intros Hh s. unfold try_except. destruct (body s) as [[a|] s'].
  - exists a. reflexivity.
  - apply Hh.
Qed.

Lemma never_raises_ret {S A} (a : A) : never_raises (S := S) (mret a).
Proof. intros s. exists a. reflexivity. Qed.

Lemma mode_reply_nonempty (m : string) : (m ++ RigctldBridge.nl ++ "0")%string <> "".
Proof. destruct m; discriminate. Qed.

(** X6.  No exception escapes [_process_command], whatever the command
    and whatever FlRig does, and the reply is never the empty string:
    [_handle_client], which sends a reply only when it is not empty,
    answers every command it processes. *)
Theorem process_command_always_replies (command : string) :
  never_raises (RigctldBridge._process_command command)
  /\ yields (fun reply => reply <> "") (RigctldBridge._process_command command).
Proof.
  split.
  - intros [b w]. unfold RigctldBridge._process_command.
    destruct (Py.split command) as [|cmd args]; [eexists; reflexivity|].
    unfold mbind at 1, M_bind at 1, RigctldBridge.self_, gets.
    apply never_raises_try, never_raises_ret.
  - unfold RigctldBridge._process_command.
    destruct (Py.split command) as [|cmd args]; [apply yields_ret; discriminate|].
    apply yields_bind. intros g. apply yields_try; [|apply yields_ret; discriminate].
    repeat match goal with
    | |- yields _ (if ?c then _ else _) => destruct c
    | |- yields _ (_ ≫= _) => apply yields_bind; intros ?
    | |- yields _ (match ?x with _ => _ end) => destruct x
    | |- yields _ (mret _) => apply yields_ret
    | |- yields _ raise => apply yields_raise
    end;
    try discriminate; try apply mode_reply_nonempty;
    try apply str_of_int_nonempty;
    match goal with |- (if ?b then _ else _) <> _ => destruct b; discriminate end.
Qed.

Lemma eqb_not_in (cmd x : string) (l : list string) :
  cmd ∉ l -> x ∈ l -> String.eqb cmd x = false.
Proof.
  intros Hn Hx. destruct (String.eqb_spec cmd x) as [->|_]; [contradiction|reflexivity].
Qed.

(** Unfolds [_process_command] on a command whose words are known. *)
Ltac open_command Hsplit :=
  unfold RigctldBridge._process_command; rewrite Hsplit;
  unfold mbind at 1, M_bind at 1, RigctldBridge.self_, gets; cbn [fst snd];
  unfold try_except.

(** X7.  A command that is empty or whose first word is not one of the
    fifteen names of the table is answered [RPRT -1]; nothing is asked
    of the gateway and the bridge is unchanged. *)
Theorem unknown_command_is_refused (command : string)
    (b : RigctldBridge.t) (w : World) :
  (Py.split command = []
   \/ exists cmd args, Py.split command = cmd :: args /\ cmd ∉ command_names) ->
  RigctldBridge._process_command command (b, w) = (Ret "RPRT -1", (b, w)).
Proof.
  intros [Hsplit|(cmd & args & Hsplit & Hcmd)].
  - unfold RigctldBridge._process_command. rewrite Hsplit. reflexivity.
  - open_command Hsplit.
    rewrite !(eqb_not_in cmd _ _ Hcmd) by (unfold command_names; repeat constructor).
    reflexivity.
Qed.

(** X8.  [F], [M] and [T] without an argument, [F] with an argument
    that [float()] or [int()] refuses and [T] with an argument that
    [int()] refuses are answered [RPRT -1]; nothing is asked of the
    gateway and the bridge is unchanged. *)
Theorem malformed_command_is_refused (command : string)
    (b : RigctldBridge.t) (w : World) :
  ((exists cmd, Py.split command = [cmd] /\ cmd ∈ ["F"; "M"; "T"])
   \/ (exists a rest, Py.split command = "F" :: a :: rest /\ Py.int_float a = None)
   \/ (exists a rest, Py.split command = "T" :: a :: rest /\ Py.int_of_str a = None)) ->
  RigctldBridge._process_command command (b, w) = (Ret "RPRT -1", (b, w)).
Proof.
  intros [(cmd & Hsplit & Hcmd)|[(a & rest & Hsplit & Ha)|(a & rest & Hsplit & Ha)]].
  - repeat (apply elem_of_cons in Hcmd as [->|Hcmd]);
      [| | |apply elem_of_nil in Hcmd; contradiction];
      open_command Hsplit; reflexivity.
  - open_command Hsplit. cbn [String.eqb Ascii.eqb Bool.eqb].
    unfold mbind, M_bind. rewrite Ha. reflexivity.
  - open_command Hsplit. cbn [String.eqb Ascii.eqb Bool.eqb].
    unfold mbind, M_bind. rewrite Ha. reflexivity.
Qed.

(** X9.  The commands [v], [V], [s], [S], [\dump_state],
    [\get_powerstat], [\chk_vfo], [q] and [Q] get their fixed reply
    whatever follows the first word; nothing is asked of the gateway
    and the bridge is unchanged. *)
Theorem stub_commands_answer_alone (command cmd reply : string) (args : list string)
    (b : RigctldBridge.t) (w : World) :
  Py.split command = cmd :: args ->
  (cmd, reply) ∈ stub_replies ->
  RigctldBridge._process_command command (b, w) = (Ret reply, (b, w)).
Proof.
  intros Hsplit Hin. unfold stub_replies in Hin.
  repeat (apply elem_of_cons in Hin as [[= -> ->]|Hin]);
    [..|apply elem_of_nil in Hin; contradiction];
    open_command Hsplit; reflexivity.
Qed.

(** X10.  [T <n>] keys the transmitter only for [n = 1]: every other
    integer, not only 0, is a PTT-off.  The reply tells whether
    [_set_ptt] succeeded. *)
Theorem ptt_command_keys_only_on_one (command a : string) (rest : list string)
    (n : Z) (b : RigctldBridge.t) (w : World) :
  Py.split command = "T" :: a :: rest ->
  Py.int_of_str a = Some n ->
  let r := RigctldBridge._set_ptt (n =? 1) (b, w) in
  RigctldBridge._process_command command (b, w)
  = (Ret (match r.1 with Ret true => "RPRT 0" | _ => "RPRT -1" end), r.2)
  /\ (n <> 1 -> connected_in w (RigctldBridge.rig b) = true ->
      trace r.2.2
      = trace w ++ [Rpc (now w) (bool_decide (0 < lock_depth w)%nat) (rig_set_ptt 0)]).
Proof.
  intros Hsplit Ha. cbv zeta. split.
  - open_command Hsplit. cbn [String.eqb Ascii.eqb Bool.eqb].
    unfold mbind, M_bind. rewrite Ha. cbn [or_raise mret M_ret].
    rewrite _set_ptt_run. cbv zeta.
    destruct (connected_in w (RigctldBridge.rig b)); [|reflexivity].
    destruct (succeeds w _); reflexivity.
  - intros Hn Hc. apply Z.eqb_neq in Hn. rewrite Hn, _set_ptt_run. cbv zeta.
    rewrite Hc. destruct (succeeds w _); reflexivity.
Qed.

End CommandTable.

Lemma unknown_command_is_refused_witness :
  let s := Fake.bridge true (Fake.server Fake.g90 3) (Fake.sdrpp "14074000") in
  @RigctldBridge._process_command Fake.exact "Z 14074000" (s.1, s.2)
  = (Ret "RPRT -1", (s.1, s.2)).
Proof.
  intros s. apply (@unknown_command_is_refused Fake.exact). right.
  exists "Z", ["14074000"]. split; [reflexivity|].
  apply (bool_decide_eq_false_1 _). vm_compute. reflexivity.
Defined.

Lemma malformed_command_is_refused_witness :
  let s := Fake.bridge true (Fake.server Fake.g90 3) (Fake.sdrpp "14074000") in
  @RigctldBridge._process_command Fake.exact "T on" (s.1, s.2)
  = (Ret "RPRT -1", (s.1, s.2))
  /\ @RigctldBridge._process_command Fake.exact "F" (s.1, s.2)
     = (Ret "RPRT -1", (s.1, s.2)).
Proof.
  intros s. split; apply (@malformed_command_is_refused Fake.exact).
  - right. right. exists "on", []. split; reflexivity.
  - left. exists "F". split; [reflexivity|]. constructor.
Defined.

Lemma stub_commands_answer_alone_witness :
  let s := Fake.bridge true (Fake.server Fake.g90 3) (Fake.sdrpp "14074000") in
  @RigctldBridge._process_command Fake.exact "V VFOB" (s.1, s.2)
  = (Ret "RPRT 0", (s.1, s.2)).
Proof.
  intros s.
  apply (@stub_commands_answer_alone Fake.exact "V VFOB" "V" "RPRT 0" ["VFOB"]).
  - reflexivity.
  - unfold stub_replies. repeat constructor.
Defined.

Lemma ptt_command_keys_only_on_one_witness :
  let s := @Fake.keyed Fake.exact true (Fake.server Fake.g90 3) (Fake.sdrpp "14074000") in
  let out := @RigctldBridge._process_command Fake.exact "T 2" (s.1, s.2) in
  out = (Ret (match (RigctldBridge._set_ptt (2 =? 1) (s.1, s.2)).1 with
              | Ret true => "RPRT 0"
              | _ => "RPRT -1"
              end),
         (RigctldBridge._set_ptt (2 =? 1) (s.1, s.2)).2)
  /\ out.1 = Ret "RPRT 0"
  /\ RigctldBridge.ptt_on_time s.1 = Some 1700000000006
  /\ RigctldBridge.ptt_on_time out.2.1 = None.
Proof.
  intros s out.
  destruct (@ptt_command_keys_only_on_one Fake.exact "T 2" "2" [] 2 s.1 s.2
              eq_refl eq_refl) as [Hout _].
  split; [exact Hout|]. repeat apply conj; vm_compute; reflexivity.
Defined.

Lemma other_commands_keep_session_witness :
  let s := @Fake.keyed Fake.exact true (Fake.server Fake.g90 3) (Fake.sdrpp "14074000") in
  (@RigctldBridge._process_command Fake.exact "M CWR" (s.1, s.2)).2.1 = s.1.
Proof.
  intros s.
  apply (@other_commands_keep_session Fake.exact "M CWR" "M" ["CWR"] eq_refl).
  discriminate.
Defined.

(** ** The mode tables: round trip and validity *)

Section ModeTables.
Context `{Py.FloatConv}.

Lemma dict_get_set_eq (k v dflt : string) (d : RigctldBridge.dict) :
  RigctldBridge.dict_get k (RigctldBridge.dict_set k v d) dflt = v.
Proof.
  induction d as [|[k' v'] d IH]; cbn.
  - rewrite String.eqb_refl. reflexivity.
  - destruct (String.eqb_spec k k') as [->|Hne]; cbn.
    + rewrite String.eqb_refl. reflexivity.
    + destruct (String.eqb_spec k k'); [contradiction|]. exact IH.
Qed.

Lemma dict_get_set_ne (k k' v dflt : string) (d : RigctldBridge.dict) :
  k <> k' ->
  RigctldBridge.dict_get k' (RigctldBridge.dict_set k v d) dflt
  = RigctldBridge.dict_get k' d dflt.
Proof.
  intros Hne. induction d as [|[k0 v0] d IH]; cbn.
  - destruct (String.eqb_spec k' k); [congruence|reflexivity].
  - destruct (String.eqb_spec k k0) as [->|Hk]; cbn.
    + destruct (String.eqb_spec k' k0); [congruence|reflexivity].
    + destruct (String.eqb_spec k' k0); [reflexivity|exact IH].
Qed.

Lemma dict_get_in (k v dflt : string) (d : RigctldBridge.dict) :
  NoDup (keys d) -> (k, v) ∈ d -> RigctldBridge.dict_get k d dflt = v.
Proof.
  unfold keys. induction d as [|[k0 v0] d IH]; intros Hnd Hin.
  - apply elem_of_nil in Hin. contradiction.
  - rewrite fmap_cons in Hnd. apply NoDup_cons in Hnd as [Hk0 Hnd]. cbn.
    apply elem_of_cons in Hin as [[= -> ->]|Hin].
    + rewrite String.eqb_refl. reflexivity.
    + destruct (String.eqb_spec k k0) as [->|_]; [|apply IH; assumption].
      exfalso. apply Hk0. apply (list_elem_of_fmap_2 fst) in Hin. exact Hin.
Qed.

Lemma dict_get_cases (k dflt : string) (d : RigctldBridge.dict) :
  RigctldBridge.dict_get k d dflt = dflt
  \/ RigctldBridge.dict_get k d dflt ∈ values d.
Proof.
  unfold values. induction d as [|[k0 v0] d IH]; cbn; [left; reflexivity|].
  destruct (String.eqb k k0).
  - right. apply list_elem_of_here.
  - destruct IH as [IH|IH]; [left; exact IH|right; apply list_elem_of_further, IH].
Qed.

Lemma reverse_dict_snoc (d : RigctldBridge.dict) (k v : string) :
  RigctldBridge.reverse_dict (d ++ [(k, v)])
  = RigctldBridge.dict_set v k (RigctldBridge.reverse_dict d).
Proof. unfold RigctldBridge.reverse_dict. rewrite foldl_app. reflexivity. Qed.

(** The reverse table sends a value of the table to one of its keys. *)
Lemma reverse_dict_finds_key (d : RigctldBridge.dict) (v dflt : string) :
  v ∈ values d ->
  (RigctldBridge.dict_get v (RigctldBridge.reverse_dict d) dflt, v) ∈ d.
Proof.
  unfold values. induction d as [|[k0 v0] d IH] using rev_ind; intros Hv.
  - apply elem_of_nil in Hv. contradiction.
  - rewrite reverse_dict_snoc. rewrite fmap_app in Hv. cbn in Hv.
    destruct (String.eqb_spec v0 v) as [->|Hne].
    + rewrite dict_get_set_eq. apply elem_of_app. right. apply list_elem_of_here.
    + rewrite dict_get_set_ne by exact Hne.
      apply elem_of_app in Hv as [Hv|Hv].
      * apply elem_of_app. left. apply IH, Hv.
      * apply list_elem_of_singleton in Hv. congruence.
Qed.

(** X12.  Round trip through the two tables: for a [dict] literal (its
    keys are distinct) and the [dict] that the comprehension
    [{v: k for k, v in d.items()}] builds from it, a value of the first
    goes, through the second and back through the first, to itself.
    For the mode tables: the name [m] reports for an internal mode is
    a name that [M] translates back to that mode. *)
Theorem reverse_dict_round_trip (d : RigctldBridge.dict) (v dflt dflt' : string) :
  NoDup (keys d) ->
  v ∈ values d ->
  RigctldBridge.dict_get
    (RigctldBridge.dict_get v (RigctldBridge.reverse_dict d) dflt) d dflt' = v.
Proof.
  intros Hnd Hv. apply dict_get_in; [exact Hnd|]. apply reverse_dict_finds_key, Hv.
Qed.

Lemma upper_valid_mode (m : string) :
  m ∈ RigControl.valid_modes -> Py.upper m = m.
Proof.
  unfold RigControl.valid_modes. intros Hm.
  repeat (apply elem_of_cons in Hm as [->|Hm]); try reflexivity.
  apply elem_of_nil in Hm. contradiction.
Qed.

(** X13.  Whatever word follows [M], the mode handed to the gateway is
    one of its eight valid modes: the gateway never refuses it, so on
    a connected gateway the request goes to FlRig and the reply is
    [RPRT 0] exactly when FlRig answered. *)
Theorem set_mode_command_always_valid (b : RigctldBridge.t) (w : World)
    (command word : string) (rest : list string) :
  tables_built b ->
  Py.split command = "M" :: word :: rest ->
  let m := RigctldBridge.dict_get (Py.upper word) RigctldBridge.mode_map_init "USB" in
  m ∈ RigControl.valid_modes
  /\ (connected_in w (RigctldBridge.rig b) = true ->
      RigctldBridge._process_command command (b, w)
      = (Ret (if succeeds w (rig_set_mode m) then "RPRT 0" else "RPRT -1"),
         (b, served (slot w) true true (rig_set_mode m) w))).
Proof.
  intros [Hfwd _] Hsplit m.
  assert (Hm : m ∈ RigControl.valid_modes).
  { subst m. destruct (dict_get_cases (Py.upper word) "USB" RigctldBridge.mode_map_init)
      as [-> | Hin].
    - apply list_elem_of_here.
    - revert Hin. generalize (RigctldBridge.dict_get (Py.upper word)
                                RigctldBridge.mode_map_init "USB").
      intros x. unfold values, RigControl.valid_modes. cbn.
      rewrite !elem_of_cons, !elem_of_nil. tauto. }
  split; [exact Hm|]. intros Hc.
  rewrite (process_set_mode command word rest b w Hsplit). cbv zeta.
  rewrite Hfwd. fold m. rewrite set_mode_run, Hc, (upper_valid_mode m Hm).
  rewrite (bool_decide_eq_true_2 _ Hm). cbn [andb fst snd].
  destruct (succeeds w _); reflexivity.
Qed.

End ModeTables.

Lemma reverse_dict_round_trip_witness :
  RigctldBridge.dict_get
    (RigctldBridge.dict_get "USB"
       (RigctldBridge.reverse_dict RigctldBridge.mode_map_init) "USB")
    RigctldBridge.mode_map_init "USB" = "USB"
  /\ RigctldBridge.dict_get "USB"
       (RigctldBridge.reverse_dict RigctldBridge.mode_map_init) "USB" = "PKTUSB".
Proof.
  split; [|reflexivity]. apply reverse_dict_round_trip.
  - apply (bool_decide_eq_true_1 _). vm_compute. reflexivity.
  - apply (bool_decide_eq_true_1 _). vm_compute. reflexivity.
Defined.

Lemma set_mode_command_always_valid_witness :
  let s := Fake.bridge true (Fake.server Fake.g90 3) (Fake.sdrpp "14074000") in
  let m := RigctldBridge.dict_get (Py.upper "pktlsb") RigctldBridge.mode_map_init "USB" in
  m = "LSB"
  /\ @RigctldBridge._process_command Fake.exact "M pktlsb 2400" (s.1, s.2)
     = (Ret (if succeeds s.2 (rig_set_mode m) then "RPRT 0" else "RPRT -1"),
        (s.1, served (slot s.2) true true (rig_set_mode m) s.2)).
Proof.
  intros s m. split; [reflexivity|].
  assert (Hs : tables_built s.1) by (split; vm_compute; reflexivity).
  assert (Hc : connected_in s.2 (RigctldBridge.rig s.1) = true)
    by (vm_compute; reflexivity).
  destruct (@set_mode_command_always_valid Fake.exact s.1 s.2 "M pktlsb 2400"
              "pktlsb" ["2400"] Hs eq_refl) as [_ Hcmd].
  apply Hcmd, Hc.
Defined.

(** ** The bridge: start, stop and the idle watchdog *)

Section BridgeLifecycle.
Context `{Py.FloatConv}.

Lemma connect_outcome (g : nat) (w : World) :
  (g < length (rigs w))%nat ->
  RigControl.connect g w = (Ret (succeeds w rig_get_xcvr), (RigControl.connect g w).2)
  /\ connected_in (RigControl.connect g w).2 g = succeeds w rig_get_xcvr.
Proof.
  intros Hg. rewrite connect_run. cbv zeta. cbn [fst snd]. split; [reflexivity|].
  unfold connected_in. cbn [rigs set_rigs served].
  rewrite list_lookup_total_insert_eq by (rewrite ?length_insert; exact Hg).
  rewrite list_lookup_total_insert_eq by exact Hg.
  cbn [RigControl.set_connected RigControl.set_proxy _connected proxy].
  destruct (succeeds w rig_get_xcvr); reflexivity.
Qed.

Lemma connect_to_rig_run (b : RigctldBridge.t) (w : World) :
  RigctldBridge.connect_to_rig (b, w) =
    if RigctldBridge.owns_rig b
    then (Ret (succeeds w rig_get_xcvr),
          (b, (RigControl.connect (RigctldBridge.rig b) w).2))
    else (Ret (connected_in w (RigctldBridge.rig b)), (b, w)).
Proof.
  unfold RigctldBridge.connect_to_rig, RigctldBridge.self_.
  unfold mbind, M_bind, gets. cbn [fst snd].
  destruct (RigctldBridge.owns_rig b); cbn [negb]; [|reflexivity].
  rewrite lift_run, connect_run. cbv zeta. cbn [fst snd].
  destruct (succeeds w rig_get_xcvr); reflexivity.
Qed.

Lemma start_run (net : RigctldBridge.Listen) (b : RigctldBridge.t) (w : World) :
  RigctldBridge.start net (b, w) =
    if RigctldBridge.running b then (Ret false, (b, w))
    else
      let c := RigctldBridge.connect_to_rig (b, w) in
      match c.1, net with
      | Ret true, RigctldBridge.Listening =>
          (Ret true,
           (RigctldBridge.set_threads true
              (RigctldBridge.set_running true
                 (RigctldBridge.set_server_socket true b)), c.2.2))
      | Ret true, RigctldBridge.BindFails =>
          (Ret false, (RigctldBridge.set_server_socket true b, c.2.2))
      | _, _ => (Ret false, (b, c.2.2))
      end.
Proof.
  unfold RigctldBridge.start, RigctldBridge.self_ at 1.
  unfold mbind at 1, M_bind at 1, gets. cbn [fst snd].
  destruct (RigctldBridge.running b); [reflexivity|].
  unfold mbind at 1, M_bind at 1. cbv zeta. rewrite connect_to_rig_run.
  destruct (RigctldBridge.owns_rig b); cbn [fst snd];
    [destruct (succeeds w rig_get_xcvr)
    |destruct (connected_in w (RigctldBridge.rig b))];
    cbn [negb]; try reflexivity; destruct net; reflexivity.
Qed.

(** X14.  [start()] returns [True] exactly when the bridge was not
    running, the gateway is connected when [start] is through with it
    (a shared one as it was handed over, an owned one by the
    [connect()] that [start] makes) and the socket listens; then, and
    only then, the bridge runs.  A bridge that runs already, or one
    with a shared gateway, sends nothing to FlRig; an owned gateway is
    connected before the socket is tried and stays connected when the
    socket fails. *)
Theorem start_reports_listening (net : RigctldBridge.Listen)
    (b : RigctldBridge.t) (w : World) :
  (RigctldBridge.rig b < length (rigs w))%nat ->
  let out := RigctldBridge.start net (b, w) in
  exists ok,
    out.1 = Ret ok
    /\ (ok = true <->
        RigctldBridge.running b = false
        /\ net = RigctldBridge.Listening
        /\ connected_in out.2.2 (RigctldBridge.rig b) = true)
    /\ RigctldBridge.running out.2.1 = RigctldBridge.running b || ok
    /\ (RigctldBridge.running b = true \/ RigctldBridge.owns_rig b = false ->
        out.2.2 = w)
    /\ (RigctldBridge.running b = false -> RigctldBridge.owns_rig b = true ->
        out.2.2 = (RigControl.connect (RigctldBridge.rig b) w).2)
    /\ RigctldBridge.ptt_on_time out.2.1 = RigctldBridge.ptt_on_time b.
Proof.
  intros Hg. cbv zeta. rewrite start_run.
  destruct (connect_outcome (RigctldBridge.rig b) w Hg) as [_ Hconn].
  assert (Hleaf : forall (ok : bool) b' w',
            (ok = true <->
             RigctldBridge.running b = false
             /\ net = RigctldBridge.Listening
             /\ connected_in w' (RigctldBridge.rig b) = true) ->
            RigctldBridge.running b' = RigctldBridge.running b || ok ->
            (RigctldBridge.running b = true \/ RigctldBridge.owns_rig b = false ->
             w' = w) ->
            (RigctldBridge.running b = false -> RigctldBridge.owns_rig b = true ->
             w' = (RigControl.connect (RigctldBridge.rig b) w).2) ->
            RigctldBridge.ptt_on_time b' = RigctldBridge.ptt_on_time b ->
            exists ok0,
              (Ret ok, (b', w')).1 = Ret ok0
              /\ (ok0 = true <->
                  RigctldBridge.running b = false
                  /\ net = RigctldBridge.Listening
                  /\ connected_in (Ret ok, (b', w')).2.2 (RigctldBridge.rig b) = true)
              /\ RigctldBridge.running (Ret ok, (b', w')).2.1
                 = RigctldBridge.running b || ok0
              /\ (RigctldBridge.running b = true \/ RigctldBridge.owns_rig b = false ->
                  (Ret ok, (b', w')).2.2 = w)
              /\ (RigctldBridge.running b = false -> RigctldBridge.owns_rig b = true ->
                  (Ret ok, (b', w')).2.2
                  = (RigControl.connect (RigctldBridge.rig b) w).2)
              /\ RigctldBridge.ptt_on_time (Ret ok, (b', w')).2.1
                 = RigctldBridge.ptt_on_time b).
  { intros ok b' w' H1 H2 H3 H4 H5. exists ok. cbn [fst snd]. tauto. }
  destruct (RigctldBridge.running b) eqn:Hrun.
  { apply Hleaf; try reflexivity; try discriminate; try exact Hrun.
    split; [discriminate|]. intros (Hf & _). discriminate Hf. }
  cbv zeta. rewrite connect_to_rig_run.
  destruct (RigctldBridge.owns_rig b) eqn:Howns; cbn [fst snd].
  - destruct (succeeds w rig_get_xcvr) eqn:Hok.
    + destruct net; apply Hleaf; try reflexivity; try exact Hrun;
        try (intros [Hx|Hx]; discriminate Hx);
        try (split; [discriminate|intros (_ & Hx & _); discriminate Hx]).
      split; [|reflexivity]. intros _.
      split; [reflexivity|]. split; [reflexivity|exact Hconn].
    + apply Hleaf; try reflexivity; try exact Hrun;
        try (intros [Hx|Hx]; discriminate Hx).
      split; [discriminate|]. intros (_ & _ & Hx). rewrite Hconn in Hx.
      discriminate Hx.
  - destruct (connected_in w (RigctldBridge.rig b)) eqn:Hc.
    + destruct net; apply Hleaf; try reflexivity; try discriminate; try exact Hrun;
        try (split; [discriminate|intros (_ & Hx & _); discriminate Hx]).
      split; [|reflexivity]. intros _.
      split; [reflexivity|]. split; [reflexivity|exact Hc].
    + apply Hleaf; try reflexivity; try discriminate; try exact Hrun.
      split; [discriminate|]. intros (_ & _ & Hx). rewrite Hc in Hx.
      discriminate Hx.
Qed.

Lemma _set_ptt_keeps_running (state : bool) (b : RigctldBridge.t) (w : World) :
  RigctldBridge.running (RigctldBridge._set_ptt state (b, w)).2.1
  = RigctldBridge.running b
  /\ RigctldBridge.server_socket (RigctldBridge._set_ptt state (b, w)).2.1
     = RigctldBridge.server_socket b.
Proof.
  rewrite _set_ptt_run. cbv zeta.
  destruct (connected_in w _); [|split; reflexivity].
  destruct (succeeds w _); split; reflexivity.
Qed.

(** X15.  [stop()] never raises and leaves the bridge not running; a
    second [stop()] does nothing at all: no further PTT request, no
    second release of the gateway.  On a bridge that is not running
    [stop()] returns at once, so that the socket and the connection of
    a [start()] that failed at [bind] are left as they are. *)
Theorem stop_is_idempotent (b : RigctldBridge.t) (w : World) :
  let out := RigctldBridge.stop (b, w) in
  out.1 = Ret tt
  /\ RigctldBridge.running out.2.1 = false
  /\ RigctldBridge.stop out.2 = (Ret tt, out.2)
  /\ (RigctldBridge.running b = false -> out = (Ret tt, (b, w)))
  /\ (RigctldBridge.running b = false ->
      forall w0,
        RigctldBridge.owns_rig b = true ->
        (RigctldBridge.rig b < length (rigs w0))%nat ->
        succeeds w0 rig_get_xcvr = true ->
        let failed := RigctldBridge.start RigctldBridge.BindFails (b, w0) in
        failed.1 = Ret false
        /\ RigctldBridge.stop failed.2 = (Ret tt, failed.2)
        /\ RigctldBridge.server_socket failed.2.1 = true
        /\ connected_in failed.2.2 (RigctldBridge.rig b) = true).
Proof.
  cbv zeta. rewrite stop_run. destruct (RigctldBridge.running b) eqn:Hrun.
  - cbv zeta. cbn [fst snd].
    set (b0 := RigctldBridge.set_server_socket false (RigctldBridge.set_running false b)).
    destruct (_set_ptt_keeps_running false b0 w) as [Hr _].
    repeat apply conj; try reflexivity; try discriminate.
    + exact Hr.
    + rewrite stop_run. cbn [fst snd]. rewrite Hr. reflexivity.
  - cbn [fst snd]. repeat apply conj; try reflexivity.
    + exact Hrun.
    + rewrite stop_run, Hrun. reflexivity.
    + intros _ w0 Howns Hg Hok. cbv zeta. rewrite start_run, Hrun. cbv zeta.
      rewrite connect_to_rig_run, Howns, Hok. cbn [fst snd].
      destruct (connect_outcome (RigctldBridge.rig b) w0 Hg) as [_ Hconn].
      repeat apply conj; try reflexivity.
      * rewrite stop_run. cbn [RigctldBridge.running RigctldBridge.set_server_socket].
        rewrite Hrun. reflexivity.
      * rewrite Hconn. exact Hok.
Qed.

Lemma later_later (d : Z) (n : nat) (w : World) :
  later d n (later d 1 w) = later d (S n) w.
Proof. unfold later, set_now. cbn [now]. f_equal. lia. Qed.

(** X16.  The watchdog of a bridge that is not running does nothing,
    and the watchdog of a running bridge with no PTT session (none
    recorded, or one recorded at time [0.0], which counts as none)
    only sleeps, however many turns it makes: it sends nothing to
    FlRig and leaves the bridge as it is. *)
Theorem watchdog_sleeps_without_session (n : nat) (b : RigctldBridge.t) (w : World) :
  (RigctldBridge.running b = false ->
   RigctldBridge._ptt_monitor_loop n (b, w) = (Ret tt, (b, w)))
  /\ (RigctldBridge.running b = true ->
      RigctldBridge.truthy_time (RigctldBridge.ptt_on_time b) = false ->
      RigctldBridge._ptt_monitor_loop n (b, w) = (Ret tt, (b, later 1000 n w))).
Proof.
  split.
  - intros Hrun. destruct n; [reflexivity|].
    cbn [RigctldBridge._ptt_monitor_loop].
    unfold mbind, M_bind, RigctldBridge.self_, gets. cbn [fst snd].
    rewrite Hrun. reflexivity.
  - intros Hrun Hno. revert w. induction n as [|n IH]; intros w.
    + unfold later. replace (now w + 1000 * Z.of_nat 0) with (now w) by lia.
      destruct w; reflexivity.
    + cbn [RigctldBridge._ptt_monitor_loop].
      unfold mbind, M_bind, RigctldBridge.self_, gets. cbn [fst snd]. rewrite Hrun.
      rewrite iteration_idle.
      * rewrite IH. change (set_now (now w + 1000) w) with (set_now (now w + 1000) w).
        replace (set_now (now w + 1000) w) with (later 1000 1 w)
          by (unfold later; f_equal; lia).
        rewrite later_later. reflexivity.
      * unfold RigctldBridge.truthy_time in Hno.
        destruct (RigctldBridge.ptt_on_time b) as [t0|]; [|exact I].
        left. apply Z.eqb_eq. destruct (t0 =? 0); [reflexivity|discriminate Hno].
Qed.

Lemma monitor_iteration_returns (s : RigctldBridge.t * World) :
  (RigctldBridge._ptt_monitor_iteration s).1 = Ret tt.
Proof.
  unfold RigctldBridge._ptt_monitor_iteration, try_except.
  match goal with
  | |- (match ?x with _ => _ end).1 = _ => destruct x as [[[]|] [b1 w1]]
  end; [reflexivity|].
  rewrite lift_run. reflexivity.
Qed.

Lemma monitor_loop_returns (n : nat) (s : RigctldBridge.t * World) :
  (RigctldBridge._ptt_monitor_loop n s).1 = Ret tt.
Proof.
  revert s. induction n as [|n IH]; intros [b w]; [reflexivity|].
  cbn [RigctldBridge._ptt_monitor_loop].
  unfold mbind, M_bind, RigctldBridge.self_, gets. cbn [fst snd].
  destruct (RigctldBridge.running b); [|reflexivity].
  pose proof (monitor_iteration_returns (b, w)) as Hit.
  destruct (RigctldBridge._ptt_monitor_iteration (b, w)) as [[[]|] s1];
    [apply IH|discriminate Hit].
Qed.

(** X17.  A forced release that fails does not end the session: while
    FlRig refuses [rig.set_ptt(0)], the watchdog sends it again at
    every turn, one request a turn, and the session start stays
    recorded; on a gateway that is not connected the watchdog can
    send nothing and the session stays open as well. *)
Theorem watchdog_retries_failed_release (n : nat) (b : RigctldBridge.t) (w : World)
    (t0 : Z) :
  RigctldBridge.running b = true ->
  RigctldBridge.ptt_on_time b = Some t0 ->
  t0 <> 0 ->
  RigctldBridge.ptt_timeout b < now w - t0 ->
  let out := RigctldBridge._ptt_monitor_loop n (b, w) in
  out.1 = Ret tt
  /\ (connected_in w (RigctldBridge.rig b) = false ->
      out.2 = (b, later 1000 n w))
  /\ (connected_in w (RigctldBridge.rig b) = true ->
      (forall seen, (flrig w seen (rig_set_ptt 0)).1 = Fault) ->
      out.2.1 = b
      /\ flrig_seen out.2.2 = flrig_seen w ++ replicate n (rig_set_ptt 0)
      /\ map snd (rpcs (trace out.2.2))
         = map snd (rpcs (trace w)) ++ replicate n (rig_set_ptt 0)).
Proof.
  intros Hrun Hon Hne. revert w. induction n as [|n IH]; intros w Hlate; cbv zeta.
  - cbn [RigctldBridge._ptt_monitor_loop replicate]. rewrite !app_nil_r.
    unfold mret, M_ret. cbn [fst snd]. split; [reflexivity|]. split.
    + intros _. unfold later.
      replace (now w + 1000 * Z.of_nat 0) with (now w) by lia.
      destruct w; reflexivity.
    + intros _ _. repeat apply conj; reflexivity.
  - split; [apply monitor_loop_returns|].
    cbn [RigctldBridge._ptt_monitor_loop].
    unfold mbind, M_bind, RigctldBridge.self_, gets. cbn [fst snd]. rewrite Hrun.
    rewrite (iteration_fires b w t0 Hon Hne Hlate). cbv zeta.
    rewrite _set_ptt_run. cbv zeta.
    destruct (connected_in w (RigctldBridge.rig b)) eqn:Hc.
    + split; [discriminate|]. intros _ Hfault.
      assert (Hs : succeeds w (rig_set_ptt 0) = false)
        by (unfold succeeds; rewrite Hfault; reflexivity).
      rewrite Hs. cbn [fst snd].
      set (w1 := set_now _ _).
      assert (Hlate1 : RigctldBridge.ptt_timeout b < now w1 - t0).
      { subst w1. cbn [now set_now served]. unfold took. lia. }
      destruct (IH w1 Hlate1) as (_ & _ & Hretry).
      destruct Hretry as (Hb & Hseen & Htr); [exact Hc|exact Hfault|].
      split; [exact Hb|]. split.
      * rewrite Hseen. subst w1. cbn [flrig_seen set_now served replicate].
        rewrite <- app_assoc. reflexivity.
      * rewrite Htr. subst w1. cbn [trace set_now served replicate].
        unfold rpcs. rewrite omap_app, map_app. cbn. rewrite <- app_assoc. reflexivity.
    + split; [|discriminate]. intros _. cbn [fst snd].
      set (w1 := set_now _ _).
      assert (Hlate1 : RigctldBridge.ptt_timeout b < now w1 - t0).
      { subst w1. cbn [now set_now]. lia. }
      destruct (IH w1 Hlate1) as (_ & Hidle & _).
      rewrite Hidle by exact Hc.
      subst w1. replace (set_now (now w + 1000) w) with (later 1000 1 w)
        by (unfold later; f_equal; lia).
      rewrite later_later. reflexivity.
Qed.

End BridgeLifecycle.

Lemma start_reports_listening_witness :
  let s := Fake.bridge false (Fake.server Fake.g90 3) (Fake.sdrpp "14074000") in
  let b := RigctldBridge.set_running false s.1 in
  let out := RigctldBridge.start RigctldBridge.BindFails (b, s.2) in
  exists ok,
    out.1 = Ret ok
    /\ (ok = true <->
        RigctldBridge.running b = false
        /\ RigctldBridge.BindFails = RigctldBridge.Listening
        /\ connected_in out.2.2 (RigctldBridge.rig b) = true)
    /\ RigctldBridge.running out.2.1 = RigctldBridge.running b || ok.
Proof.
  intros s b out.
  assert (Hg : (RigctldBridge.rig b < length (rigs s.2))%nat) by (vm_compute; lia).
  destruct (start_reports_listening RigctldBridge.BindFails b s.2 Hg)
    as (ok & H1 & H2 & H3 & _).
  exists ok. split; [exact H1|]. split; [exact H2|exact H3].
Defined.

Lemma watchdog_retries_failed_release_witness :
  let s := @Fake.keyed Fake.exact false
             (Fake.faulty Fake.is_ptt_off (Fake.server Fake.g90 3))
             (Fake.sdrpp "14074000") in
  let w := later 1000 181 s.2 in
  let out := RigctldBridge._ptt_monitor_loop 3 (s.1, w) in
  RigctldBridge.ptt_on_time s.1 = Some 1700000000006
  /\ out.2.1 = s.1
  /\ flrig_seen out.2.2 = flrig_seen w ++ replicate 3 (rig_set_ptt 0).
Proof.
  intros s w out.
  assert (Hrun : RigctldBridge.running s.1 = true) by (vm_compute; reflexivity).
  assert (Hon : RigctldBridge.ptt_on_time s.1 = Some 1700000000006)
    by (vm_compute; reflexivity).
  assert (Hne : 1700000000006 <> 0) by discriminate.
  assert (Hlate : RigctldBridge.ptt_timeout s.1 < now w - 1700000000006)
    by (vm_compute; reflexivity).
  assert (Hc : connected_in w (RigctldBridge.rig s.1) = true) by (vm_compute; reflexivity).
  assert (Hfault : forall seen, (flrig w seen (rig_set_ptt 0)).1 = Fault)
    by (intros seen; vm_compute; reflexivity).
  destruct (watchdog_retries_failed_release 3 s.1 w 1700000000006 Hrun Hon Hne Hlate)
    as (_ & _ & Hretry).
  destruct (Hretry Hc Hfault) as (Hb & Hseen & _).
  split; [exact Hon|]. split; [exact Hb|exact Hseen].
Defined.

(** ** The client loop *)

Section ClientLoop.
Context `{Py.FloatConv}.

(** X18.  [_process_command] looks at the first two words of a command
    and at nothing else: further arguments, such as the passband of
    [M USB 2400], and further commands that arrived in the same read,
    are ignored. *)
Theorem process_command_reads_two_words (c1 c2 : string) :
  firstn 2 (Py.split c1) = firstn 2 (Py.split c2) ->
  RigctldBridge._process_command c1 = RigctldBridge._process_command c2.
Proof.
  unfold RigctldBridge._process_command.
  destruct (Py.split c1) as [|cmd1 [|a1 r1]], (Py.split c2) as [|cmd2 [|a2 r2]];
    cbn [firstn]; intros [=]; subst; reflexivity.
Qed.

Lemma maintains_ret {S A} (I : S -> Prop) (P : A -> Prop) (a : A) :
  P a -> maintains I P (mret a).
Proof. intros Ha s Hs. split; [exact Hs|]. intros a' [= <-]. exact Ha. Qed.

Lemma maintains_raise {S A} (I : S -> Prop) (P : A -> Prop) :
  maintains I P (@raise S A).
Proof. intros s Hs. split; [exact Hs|]. intros a [=]. Qed.

Lemma maintains_bind {S A B} (I : S -> Prop) (Q : A -> Prop) (P : B -> Prop)
    (c : M S A) (k : A -> M S B) :
  maintains I Q c -> (forall a, Q a -> maintains I P (k a)) ->
  maintains I P (c ≫= k).
Proof.
  intros Hc Hk s Hs. unfold mbind, M_bind.
  destruct (Hc s Hs) as [Hi Hq]. destruct (c s) as [[a|] s'].
  - apply (Hk a); [apply Hq; reflexivity|exact Hi].
  - split; [exact Hi|]. intros b [=].
Qed.

Lemma maintains_try {S A} (I : S -> Prop) (P : A -> Prop) (body handler : M S A) :
  maintains I P body -> maintains I P handler ->
  maintains I P (try_except body handler).
Proof.
  intros Hb Hh s Hs. unfold try_except.
  destruct (Hb s Hs) as [Hi Hp]. destruct (body s) as [[a|] s'].
  - split; [exact Hi|exact Hp].
  - apply Hh, Hi.
Qed.

Lemma maintains_lift {A} (c : M World A) : maintains serving (fun _ => True) (lift c).
Proof. intros [b w] Hs. rewrite lift_run. split; [exact Hs|]. intros; exact I. Qed.

Lemma maintains_or_raise {A} (o : option A) :
  maintains serving (fun _ => True) (or_raise o).
Proof. destruct o; [apply maintains_ret; exact I|apply maintains_raise]. Qed.

Lemma maintains_self_ {A} (f : RigctldBridge.t -> A) :
  maintains serving (fun a => exists b, tables_built b /\ a = f b)
    (RigctldBridge.self_ f).
Proof.
  intros [b w] Hs. split; [exact Hs|]. intros a [= <-]. exists b.
  split; [exact (proj1 Hs)|reflexivity].
Qed.

Lemma maintains_set_ptt (state : bool) :
  maintains serving (fun _ => True) (RigctldBridge._set_ptt state).
Proof.
  intros [b w] Hs. split; [|intros; exact I]. rewrite _set_ptt_run. cbv zeta.
  destruct (connected_in w _); [|exact Hs].
  destruct (succeeds w _); exact Hs.
Qed.

Lemma is_ascii_app (a b : string) :
  Py.is_ascii (a ++ b)%string = Py.is_ascii a && Py.is_ascii b.
Proof.
  unfold Py.is_ascii. induction a as [|c a IH]; [reflexivity|].
  change (String c a ++ b)%string with (String c (a ++ b)%string).
  cbn [list_ascii_of_string forallb]. rewrite IH, andb_assoc. reflexivity.
Qed.

Lemma mode_reply_sendable (m : string) :
  sendable (RigctldBridge.dict_get m
              (RigctldBridge.reverse_dict RigctldBridge.mode_map_init) "USB"
            ++ RigctldBridge.nl ++ "0")%string.
Proof.
  split; [apply mode_reply_nonempty|].
  rewrite is_ascii_app, andb_true_iff. split; [|reflexivity].
  destruct (dict_get_cases m "USB"
              (RigctldBridge.reverse_dict RigctldBridge.mode_map_init)) as [-> | Hin];
    [reflexivity|].
  revert Hin.
  generalize (RigctldBridge.dict_get m
                (RigctldBridge.reverse_dict RigctldBridge.mode_map_init) "USB").
  intros x. unfold values. cbn. rewrite !elem_of_cons, elem_of_nil.
  intros Hx. repeat (destruct Hx as [-> | Hx]; [reflexivity|]). contradiction.
Qed.

(** Every reply of a serving bridge can be put on the wire, and the
    bridge goes on serving. *)
Lemma process_command_serves (command : string) :
  maintains serving sendable (RigctldBridge._process_command command).
Proof.
  unfold RigctldBridge._process_command.
  destruct (Py.split command) as [|cmd args];
    [apply maintains_ret; split; [discriminate|reflexivity]|].
  eapply maintains_bind; [apply maintains_self_|]. intros g _.
  apply maintains_try; [|apply maintains_ret; split; [discriminate|reflexivity]].
  repeat match goal with
  | |- maintains _ _ (if ?c then _ else _) => destruct c
  | |- maintains _ _ (match ?x with _ => _ end) => destruct x
  | |- maintains _ _ (mret _) => apply maintains_ret
  | |- maintains _ _ raise => apply maintains_raise
  | |- maintains _ _ (lift _ ≫= _) =>
      eapply maintains_bind; [apply maintains_lift|intros ? _]
  | |- maintains _ _ (or_raise _ ≫= _) =>
      eapply maintains_bind; [apply maintains_or_raise|intros ? _]
  | |- maintains _ _ (RigctldBridge._set_ptt _ ≫= _) =>
      eapply maintains_bind; [apply maintains_set_ptt|intros ? _]
  | |- maintains _ _ (RigctldBridge.self_ _ ≫= _) =>
      eapply maintains_bind;
      [apply maintains_self_|intros ? (?b0 & [_ ?Hrev] & ->)]
  end;
  try (split; [discriminate|vm_compute; reflexivity]);
  try (split; [apply str_of_int_nonempty|apply str_of_int_ascii]);
  try (rewrite Hrev; apply mode_reply_sendable);
  match goal with
  | |- sendable (if ?b then _ else _) => destruct b; split; [discriminate|reflexivity| |]
  end; first [discriminate|reflexivity].
Qed.

(** One turn of the loop. *)
Lemma handle_client_turn (read : RigctldBridge.Read)
    (rest : list RigctldBridge.Read) (b : RigctldBridge.t) (w : World) :
  RigctldBridge._handle_client (read :: rest) (b, w) =
    if negb (RigctldBridge.running b) then (Ret [], (b, w))
    else
      match read with
      | RigctldBridge.RecvRaises => (Ret [], (b, w))
      | RigctldBridge.Bytes data sendall_ok =>
          if String.eqb data "" then (Ret [], (b, w))
          else if negb (Py.is_ascii data) then (Ret [], (b, w))
          else if String.eqb (Py.strip data) ""
          then RigctldBridge._handle_client rest (b, w)
          else
            match RigctldBridge._process_command (Py.strip data) (b, w) with
            | (Ret response, s1) =>
                if String.eqb response "" then RigctldBridge._handle_client rest s1
                else if negb (Py.is_ascii response) then (Ret [], s1)
                else if negb sendall_ok then (Ret [], s1)
                else
                  match RigctldBridge._handle_client rest s1 with
                  | (Ret sent, s2) =>
                      (Ret ((response ++ RigctldBridge.nl)%string :: sent), s2)
                  | (Raise, s2) => (Raise, s2)
                  end
            | (Raise, s1) => (Ret [], s1)
            end
      end.
Proof.
  cbn [RigctldBridge._handle_client].
  unfold mbind at 1, M_bind at 1, RigctldBridge.self_ at 1, gets.
  cbn [fst snd]. destruct (negb (RigctldBridge.running b)); [reflexivity|].
  destruct read as [data sendall_ok|]; [|reflexivity].
  destruct (String.eqb data ""); [reflexivity|].
  destruct (negb (Py.is_ascii data)); [reflexivity|].
  destruct (String.eqb (Py.strip data) ""); [reflexivity|].
  unfold mbind at 1, M_bind at 1, try_except.
  unfold mbind at 1, M_bind at 1.
  destruct (RigctldBridge._process_command (Py.strip data) (b, w))
    as [[response|] s1]; [|reflexivity].
  unfold mret at 1, M_ret at 1.
  destruct (String.eqb response ""); [reflexivity|].
  destruct (negb (Py.is_ascii response)); [reflexivity|].
  destruct (negb sendall_ok); [reflexivity|].
  unfold mbind, M_bind.
  destruct (RigctldBridge._handle_client rest s1) as [[sent|] s2]; reflexivity.
Qed.

Lemma replies_step (c : string) (cs : list string) (s : RigctldBridge.t * World) :
  replies (c :: cs) s =
    match RigctldBridge._process_command c s with
    | (Ret response, s1) =>
        match replies cs s1 with
        | (Ret sent, s2) => (Ret ((response ++ RigctldBridge.nl)%string :: sent), s2)
        | (Raise, s2) => (Raise, s2)
        end
    | (Raise, s1) => (Raise, s1)
    end.
Proof.
  cbn [replies]. unfold mbind, M_bind.
  destruct (RigctldBridge._process_command c s) as [[response|] s1]; [|reflexivity].
  destruct (replies cs s1) as [[sent|] s2]; reflexivity.
Qed.

Lemma process_command_returns (command : string) (s : RigctldBridge.t * World) :
  exists response, (RigctldBridge._process_command command s).1 = Ret response.
Proof.
  destruct s as [b w]. unfold RigctldBridge._process_command.
  destruct (Py.split command) as [|cmd args]; [eexists; reflexivity|].
  unfold mbind at 1, M_bind at 1, RigctldBridge.self_, gets.
  apply never_raises_try, never_raises_ret.
Qed.

Lemma commands_cons (data : string) (sendall_ok : bool)
    (rest : list RigctldBridge.Read) :
  commands (RigctldBridge.Bytes data sendall_ok :: rest)
  = if String.eqb (Py.strip data) "" then commands rest
    else Py.strip data :: commands rest.
Proof. unfold commands. cbn. destruct (String.eqb _ _); reflexivity. Qed.

(** X19.  On a running bridge, a client that is there (each read
    brings some ASCII bytes, each reply is taken) gets exactly one
    reply line for each read that is not blank, in the order of the
    reads, and the bridge and the world end as if the commands had
    been processed one after the other: the loop drops no command,
    leaves none unanswered and ends only with the reads. *)
Theorem client_gets_one_reply_per_command (reads : list RigctldBridge.Read)
    (b : RigctldBridge.t) (w : World) :
  serving (b, w) ->
  Forall live reads ->
  exists sent s',
    RigctldBridge._handle_client reads (b, w) = (Ret sent, s')
    /\ replies (commands reads) (b, w) = (Ret sent, s')
    /\ length sent = length (commands reads)
    /\ serving s'.
Proof.
  intros Hs Hlive. revert b w Hs.
  induction Hlive as [|read rest Hread Hrest IH]; intros b w Hs.
  { exists [], (b, w). split; [reflexivity|]. split; [reflexivity|].
    split; [reflexivity|exact Hs]. }
  destruct read as [data ok|]; [|contradiction].
  destruct Hread as (Hdata & Hascii & ->).
  rewrite handle_client_turn, (proj2 Hs : RigctldBridge.running b = true).
  cbn [negb]. destruct (String.eqb_spec data "") as [->|_]; [contradiction|].
  rewrite Hascii. cbn [negb].
  rewrite commands_cons.
  destruct (String.eqb (Py.strip data) "") eqn:Hblank; [apply IH, Hs|].
  rewrite replies_step.
  destruct (process_command_serves (Py.strip data) (b, w) Hs) as [Hs' Hp].
  destruct (process_command_returns (Py.strip data) (b, w)) as [response Hr].
  destruct (RigctldBridge._process_command (Py.strip data) (b, w))
    as [r [b' w']] eqn:Hcmd.
  cbn [fst snd] in Hr, Hs', Hp. subst r.
  destruct (Hp response eq_refl) as [Hne Hasc].
  destruct (String.eqb_spec response "") as [->|_]; [contradiction|].
  rewrite Hasc. cbn [negb].
  destruct (IH b' w' Hs') as (sent & s' & Hrun' & Hrep & Hlen & Hserv).
  rewrite Hrun', Hrep.
  exists ((response ++ RigctldBridge.nl)%string :: sent), s'.
  split; [reflexivity|]. split; [reflexivity|].
  split; [cbn [length]; rewrite Hlen; reflexivity|exact Hserv].
Qed.




End ClientLoop.

Lemma process_command_reads_two_words_witness :
  @RigctldBridge._process_command Fake.exact
    ("f" ++ RigctldBridge.nl ++ "F 7100000" ++ RigctldBridge.nl)
  = @RigctldBridge._process_command Fake.exact "f F"
  /\ @RigctldBridge._process_command Fake.exact "M USB 2400"
     = @RigctldBridge._process_command Fake.exact "M USB".
Proof.
  split; apply (@process_command_reads_two_words Fake.exact); vm_compute; reflexivity.
Defined.

Lemma client_gets_one_reply_per_command_witness :
  let s := Fake.bridge true (Fake.server Fake.g90 3) (Fake.sdrpp "14074000") in
  let reads := [ RigctldBridge.Bytes ("f" ++ RigctldBridge.nl) true;
                 RigctldBridge.Bytes ("  " ++ RigctldBridge.nl) true;
                 RigctldBridge.Bytes ("M CW" ++ RigctldBridge.nl) true;
                 RigctldBridge.Bytes ("m" ++ RigctldBridge.nl) true ] in
  commands reads = ["f"; "M CW"; "m"]
  /\ exists sent s',
      @RigctldBridge._handle_client Fake.exact reads (s.1, s.2) = (Ret sent, s')
      /\ @replies Fake.exact (commands reads) (s.1, s.2) = (Ret sent, s')
      /\ length sent = length (commands reads)
      /\ serving s'.
Proof.
  intros s reads. split; [vm_compute; reflexivity|].
  apply (@client_gets_one_reply_per_command Fake.exact reads s.1 s.2).
  - split; [split; vm_compute; reflexivity|vm_compute; reflexivity].
  - repeat (constructor; [repeat apply conj; [discriminate|reflexivity|reflexivity]|]).
    constructor.
Defined.

(** ** The SDR++ controller *)

Section Display.

Lemma sdr_is_connected_run (d : nat) (w : World) :
  SDRControl.is_connected d w = (Ret (sdr_connected_in w d), w).
Proof. reflexivity. Qed.

Lemma sdr_send_command_run (d : nat) (line : string) (w : World) :
  SDRControl.send_command d line w =
    if sdr_connected_in w d then
      match SDRControl.sendall_recv line w with
      | (Ret data, w') => (Ret (Some (Py.strip data)), w')
      | (Raise, w') =>
          (Ret None,
           set_sdrs (<[d := SDRControl.set_connected false (sdrs w' !!! d)]> (sdrs w')) w')
      end
    else (Ret None, w).
Proof.
  unfold SDRControl.send_command. unfold mbind at 1, M_bind at 1.
  rewrite sdr_is_connected_run. destruct (sdr_connected_in w d); [|reflexivity].
  cbn [negb]. unfold try_except, mbind, M_bind.
  destruct (SDRControl.sendall_recv line w) as [[data|] w']; reflexivity.
Qed.

Lemma sendall_recv_sdrs (line : string) (w : World) :
  sdrs (SDRControl.sendall_recv line w).2 = sdrs w.
Proof.
  unfold SDRControl.sendall_recv. destruct (negb (Py.is_ascii line)); [reflexivity|].
  destruct (display w (display_seen w) line) as [bytes|]; [|reflexivity].
  destruct (Py.is_ascii _); reflexivity.
Qed.

Lemma sdr_inert (d : nat) (w : World) :
  sdr_connected_in w d = false ->
  (forall hz, SDRControl.set_frequency d hz w = (Ret false, w))
  /\ SDRControl.get_frequency d w = (Ret None, w)
  /\ (forall mode, SDRControl.set_mode d mode w = (Ret false, w)).
Proof.
  intros Hc. repeat apply conj; intros;
    unfold SDRControl.set_frequency, SDRControl.get_frequency, SDRControl.set_mode;
    unfold mbind, M_bind; rewrite sdr_send_command_run, Hc; reflexivity.
Qed.

(** X21.  An [SDRControl] that is not connected sends nothing: the
    three operations return their failure value and the world is as it
    was.  And a command that fails on the socket (the line cannot be
    encoded, the socket raises, or the answer is not ASCII) leaves
    the instance disconnected: from then on it is such an instance,
    until [connect()] is called again. *)
Theorem sdr_failure_disconnects (d : nat) (w : World) :
  (sdr_connected_in w d = false ->
   (forall hz, SDRControl.set_frequency d hz w = (Ret false, w))
   /\ SDRControl.get_frequency d w = (Ret None, w)
   /\ (forall mode, SDRControl.set_mode d mode w = (Ret false, w)))
  /\ (forall line,
        (d < length (sdrs w))%nat ->
        sdr_connected_in w d = true ->
        (SDRControl.sendall_recv line w).1 = Raise ->
        (SDRControl.send_command d line w).1 = Ret None
        /\ sdr_connected_in (told d line w) d = false).
Proof.
  split; [apply sdr_inert|].
  intros line Hd Hc Hfail.
  unfold told. rewrite sdr_send_command_run, Hc.
  pose proof (sendall_recv_sdrs line w) as Hsdrs.
  destruct (SDRControl.sendall_recv line w) as [[data|] w']; [discriminate Hfail|].
  cbn [fst snd] in Hsdrs |- *. split; [reflexivity|].
  unfold sdr_connected_in. cbn [sdrs set_sdrs].
  rewrite list_lookup_total_insert_eq by (rewrite Hsdrs; exact Hd).
  reflexivity.
Qed.

Lemma substring_all (s : string) (n : nat) :
  (String.length s <= n)%nat -> String.substring 0 n s = s.
Proof.
  revert n. induction s as [|c s IH]; intros n Hn.
  - destruct n; reflexivity.
  - destruct n as [|n]; [cbn in Hn; lia|].
    cbn [String.substring]. rewrite IH by (cbn in Hn; lia). reflexivity.
Qed.

Lemma string_length_app (a b : string) :
  String.length (a ++ b)%string = (String.length a + String.length b)%nat.
Proof.
  induction a as [|c a IH]; [reflexivity|].
  change (String c a ++ b)%string with (String c (a ++ b)%string).
  cbn [String.length]. rewrite IH. reflexivity.
Qed.

Lemma truthy_some (s : string) : s <> "" -> SDRControl.truthy (Some s) = true.
Proof. destruct s; [contradiction|reflexivity]. Qed.

(** X22.  Reading the frequency back: when SDR++ answers [f] with
    the decimal text of [n] and a newline, [get_frequency] returns
    [n]; one line, [f], has gone to SDR++ and the instance stays
    connected. *)
Theorem sdr_get_frequency_reads_back (d : nat) (w : World) (n : Z) :
  sdr_connected_in w d = true ->
  display w (display_seen w) "f" = Some (Py.str_of_int n ++ RigctldBridge.nl)%string ->
  (String.length (Py.str_of_int n) < 1024)%nat ->
  SDRControl.get_frequency d w
  = (Ret (Some n), emit (SdrSent "f") (saw_line "f" w)).
Proof.
  intros Hc Hd Hlen.
  destruct (str_of_int_shape n) as (Hrs & Hch & Hascii).
  destruct (strip_padded _ Hrs Hch) as [_ Hpad].
  set (r := Py.strip (Py.str_of_int n ++ RigctldBridge.nl)%string).
  assert (Hr : Py.int_of_str r = Some n).
  { replace r with (Py.str_of_int n) by (symmetry; exact Hpad).
    apply int_of_str_plain. }
  assert (Hrn : r <> "").
  { intros Hr0. rewrite Hr0 in Hr. discriminate Hr. }
  unfold SDRControl.get_frequency. unfold mbind, M_bind.
  rewrite sdr_send_command_run, Hc. unfold SDRControl.sendall_recv.
  change (Py.is_ascii "f") with true. cbn [negb]. rewrite Hd.
  rewrite substring_all.
  2:{ rewrite string_length_app. cbn [RigctldBridge.nl String.length]. lia. }
  rewrite is_ascii_app, Hascii. cbn [andb].
  change (Py.is_ascii RigctldBridge.nl) with true. cbv iota.
  fold r. rewrite (truthy_some r Hrn), Hr. reflexivity.
Qed.

End Display.

Lemma sdr_failure_disconnects_witness :
  let w := ((d ← SDRControl.__init__ "127.0.0.1" 4532;
             SDRControl.connect d SDRControl.Accepted)
              (Fake.boot (Fake.server Fake.g90 3) (fun _ _ => None))).2 in
  sdr_connected_in w 0 = true
  /\ (SDRControl.send_command 0 "f" w).1 = Ret None
  /\ sdr_connected_in (told 0 "f" w) 0 = false
  /\ SDRControl.get_frequency 0 (told 0 "f" w) = (Ret None, told 0 "f" w).
Proof.
  intros w.
  assert (Hd : (0 < length (sdrs w))%nat) by (vm_compute; lia).
  assert (Hc : sdr_connected_in w 0 = true) by (vm_compute; reflexivity).
  assert (Hfail : (SDRControl.sendall_recv "f" w).1 = Raise) by (vm_compute; reflexivity).
  destruct (sdr_failure_disconnects 0 w) as [_ Hstick].
  destruct (Hstick "f" Hd Hc Hfail) as [Hnone Hoff].
  destruct (sdr_failure_disconnects 0 (told 0 "f" w)) as [Hinert _].
  destruct (Hinert Hoff) as (_ & Hget & _).
  split; [exact Hc|]. split; [exact Hnone|]. split; [exact Hoff|exact Hget].
Defined.

Lemma sdr_get_frequency_reads_back_witness :
  let w := ((d ← SDRControl.__init__ "127.0.0.1" 4532;
             SDRControl.connect d SDRControl.Accepted)
              (Fake.boot (Fake.server Fake.g90 3)
                 (Fake.sdrpp (Py.str_of_int 7100000 ++ RigctldBridge.nl)))).2 in
  SDRControl.get_frequency 0 w
  = (Ret (Some 7100000), emit (SdrSent "f") (saw_line "f" w)).
Proof.
  intros w. apply sdr_get_frequency_reads_back.
  - vm_compute. reflexivity.
  - vm_compute. reflexivity.
  - vm_compute. lia.
Defined.

(** ** The synchronizer: cursors, start and disconnect *)

Section SynchronizerMore.
Context `{Py.FloatConv}.

Lemma mode_step_state (m : string) (s : FrequencySync.t) (w : World) :
  let out := mode_step m (s, w) in
  exists ok,
    out.1 = Ret ok
    /\ FrequencySync.rig out.2.1 = FrequencySync.rig s
    /\ FrequencySync.sdr out.2.1 = FrequencySync.sdr s
    /\ FrequencySync.running out.2.1 = FrequencySync.running s
    /\ FrequencySync.last_rig_frequency out.2.1 = FrequencySync.last_rig_frequency s
    /\ FrequencySync.last_sdr_frequency out.2.1 = FrequencySync.last_sdr_frequency s
    /\ (ok = true -> FrequencySync.last_mode out.2.1 = m).
Proof.
  cbv zeta. unfold mode_step. cbn [fst snd].
  destruct (String.eqb_spec m (FrequencySync.last_mode s)) as [->|Hne].
  - exists true. cbn. repeat apply conj; reflexivity.
  - destruct (sdr_set_mode_run (FrequencySync.sdr s) m w) as [ok ->]. cbn [fst snd].
    destruct ok; [exists true|exists false]; cbn; repeat apply conj;
      try reflexivity; discriminate.
Qed.

Lemma propagate_state (rf sf : Z) (m : string) (s : FrequencySync.t) (w : World) :
  let out := FrequencySync.propagate rf sf m (s, w) in
  exists ok,
    out.1 = Ret ok
    /\ FrequencySync.rig out.2.1 = FrequencySync.rig s
    /\ FrequencySync.sdr out.2.1 = FrequencySync.sdr s
    /\ FrequencySync.running out.2.1 = FrequencySync.running s
    /\ (cursors_agree s -> cursors_agree out.2.1)
    /\ (ok = true -> cursors_agree s ->
        FrequencySync.last_mode out.2.1 = m
        /\ FrequencySync.last_rig_frequency out.2.1
           = if rf =? FrequencySync.last_rig_frequency s then sf else rf).
Proof.
  cbv zeta. rewrite propagate_run. cbv zeta. unfold cursors_agree.
  assert (Hfail : forall w' : World, exists ok : bool,
            (Ret (A := bool) false, (s, w')).1 = Ret ok
            /\ FrequencySync.rig (Ret (A := bool) false, (s, w')).2.1 = FrequencySync.rig s
            /\ FrequencySync.sdr (Ret (A := bool) false, (s, w')).2.1 = FrequencySync.sdr s
            /\ FrequencySync.running (Ret (A := bool) false, (s, w')).2.1
               = FrequencySync.running s
            /\ (FrequencySync.last_rig_frequency s = FrequencySync.last_sdr_frequency s ->
                FrequencySync.last_rig_frequency (Ret (A := bool) false, (s, w')).2.1
                = FrequencySync.last_sdr_frequency (Ret (A := bool) false, (s, w')).2.1)
            /\ (ok = true ->
                FrequencySync.last_rig_frequency s = FrequencySync.last_sdr_frequency s ->
                FrequencySync.last_mode (Ret (A := bool) false, (s, w')).2.1 = m
                /\ FrequencySync.last_rig_frequency (Ret (A := bool) false, (s, w')).2.1
                   = if rf =? FrequencySync.last_rig_frequency s then sf else rf)).
  { intros w'. exists false. cbn [fst snd].
    repeat apply conj; first [reflexivity|discriminate|intros Ha; exact Ha]. }
  assert (Hstep : forall s0 (w' : World),
            FrequencySync.rig s0 = FrequencySync.rig s ->
            FrequencySync.sdr s0 = FrequencySync.sdr s ->
            FrequencySync.running s0 = FrequencySync.running s ->
            (FrequencySync.last_rig_frequency s = FrequencySync.last_sdr_frequency s ->
             FrequencySync.last_rig_frequency s0 = FrequencySync.last_sdr_frequency s0
             /\ FrequencySync.last_rig_frequency s0
                = if rf =? FrequencySync.last_rig_frequency s then sf else rf) ->
            exists ok : bool,
              (mode_step m (s0, w')).1 = Ret ok
              /\ FrequencySync.rig (mode_step m (s0, w')).2.1 = FrequencySync.rig s
              /\ FrequencySync.sdr (mode_step m (s0, w')).2.1 = FrequencySync.sdr s
              /\ FrequencySync.running (mode_step m (s0, w')).2.1
                 = FrequencySync.running s
              /\ (FrequencySync.last_rig_frequency s = FrequencySync.last_sdr_frequency s ->
                  FrequencySync.last_rig_frequency (mode_step m (s0, w')).2.1
                  = FrequencySync.last_sdr_frequency (mode_step m (s0, w')).2.1)
              /\ (ok = true ->
                  FrequencySync.last_rig_frequency s = FrequencySync.last_sdr_frequency s ->
                  FrequencySync.last_mode (mode_step m (s0, w')).2.1 = m
                  /\ FrequencySync.last_rig_frequency (mode_step m (s0, w')).2.1
                     = if rf =? FrequencySync.last_rig_frequency s then sf else rf)).
  { intros s0 w' Hr Hd Hrun Hcur.
    destruct (mode_step_state m s0 w') as (ok & Hok & H1 & H2 & H3 & H4 & H5 & H6).
    exists ok. rewrite H1, H2, H3, H4, H5.
    repeat apply conj; try assumption.
    - intros Ha. apply (Hcur Ha).
    - intros Hk Ha. split; [apply H6, Hk|apply (Hcur Ha)]. }
  destruct (Z.eqb_spec rf (FrequencySync.last_rig_frequency s)) as [Hrf|Hrf];
    cbn [negb].
  - destruct (Z.eqb_spec sf (FrequencySync.last_sdr_frequency s)) as [Hsf|Hsf];
      cbn [negb].
    + apply Hstep; try reflexivity. intros Ha. split; [exact Ha|]. congruence.
    + destruct (RigControl.set_frequency (FrequencySync.rig s) sf w) as [[[|]|] w'];
        cbn [fst snd]; [|apply (Hfail w')..].
      apply Hstep; try reflexivity. intros _. split; reflexivity.
  - destruct (SDRControl.set_frequency (FrequencySync.sdr s) rf w) as [[[|]|] w'];
      cbn [fst snd]; [|apply (Hfail w')..].
    apply Hstep; try reflexivity. intros _. split; reflexivity.
Qed.

Lemma sync_once_state (s : FrequencySync.t) (w : World) :
  let out := FrequencySync.sync_once (s, w) in
  exists ok,
    out.1 = Ret ok
    /\ FrequencySync.rig out.2.1 = FrequencySync.rig s
    /\ FrequencySync.sdr out.2.1 = FrequencySync.sdr s
    /\ FrequencySync.running out.2.1 = FrequencySync.running s
    /\ (cursors_agree s -> cursors_agree out.2.1).
Proof.
  cbv zeta. rewrite sync_once_run. cbv zeta.
  assert (Hfail : forall w' : World, exists ok : bool,
            (Ret (A := bool) false, (s, w')).1 = Ret ok
            /\ FrequencySync.rig (Ret (A := bool) false, (s, w')).2.1 = FrequencySync.rig s
            /\ FrequencySync.sdr (Ret (A := bool) false, (s, w')).2.1 = FrequencySync.sdr s
            /\ FrequencySync.running (Ret (A := bool) false, (s, w')).2.1
               = FrequencySync.running s
            /\ (cursors_agree s -> cursors_agree (Ret (A := bool) false, (s, w')).2.1)).
  { intros w'. exists false. cbn [fst snd].
    repeat apply conj; first [reflexivity|intros Ha; exact Ha]. }
  match goal with
  | |- context [match ?a with Ret _ => _ | Raise => _ end] =>
      destruct a as [[rf|]|]; try apply (Hfail w)
  end.
  match goal with
  | |- context [match ?a with Ret _ => _ | Raise => _ end] =>
      destruct a as [sf|]; try apply (Hfail w)
  end.
  match goal with
  | |- context [match ?a with Ret _ => _ | Raise => _ end] =>
      destruct a as [[m|]|]; try apply (Hfail w)
  end.
  match goal with
  | |- context [FrequencySync.propagate ?a ?b ?c (s, ?w')] =>
      destruct (propagate_state a b c s w') as (ok & H1 & H2 & H3 & H4 & H5 & _)
  end.
  exists ok. repeat apply conj; assumption.
Qed.

(** One turn of the loop: a cycle, then the pause; a pause that cannot
    be made (a negative interval) is replaced by one of a second. *)
Lemma sync_loop_turn (sync_interval : Z) (n : nat) (s : FrequencySync.t) (w : World) :
  FrequencySync.sync_loop sync_interval (S n) (s, w) =
    if FrequencySync.running s then
      let c := (FrequencySync.sync_once (s, w)).2 in
      FrequencySync.sync_loop sync_interval n
        (c.1, set_now (now c.2 + (if sync_interval <? 0 then 1000 else sync_interval)) c.2)
    else (Ret tt, (s, w)).
Proof.
  cbn [FrequencySync.sync_loop].
  unfold mbind at 1, M_bind at 1, FrequencySync.self_ at 1, gets. cbn [fst snd].
  destruct (FrequencySync.running s); [|reflexivity].
  unfold mbind at 1, M_bind at 1.
  destruct (sync_once_state s w) as (ok & Hok & _).
  unfold try_except, mbind, M_bind.
  destruct (FrequencySync.sync_once (s, w)) as [r [s' w']]. cbn [fst snd] in Hok |- *.
  subst r. rewrite !lift_run. unfold sleep. cbn [fst snd].
  destruct (sync_interval <? 0); reflexivity.
Qed.

(** X23.  The two frequency cursors, which [__init__] sets to the
    same value, hold the same value after every cycle: whatever FlRig
    and SDR++ answer and however long the loop runs, [sync_loop]
    raises nothing, keeps its two controllers and leaves
    [last_rig_frequency] equal to [last_sdr_frequency]. *)
Theorem cursors_stay_equal (sync_interval : Z) (n : nat)
    (s : FrequencySync.t) (w : World) :
  cursors_agree s ->
  let out := FrequencySync.sync_loop sync_interval n (s, w) in
  out.1 = Ret tt
  /\ cursors_agree out.2.1
  /\ FrequencySync.rig out.2.1 = FrequencySync.rig s
  /\ FrequencySync.sdr out.2.1 = FrequencySync.sdr s.
Proof.
  revert s w. induction n as [|n IH]; intros s w Ha; cbv zeta.
  { cbn. split; [reflexivity|]. split; [exact Ha|]. split; reflexivity. }
  rewrite sync_loop_turn.
  destruct (FrequencySync.running s);
    [|cbn; split; [reflexivity|]; split; [exact Ha|]; split; reflexivity].
  cbv zeta.
  destruct (sync_once_state s w) as (ok & _ & Hr & Hd & _ & Hagree).
  destruct (IH (FrequencySync.sync_once (s, w)).2.1
              (set_now (now (FrequencySync.sync_once (s, w)).2.2
                        + (if sync_interval <? 0 then 1000 else sync_interval))
                 (FrequencySync.sync_once (s, w)).2.2) (Hagree Ha))
    as (H1 & H2 & H3 & H4).
  split; [exact H1|]. split; [exact H2|]. split; congruence.
Qed.

(** X24.  What a cycle that returns [True] leaves: [last_mode] is the
    mode read from the rig, and both frequency cursors hold the
    frequency that prevailed, the one of the rig when it had moved,
    otherwise the one of the display (its cursor when SDR++ gave no
    frequency). *)
Theorem sync_once_success (s : FrequencySync.t) (w : World)
    (rf : Z) (sf : option Z) (m : string) :
  let r1 := RigControl.get_frequency (FrequencySync.rig s) w in
  let r2 := SDRControl.get_frequency (FrequencySync.sdr s) r1.2 in
  let r3 := RigControl.get_mode (FrequencySync.rig s) r2.2 in
  r1.1 = Ret (Some rf) ->
  r2.1 = Ret sf ->
  r3.1 = Ret (Some m) ->
  cursors_agree s ->
  (FrequencySync.sync_once (s, w)).1 = Ret true ->
  let s' := (FrequencySync.sync_once (s, w)).2.1 in
  let f := if rf =? FrequencySync.last_rig_frequency s
           then default (FrequencySync.last_sdr_frequency s) sf else rf in
  FrequencySync.last_mode s' = m
  /\ FrequencySync.last_rig_frequency s' = f
  /\ FrequencySync.last_sdr_frequency s' = f.
Proof.
  intros r1 r2 r3 H1 H2 H3 Ha. cbv zeta. rewrite sync_once_run. cbv zeta.
  fold r1 r2 r3. rewrite H1, H2, H3. intros Hok.
  destruct (propagate_state rf (default (FrequencySync.last_sdr_frequency s) sf) m s r3.2)
    as (ok & Hret & _ & _ & _ & Hagree & Hpost).
  rewrite Hok in Hret. injection Hret as <-.
  destruct (Hpost eq_refl Ha) as [Hm Hf].
  split; [exact Hm|]. split; [exact Hf|].
  rewrite <- (Hagree Ha). exact Hf.
Qed.

Lemma sync_start_run (s : FrequencySync.t) (w : World) :
  FrequencySync.start (s, w) =
    if negb (FrequencySync.running s)
       && connected_in w (FrequencySync.rig s)
       && sdr_connected_in w (FrequencySync.sdr s)
    then (Ret true,
          (FrequencySync.set_running true (FrequencySync.sync_once (s, w)).2.1,
           (FrequencySync.sync_once (s, w)).2.2))
    else (Ret false, (s, w)).
Proof.
  unfold FrequencySync.start.
  unfold mbind at 1, M_bind at 1, FrequencySync.self_ at 1, gets. cbn [fst snd].
  destruct (FrequencySync.running s); [reflexivity|]. cbn [negb andb].
  unfold mbind at 1 2 3 4, M_bind at 1 2 3 4, FrequencySync.self_, gets.
  cbn [fst snd]. rewrite !lift_run. cbn [fst snd].
  rewrite is_connected_run, sdr_is_connected_run. cbn [fst snd].
  destruct (connected_in w (FrequencySync.rig s)); [|reflexivity].
  destruct (sdr_connected_in w (FrequencySync.sdr s)); [|reflexivity].
  cbn [negb orb andb].
  destruct (sync_once_state s w) as (ok & Hok & _).
  unfold mbind, M_bind.
  destruct (FrequencySync.sync_once (s, w)) as [r [s' w']]. cbn [fst snd] in Hok |- *.
  subst r. reflexivity.
Qed.

(** X25.  [start()] returns [True] exactly when the synchronizer was
    not running and both controllers are connected, and then it runs,
    whatever the first cycle did: a first cycle that fails does not
    keep the synchronizer from starting.  When [start()] returns
    [False] nothing was sent and nothing has changed. *)
Theorem sync_start_outcome (s : FrequencySync.t) (w : World) :
  let out := FrequencySync.start (s, w) in
  let ok := negb (FrequencySync.running s)
            && connected_in w (FrequencySync.rig s)
            && sdr_connected_in w (FrequencySync.sdr s) in
  out.1 = Ret ok
  /\ FrequencySync.running out.2.1 = FrequencySync.running s || ok
  /\ (ok = false -> out.2 = (s, w))
  /\ (ok = true ->
      out.2 = (FrequencySync.set_running true (FrequencySync.sync_once (s, w)).2.1,
               (FrequencySync.sync_once (s, w)).2.2)).
Proof.
  cbv zeta. rewrite sync_start_run.
  destruct (negb (FrequencySync.running s) && connected_in w (FrequencySync.rig s)
            && sdr_connected_in w (FrequencySync.sdr s)) eqn:Hok; cbn [fst snd].
  - repeat apply conj; try reflexivity; try discriminate.
    cbn. rewrite orb_true_r. reflexivity.
  - repeat apply conj; try reflexivity; try discriminate.
    rewrite orb_false_r. reflexivity.
Qed.

Lemma sdr_disconnect_off (d : nat) (w : World) :
  sdr_connected_in (SDRControl.disconnect d w).2 d = false
  /\ rigs (SDRControl.disconnect d w).2 = rigs w
  /\ trace (SDRControl.disconnect d w).2 = trace w.
Proof.
  unfold SDRControl.disconnect, SDRControl.update_self, mbind, M_bind, modify.
  cbn [fst snd]. split; [|split; reflexivity].
  unfold sdr_connected_in. cbn [sdrs set_sdrs].
  destruct (decide (d < length (sdrs w))%nat) as [Hlt|Hge].
  - rewrite !list_lookup_total_insert_eq; [reflexivity| |]; rewrite ?length_insert; exact Hlt.
  - rewrite !list_insert_ge by (rewrite ?length_insert; lia).
    rewrite list_lookup_total_alt, lookup_ge_None_2 by lia. reflexivity.
Qed.

Lemma sync_disconnect_run (s : FrequencySync.t) (w : World) :
  FrequencySync.disconnect (s, w)
  = (Ret tt,
     (FrequencySync.set_running false s,
      (SDRControl.disconnect (FrequencySync.sdr s)
         (disconnected (FrequencySync.rig s) w)).2))
    \/ FrequencySync.running s = false
       /\ FrequencySync.disconnect (s, w)
          = (Ret tt,
             (s, (SDRControl.disconnect (FrequencySync.sdr s)
                    (disconnected (FrequencySync.rig s) w)).2)).
Proof.
  unfold FrequencySync.disconnect, FrequencySync.stop.
  unfold mbind, M_bind, FrequencySync.self_, FrequencySync.update_self, gets, modify.
  cbn [fst snd].
  destruct (FrequencySync.running s) eqn:Hrun; [left|right; split; [reflexivity|]];
    reflexivity.
Qed.

(** X26.  [disconnect()] leaves the synchronizer stopped and both
    controllers disconnected, and from then on it is inert: [start()]
    refuses, a cycle returns [False] and the loop ends at once, all
    three without a request to FlRig or a line to SDR++. *)
Theorem sync_disconnect_is_final (s : FrequencySync.t) (w : World) :
  let out := FrequencySync.disconnect (s, w) in
  out.1 = Ret tt
  /\ FrequencySync.running out.2.1 = false
  /\ connected_in out.2.2 (FrequencySync.rig s) = false
  /\ sdr_connected_in out.2.2 (FrequencySync.sdr s) = false
  /\ trace out.2.2 = trace w ++ [Released (FrequencySync.rig s)]
  /\ FrequencySync.start out.2 = (Ret false, out.2)
  /\ FrequencySync.sync_once out.2 = (Ret false, out.2)
  /\ (forall sync_interval n,
        FrequencySync.sync_loop sync_interval n out.2 = (Ret tt, out.2)).
Proof.
  cbv zeta.
  destruct (sdr_disconnect_off (FrequencySync.sdr s)
              (disconnected (FrequencySync.rig s) w)) as (Hsdr & Hrigs & Htr).
  set (w' := (SDRControl.disconnect (FrequencySync.sdr s)
                (disconnected (FrequencySync.rig s) w)).2) in *.
  assert (Hrig : connected_in w' (FrequencySync.rig s) = false).
  { rewrite (connected_in_rigs _ _ _ Hrigs). apply disconnected_not_connected. }
  assert (Hgen : forall s',
            FrequencySync.rig s' = FrequencySync.rig s ->
            FrequencySync.sdr s' = FrequencySync.sdr s ->
            FrequencySync.running s' = false ->
            FrequencySync.disconnect (s, w) = (Ret tt, (s', w')) ->
            (FrequencySync.disconnect (s, w)).1 = Ret tt
            /\ FrequencySync.running (FrequencySync.disconnect (s, w)).2.1 = false
            /\ connected_in (FrequencySync.disconnect (s, w)).2.2 (FrequencySync.rig s)
               = false
            /\ sdr_connected_in (FrequencySync.disconnect (s, w)).2.2
                 (FrequencySync.sdr s) = false
            /\ trace (FrequencySync.disconnect (s, w)).2.2
               = trace w ++ [Released (FrequencySync.rig s)]
            /\ FrequencySync.start (FrequencySync.disconnect (s, w)).2
               = (Ret false, (FrequencySync.disconnect (s, w)).2)
            /\ FrequencySync.sync_once (FrequencySync.disconnect (s, w)).2
               = (Ret false, (FrequencySync.disconnect (s, w)).2)
            /\ (forall sync_interval n,
                  FrequencySync.sync_loop sync_interval n
                    (FrequencySync.disconnect (s, w)).2
                  = (Ret tt, (FrequencySync.disconnect (s, w)).2))).
  { intros s' Hr Hd Hrun ->. cbn [fst snd].
    split; [reflexivity|]. split; [exact Hrun|]. split; [exact Hrig|].
    split; [exact Hsdr|]. split; [rewrite Htr; apply disconnected_trace|].
    split; [|split].
    - rewrite sync_start_run, Hr, Hrig, andb_false_r. reflexivity.
    - rewrite sync_once_run. cbv zeta. rewrite Hr, Hd.
      rewrite get_frequency_run, Hrig. cbn [fst snd].
      destruct (sdr_inert (FrequencySync.sdr s) w' Hsdr) as (_ & -> & _).
      cbn [fst snd].
      rewrite get_mode_run, Hrig. reflexivity.
    - intros i n. destruct n; [reflexivity|]. cbn [FrequencySync.sync_loop].
      unfold mbind, M_bind, FrequencySync.self_, gets. cbn [fst snd].
      rewrite Hrun. reflexivity. }
  destruct (sync_disconnect_run s w) as [Hrun | [Hoff Hrun]].
  - apply (Hgen (FrequencySync.set_running false s) eq_refl eq_refl eq_refl Hrun).
  - apply (Hgen s eq_refl eq_refl Hoff Hrun).
Qed.

End SynchronizerMore.

Lemma cursors_stay_equal_witness :
  let s := @Fake.synchronizer Fake.exact (Fake.server Fake.g90 3)
             (Fake.retuned "14074000" "7100000") in
  let s1 := (@FrequencySync.start Fake.exact s).2 in
  let out := @FrequencySync.sync_loop Fake.exact 500 3 (s1.1, s1.2) in
  FrequencySync.running s1.1 = true
  /\ FrequencySync.last_rig_frequency s1.1 = 7100000
  /\ out.1 = Ret tt
  /\ cursors_agree out.2.1.
Proof.
  intros s s1 out.
  assert (Ha : cursors_agree s1.1) by (vm_compute; reflexivity).
  destruct (@cursors_stay_equal Fake.exact 500 3 s1.1 s1.2 Ha) as (H1 & H2 & _).
  split; [vm_compute; reflexivity|]. split; [vm_compute; reflexivity|].
  split; [exact H1|exact H2].
Defined.

Lemma sync_once_success_witness :
  let s := @Fake.synchronizer Fake.exact (Fake.server Fake.g90 3)
             (Fake.retuned "14074000" "7100000") in
  let s' := (@FrequencySync.sync_once Fake.exact (s.1, s.2)).2.1 in
  FrequencySync.last_rig_frequency s.1 = 14074000
  /\ FrequencySync.last_mode s' = "USB"
  /\ FrequencySync.last_rig_frequency s'
     = (if 14074000 =? FrequencySync.last_rig_frequency s.1
        then default (FrequencySync.last_sdr_frequency s.1) (Some 7100000)
        else 14074000)
  /\ FrequencySync.last_sdr_frequency s'
     = (if 14074000 =? FrequencySync.last_rig_frequency s.1
        then default (FrequencySync.last_sdr_frequency s.1) (Some 7100000)
        else 14074000).
Proof.
  intros s s'. split; [vm_compute; reflexivity|].
  apply (@sync_once_success Fake.exact s.1 s.2 14074000 (Some 7100000) "USB");
    vm_compute; reflexivity.
Defined.

(** ** The complete state of the rig *)

Section RigState.
Context `{Py.FloatConv}.

Lemma get_state_run (g : nat) (w : World) :
  connected_in w g = true ->
  let r1 := RigControl.get_frequency g w in
  let r2 := RigControl.get_mode g r1.2 in
  let r3 := RigControl.get_bandwidth g r2.2 in
  let r4 := RigControl.get_power g r3.2 in
  exists f m b p,
    r1.1 = Ret f /\ r2.1 = Ret m /\ r3.1 = Ret b /\ r4.1 = Ret p
    /\ RigControl.get_state g w
       = (Ret match f, m, b, p with
              | Some f, Some m, Some b, Some p =>
                  Some {| RigControl.frequency := f; RigControl.mode := m;
                          RigControl.bandwidth := b; RigControl.power := p;
                          RigControl.connected := true |}
              | _, _, _, _ => None
              end, r4.2)
    /\ trace r4.2
       = trace w ++ [ Rpc (slot w) true rig_get_vfo;
                      Rpc (slot r1.2) true rig_get_mode;
                      Rpc (slot r2.2) true rig_get_bw;
                      Rpc (slot r3.2) true rig_get_power ].
Proof.
  intros Hc. cbv zeta.
  pose proof (get_frequency_run g w) as E1. rewrite Hc in E1.
  set (w1 := served (slot w) true true rig_get_vfo w) in E1.
  assert (Hc1 : connected_in w1 g = true) by exact Hc.
  pose proof (get_mode_run g w1) as E2. rewrite Hc1 in E2.
  set (w2 := served (slot w1) true true rig_get_mode w1) in E2.
  assert (Hc2 : connected_in w2 g = true) by exact Hc.
  pose proof (get_bandwidth_run g w2) as E3. rewrite Hc2 in E3.
  set (w3 := served (slot w2) true true rig_get_bw w2) in E3.
  assert (Hc3 : connected_in w3 g = true) by exact Hc.
  pose proof (get_power_run g w3) as E4. rewrite Hc3 in E4.
  set (w4 := served (slot w3) true true rig_get_power w3) in E4.
  unfold RigControl.get_state. unfold mbind at 1, M_bind at 1.
  rewrite is_connected_run, Hc. cbn [negb].
  unfold try_except, mbind, M_bind.
  rewrite E1. cbn [fst snd]. rewrite E2. cbn [fst snd]. rewrite E3. cbn [fst snd].
  rewrite E4. cbn [fst snd].
  do 4 eexists. repeat apply conj; try reflexivity.
  - match goal with |- context [match ?f with Some _ => _ | None => _ end] =>
      destruct f end; [|reflexivity].
    match goal with |- context [match ?f with Some _ => _ | None => _ end] =>
      destruct f end; [|reflexivity].
    match goal with |- context [match ?f with Some _ => _ | None => _ end] =>
      destruct f end; [|reflexivity].
    match goal with |- context [match ?f with Some _ => _ | None => _ end] =>
      destruct f end; reflexivity.
  - subst w4 w3 w2 w1. cbn [trace served]. rewrite <- !app_assoc. reflexivity.
Qed.

(** X27.  [get_state()] on a connected gateway never raises and asks
    FlRig for the frequency, the mode, the bandwidth and the power, in
    this order, each through [_safe_call], also when an earlier one of
    them has failed.  It returns a state exactly when all four reads
    gave a value; the state holds these four values and says
    [connected].  On a gateway that is not connected it returns
    [None] and sends nothing. *)
Theorem get_state_all_or_nothing (g : nat) (w : World) :
  (connected_in w g = false -> RigControl.get_state g w = (Ret None, w))
  /\ (connected_in w g = true ->
      let r1 := RigControl.get_frequency g w in
      let r2 := RigControl.get_mode g r1.2 in
      let r3 := RigControl.get_bandwidth g r2.2 in
      let r4 := RigControl.get_power g r3.2 in
      let out := RigControl.get_state g w in
      (exists r, out.1 = Ret r)
      /\ out.2 = r4.2
      /\ trace out.2
         = trace w ++ [ Rpc (slot w) true rig_get_vfo;
                        Rpc (slot r1.2) true rig_get_mode;
                        Rpc (slot r2.2) true rig_get_bw;
                        Rpc (slot r3.2) true rig_get_power ]
      /\ (forall st,
            out.1 = Ret (Some st) <->
            r1.1 = Ret (Some (RigControl.frequency st))
            /\ r2.1 = Ret (Some (RigControl.mode st))
            /\ r3.1 = Ret (Some (RigControl.bandwidth st))
            /\ r4.1 = Ret (Some (RigControl.power st))
            /\ RigControl.connected st = true)).
Proof.
  split.
  - intros Hc. unfold RigControl.get_state. unfold mbind, M_bind.
    rewrite is_connected_run, Hc. reflexivity.
  - intros Hc. cbv zeta.
    destruct (get_state_run g w Hc) as (f & m & b & p & H1 & H2 & H3 & H4 & Hrun & Htr).
    rewrite Hrun, H1, H2, H3, H4. cbn [fst snd].
    split; [eexists; reflexivity|]. split; [reflexivity|]. split.
    + exact Htr.
    + intros st. split.
      * destruct f as [f|]; [|discriminate]. destruct m as [m|]; [|discriminate].
        destruct b as [b|]; [|discriminate]. destruct p as [p|]; [|discriminate].
        intros [= <-]. repeat apply conj; reflexivity.
      * intros (Hf & Hm & Hb & Hp & Hconn).
        injection Hf as ->. injection Hm as ->. injection Hb as ->. injection Hp as ->.
        destruct st as [sf sm sb sp sc]. cbn in Hconn |- *. subst sc. reflexivity.
Qed.

End RigState.

Lemma get_state_all_or_nothing_witness :
  let w := Fake.station (Fake.faulty Fake.is_get_vfo (Fake.server Fake.g90 3))
             (Fake.sdrpp "14074000") in
  connected_in w 0 = true
  /\ (@RigControl.get_state Fake.exact 0 w).1 = Ret None
  /\ map snd (rpcs (trace (@RigControl.get_state Fake.exact 0 w).2))
     = map snd (rpcs (trace w))
       ++ [rig_get_vfo; rig_get_mode; rig_get_bw; rig_get_power].
Proof.
  intros w.
  assert (Hc : connected_in w 0 = true) by (vm_compute; reflexivity).
  destruct (@get_state_all_or_nothing Fake.exact 0 w) as [_ Hconn].
  destruct (Hconn Hc) as (_ & _ & Htr & _).
  split; [exact Hc|]. split; [vm_compute; reflexivity|].
  rewrite Htr. unfold rpcs. rewrite omap_app, map_app. reflexivity.
Defined.

(** ** Pacing of the synchronizer and of the bridge *)

Section Pacing.
Context `{Py.FloatConv}.

Lemma paced_served (req : Request) (w : World) :
  paced w -> paced (served (slot w) true true req w).
Proof. intros [Hst Hsp]. apply served_in_slot_spaced; assumption. Qed.

Lemma paced_told (d : nat) (line : string) (w : World) :
  paced w -> paced (told d line w).
Proof.
  assert (Hsame : rpcs (trace (told d line w)) = rpcs (trace w)
                  /\ _last_request_time (told d line w) = _last_request_time w).
  { split; [apply told_frame|].
    unfold told. rewrite sdr_send_command_run.
    destruct (sdr_connected_in w d); [|reflexivity].
    unfold SDRControl.sendall_recv. destruct (negb (Py.is_ascii line)); [reflexivity|].
    destruct (display w (display_seen w) line) as [bytes|]; [|reflexivity].
    destruct (Py.is_ascii _); reflexivity. }
  destruct Hsame as [Htr Hlast]. unfold paced, stamped. rewrite Htr, Hlast. tauto.
Qed.

Lemma paced_get_frequency (g : nat) (w : World) :
  paced w -> paced (RigControl.get_frequency g w).2.
Proof.
  intros Hp. rewrite get_frequency_run.
  destruct (connected_in w g); [apply paced_served|]; exact Hp.
Qed.

Lemma paced_get_mode (g : nat) (w : World) :
  paced w -> paced (RigControl.get_mode g w).2.
Proof.
  intros Hp. rewrite get_mode_run.
  destruct (connected_in w g); [apply paced_served|]; exact Hp.
Qed.

Lemma paced_set_frequency (g : nat) (hz : Z) (w : World) :
  paced w -> paced (RigControl.set_frequency g hz w).2.
Proof.
  intros Hp. rewrite set_frequency_run.
  destruct (connected_in w g), (Py.float_of_int hz); try exact Hp.
  apply paced_served, Hp.
Qed.

Lemma paced_set_mode (g : nat) (mode : string) (w : World) :
  paced w -> paced (RigControl.set_mode g mode w).2.
Proof.
  intros Hp. rewrite set_mode_run.
  destruct (_ && _); [apply paced_served|]; exact Hp.
Qed.

Lemma paced_sdr_set_frequency (d : nat) (hz : Z) (w : World) :
  paced w -> paced (SDRControl.set_frequency d hz w).2.
Proof.
  intros Hp. destruct (sdr_set_frequency_run d hz w) as [ok ->]. apply paced_told, Hp.
Qed.

Lemma paced_sdr_set_mode (d : nat) (mode : string) (w : World) :
  paced w -> paced (SDRControl.set_mode d mode w).2.
Proof.
  intros Hp. destruct (sdr_set_mode_run d mode w) as [ok ->]. apply paced_told, Hp.
Qed.

Lemma paced_sdr_get_frequency (d : nat) (w : World) :
  paced w -> paced (SDRControl.get_frequency d w).2.
Proof.
  intros Hp. destruct (sdr_get_frequency_run d w) as [r ->]. apply paced_told, Hp.
Qed.

Lemma paced_mode_step (m : string) (s : FrequencySync.t) (w : World) :
  paced w -> paced (mode_step m (s, w)).2.2.
Proof.
  intros Hp. unfold mode_step. cbn [fst snd].
  destruct (String.eqb m (FrequencySync.last_mode s)); [exact Hp|].
  pose proof (paced_sdr_set_mode (FrequencySync.sdr s) m w Hp) as Hp'.
  destruct (SDRControl.set_mode (FrequencySync.sdr s) m w) as [[[|]|] w']; exact Hp'.
Qed.

Lemma paced_sync_once (s : FrequencySync.t) (w : World) :
  paced w -> paced (FrequencySync.sync_once (s, w)).2.2.
Proof.
  intros Hp. rewrite sync_once_run. cbv zeta.
  pose proof (paced_get_frequency (FrequencySync.rig s) w Hp) as Hp1.
  pose proof (paced_sdr_get_frequency (FrequencySync.sdr s) _ Hp1) as Hp2.
  pose proof (paced_get_mode (FrequencySync.rig s) _ Hp2) as Hp3.
  set (w3 := (RigControl.get_mode _ _).2) in *.
  assert (Hprop : forall rf sf m,
            paced (FrequencySync.propagate rf sf m (s, w3)).2.2).
  { intros rf sf m. rewrite propagate_run. cbv zeta.
    destruct (negb (rf =? _)).
    - pose proof (paced_sdr_set_frequency (FrequencySync.sdr s) rf w3 Hp3) as Hq.
      destruct (SDRControl.set_frequency (FrequencySync.sdr s) rf w3) as [[[|]|] w'];
        cbn [fst snd] in *; try exact Hq. apply paced_mode_step, Hq.
    - destruct (negb (sf =? _)); [|apply paced_mode_step, Hp3].
      pose proof (paced_set_frequency (FrequencySync.rig s) sf w3 Hp3) as Hq.
      destruct (RigControl.set_frequency (FrequencySync.rig s) sf w3) as [[[|]|] w'];
        cbn [fst snd] in *; try exact Hq. apply paced_mode_step, Hq. }
  repeat match goal with
  | |- context [match ?a with Ret _ => _ | Raise => _ end] =>
      destruct a as [[?|]|]; try exact Hp3
  | |- context [match ?a with Ret _ => _ | Raise => _ end] =>
      destruct a as [?|]; try exact Hp3
  end; apply Hprop.
Qed.

(** X28.  The synchronizer keeps the pace of the gateway: however
    long [sync_loop] runs, with whatever interval and whatever FlRig
    and SDR++ answer, every two consecutive requests it makes to FlRig
    are at least 50 ms apart. *)
Theorem sync_loop_keeps_pace (sync_interval : Z) (n : nat)
    (s : FrequencySync.t) (w : World) :
  stamped w ->
  spaced 50 (rpcs (trace w)) ->
  spaced 50 (rpcs (trace (FrequencySync.sync_loop sync_interval n (s, w)).2.2)).
Proof.
  intros Hst Hsp.
  enough (paced (FrequencySync.sync_loop sync_interval n (s, w)).2.2) as [_ Hq]
    by exact Hq.
  assert (Hp : paced w) by (split; assumption). clear Hst Hsp.
  revert s w Hp. induction n as [|n IH]; intros s w Hp; [exact Hp|].
  rewrite sync_loop_turn. destruct (FrequencySync.running s); [|exact Hp].
  cbv zeta. apply IH. exact (paced_sync_once s w Hp).
Qed.

Lemma paced_lift {A} (c : M World A) :
  (forall w, paced w -> paced (c w).2) ->
  maintains (fun sw : RigctldBridge.t * World => paced sw.2) (fun _ => True) (lift c).
Proof.
  intros Hc [b w] Hp. rewrite lift_run. cbn [fst snd] in *.
  split; [apply Hc, Hp|]. intros; exact I.
Qed.

Lemma paced_self_ {A} (f : RigctldBridge.t -> A) :
  maintains (fun sw : RigctldBridge.t * World => paced sw.2) (fun _ => True)
    (RigctldBridge.self_ f).
Proof. intros [b w] Hp. split; [exact Hp|]. intros; exact I. Qed.

Lemma paced_or_raise {A} (o : option A) :
  maintains (fun sw : RigctldBridge.t * World => paced sw.2) (fun _ => True)
    (or_raise o).
Proof. destruct o; [apply maintains_ret; exact I|apply maintains_raise]. Qed.

(** X29.  The commands of the bridge other than [t] and [T] keep the
    pace as well: whatever such a command makes the gateway send goes
    through [_safe_call], at least 50 ms after the request before
    it. *)
Theorem bridge_commands_keep_pace (command cmd : string) (args : list string)
    (b : RigctldBridge.t) (w : World) :
  Py.split command = cmd :: args ->
  cmd <> "t" ->
  cmd <> "T" ->
  stamped w ->
  spaced 50 (rpcs (trace w)) ->
  spaced 50 (rpcs (trace (RigctldBridge._process_command command (b, w)).2.2)).
Proof.
  intros Hsplit Ht HT Hst Hsp.
  enough (Hm : maintains (fun sw : RigctldBridge.t * World => paced sw.2)
                 (fun _ : string => True) (RigctldBridge._process_command command)).
  { destruct (Hm (b, w)) as [[_ Hq] _]; [split; assumption|exact Hq]. }
  clear b w Hst Hsp.
  unfold RigctldBridge._process_command. rewrite Hsplit.
  eapply maintains_bind; [apply paced_self_|]. intros g _.
  apply maintains_try; [|apply maintains_ret; exact I].
  destruct (String.eqb_spec cmd "t") as [->|_]; [contradiction|].
  destruct (String.eqb_spec cmd "T") as [->|_]; [contradiction|].
  repeat match goal with
  | |- maintains _ _ (if ?c then _ else _) => destruct c
  | |- maintains _ _ (match ?x with _ => _ end) => destruct x
  | |- maintains _ _ (mret _) => apply maintains_ret; exact I
  | |- maintains _ _ raise => apply maintains_raise
  | |- maintains _ _ (lift (RigControl.get_frequency _) ≫= _) =>
      eapply maintains_bind;
      [apply paced_lift; intros; apply paced_get_frequency; assumption|intros ? _]
  | |- maintains _ _ (lift (RigControl.set_frequency _ _) ≫= _) =>
      eapply maintains_bind;
      [apply paced_lift; intros; apply paced_set_frequency; assumption|intros ? _]
  | |- maintains _ _ (lift (RigControl.get_mode _) ≫= _) =>
      eapply maintains_bind;
      [apply paced_lift; intros; apply paced_get_mode; assumption|intros ? _]
  | |- maintains _ _ (lift (RigControl.set_mode _ _) ≫= _) =>
      eapply maintains_bind;
      [apply paced_lift; intros; apply paced_set_mode; assumption|intros ? _]
  | |- maintains _ _ (or_raise _ ≫= _) =>
      eapply maintains_bind; [apply paced_or_raise|intros ? _]
  | |- maintains _ _ (RigctldBridge.self_ _ ≫= _) =>
      eapply maintains_bind; [apply paced_self_|intros ? _]
  end.
Qed.

End Pacing.

Lemma sync_loop_keeps_pace_witness :
  let s := @Fake.synchronizer Fake.exact (Fake.server Fake.g90 3)
             (Fake.retuned "14074000" "7100000") in
  let s1 := (@FrequencySync.start Fake.exact s).2 in
  spaced 50 (rpcs (trace (@FrequencySync.sync_loop Fake.exact 20 2 (s1.1, s1.2)).2.2))
  /\ length (rpcs (trace (@FrequencySync.sync_loop Fake.exact 20 2 (s1.1, s1.2)).2.2))
     = 10%nat.
Proof.
  intros s s1.
  assert (Hst : stamped s1.2) by (apply stampedb_stamped; vm_compute; reflexivity).
  assert (Hsp : spaced 50 (rpcs (trace s1.2)))
    by (apply (proj1 (spacedb_spec _ _)); vm_compute; reflexivity).
  pose proof (@sync_loop_keeps_pace Fake.exact 20 2 s1.1 s1.2 Hst Hsp) as Hpace.
  split; [exact Hpace|]. vm_compute. reflexivity.
Defined.

Lemma bridge_commands_keep_pace_witness :
  let s := Fake.bridge true (Fake.server Fake.g90 3) (Fake.sdrpp "14074000") in
  spaced 50 (rpcs (trace (@RigctldBridge._process_command Fake.exact "F 7100000"
                            (s.1, s.2)).2.2)).
Proof.
  intros s.
  assert (Hsplit : Py.split "F 7100000" = ["F"; "7100000"]) by reflexivity.
  assert (Ht : "F" <> "t") by discriminate.
  assert (HT : "F" <> "T") by discriminate.
  assert (Hst : stamped s.2) by (apply stampedb_stamped; vm_compute; reflexivity).
  assert (Hsp : spaced 50 (rpcs (trace s.2)))
    by (apply (proj1 (spacedb_spec _ _)); vm_compute; reflexivity).
  exact (@bridge_commands_keep_pace Fake.exact "F 7100000" "F" ["7100000"] s.1 s.2
           Hsplit Ht HT Hst Hsp).
Defined.

(** ** Connecting the synchronizer *)

Section SynchronizerConnect.
Context `{Py.FloatConv}.

Lemma sdr_connect_run (d : nat) (net : SDRControl.Dial) (w : World) :
  (d < length (sdrs w))%nat ->
  let ok := match net with SDRControl.Accepted => true | _ => false end in
  (SDRControl.connect d net w).1 = Ret ok
  /\ sdr_connected_in (SDRControl.connect d net w).2 d = ok
  /\ rigs (SDRControl.connect d net w).2 = rigs w
  /\ trace (SDRControl.connect d net w).2 = trace w.
Proof.
  intros Hd. cbv zeta.
  unfold SDRControl.connect, SDRControl.update_self, try_except, mbind, M_bind, modify.
  unfold sdr_connected_in, raise, mret, M_ret.
  destruct net; cbn [fst snd sdrs set_sdrs rigs trace];
    repeat apply conj; try reflexivity;
    rewrite !list_lookup_total_insert_eq by (rewrite ?length_insert; exact Hd);
    reflexivity.
Qed.

(** X30.  [connect()] of the synchronizer tries both ends, whatever
    the first one gives, and returns [True] exactly when FlRig answered
    [rig.get_xcvr] and SDR++ accepted the connection.  Each controller
    is then connected or not by its own outcome: a gateway that
    connected stays connected when SDR++ refused, and SDR++ is dialled
    when FlRig did not answer. *)
Theorem sync_connect_needs_both (net : SDRControl.Dial)
    (s : FrequencySync.t) (w : World) :
  (FrequencySync.rig s < length (rigs w))%nat ->
  (FrequencySync.sdr s < length (sdrs w))%nat ->
  let out := FrequencySync.connect net (s, w) in
  let dialled := match net with SDRControl.Accepted => true | _ => false end in
  out.1 = Ret (succeeds w rig_get_xcvr && dialled)
  /\ out.2.1 = s
  /\ connected_in out.2.2 (FrequencySync.rig s) = succeeds w rig_get_xcvr
  /\ sdr_connected_in out.2.2 (FrequencySync.sdr s) = dialled
  /\ trace out.2.2 = trace w ++ [Rpc (slot w) true rig_get_xcvr].
Proof.
  intros Hg Hd. cbv zeta.
  destruct (connect_outcome (FrequencySync.rig s) w Hg) as [Hret Hconn].
  assert (Htr : trace (RigControl.connect (FrequencySync.rig s) w).2
                = trace w ++ [Rpc (slot w) true rig_get_xcvr]
                /\ sdrs (RigControl.connect (FrequencySync.rig s) w).2 = sdrs w).
  { rewrite connect_run. cbv zeta. split; reflexivity. }
  destruct Htr as [Htr Hsdrs].
  set (w1 := (RigControl.connect (FrequencySync.rig s) w).2) in *.
  assert (Hd1 : (FrequencySync.sdr s < length (sdrs w1))%nat) by (rewrite Hsdrs; exact Hd).
  destruct (sdr_connect_run (FrequencySync.sdr s) net w1 Hd1) as (Hok & Hon & Hrigs & Htr1).
  cbv zeta in Hok, Hon.
  unfold FrequencySync.connect, FrequencySync.self_, mbind, M_bind, gets.
  cbn [fst snd]. rewrite !lift_run. rewrite Hret. cbn [fst snd]. fold w1.
  destruct (SDRControl.connect (FrequencySync.sdr s) net w1) as [r w2].
  cbn [fst snd] in *. subst r. unfold mret, M_ret. cbn [fst snd].
  split; [reflexivity|]. split; [reflexivity|]. split.
  - rewrite (connected_in_rigs _ _ _ Hrigs). exact Hconn.
  - split; [exact Hon|]. rewrite Htr1. exact Htr.
Qed.

End SynchronizerConnect.

Lemma sync_connect_needs_both_witness :
  let i := FrequencySync.__init__ "127.0.0.1" 12345 "127.0.0.1" 4532
             (Fake.boot (Fake.server Fake.g90 3) (Fake.sdrpp "14074000")) in
  let s := {| FrequencySync.rig := 0; FrequencySync.sdr := 0;
              FrequencySync.running := false;
              FrequencySync.last_rig_frequency := 0;
              FrequencySync.last_sdr_frequency := 0;
              FrequencySync.last_mode := "" |} in
  i.1 = Ret s
  /\ succeeds i.2 rig_get_xcvr = true
  /\ (FrequencySync.connect SDRControl.Refused (s, i.2)).1
     = Ret (succeeds i.2 rig_get_xcvr && false)
  /\ connected_in (FrequencySync.connect SDRControl.Refused (s, i.2)).2.2
       (FrequencySync.rig s) = succeeds i.2 rig_get_xcvr
  /\ sdr_connected_in (FrequencySync.connect SDRControl.Refused (s, i.2)).2.2
       (FrequencySync.sdr s) = false.
Proof.
  intros i s.
  assert (Hg : (FrequencySync.rig s < length (rigs i.2))%nat) by (vm_compute; lia).
  assert (Hd : (FrequencySync.sdr s < length (sdrs i.2))%nat) by (vm_compute; lia).
  destruct (sync_connect_needs_both SDRControl.Refused s i.2 Hg Hd)
    as (Hret & _ & Hrig & Hsdr & _).
  split; [vm_compute; reflexivity|]. split; [vm_compute; reflexivity|].
  split; [exact Hret|]. split; [exact Hrig|exact Hsdr].
Defined.

(** ** The further properties on the test doubles *)

Lemma stop_is_idempotent_witness :
  let s := Fake.bridge true (Fake.server Fake.g90 3) (Fake.sdrpp "14074000") in
  RigctldBridge.running s.1 = true
  /\ RigctldBridge.running (RigctldBridge.stop (s.1, s.2)).2.1 = false
  /\ RigctldBridge.stop (RigctldBridge.stop (s.1, s.2)).2
     = (Ret tt, (RigctldBridge.stop (s.1, s.2)).2).
Proof.
  intros s. destruct (stop_is_idempotent s.1 s.2) as (_ & Hoff & Hagain & _).
  split; [vm_compute; reflexivity|]. split; [exact Hoff|exact Hagain].
Defined.

Lemma watchdog_sleeps_without_session_witness :
  let s := Fake.bridge true (Fake.server Fake.g90 3) (Fake.sdrpp "14074000") in
  RigctldBridge._ptt_monitor_loop 600 (s.1, s.2) = (Ret tt, (s.1, later 1000 600 s.2)).
Proof.
  intros s.
  assert (Hrun : RigctldBridge.running s.1 = true) by (vm_compute; reflexivity).
  assert (Hno : RigctldBridge.truthy_time (RigctldBridge.ptt_on_time s.1) = false)
    by (vm_compute; reflexivity).
  destruct (watchdog_sleeps_without_session 600 s.1 s.2) as [_ Hidle].
  exact (Hidle Hrun Hno).
Defined.


Lemma sync_start_outcome_witness :
  let deaf := @Fake.synchronizer Fake.exact
                (Fake.faulty Fake.is_get_vfo (Fake.server Fake.g90 3))
                (Fake.sdrpp "7100000") in
  (@FrequencySync.sync_once Fake.exact (deaf.1, deaf.2)).1 = Ret false
  /\ negb (FrequencySync.running deaf.1)
     && connected_in deaf.2 (FrequencySync.rig deaf.1)
     && sdr_connected_in deaf.2 (FrequencySync.sdr deaf.1) = true
  /\ (@FrequencySync.start Fake.exact (deaf.1, deaf.2)).1
     = Ret (negb (FrequencySync.running deaf.1)
            && connected_in deaf.2 (FrequencySync.rig deaf.1)
            && sdr_connected_in deaf.2 (FrequencySync.sdr deaf.1)).
Proof.
  intros deaf.
  destruct (@sync_start_outcome Fake.exact deaf.1 deaf.2) as (Hret & _).
  split; [vm_compute; reflexivity|]. split; [vm_compute; reflexivity|exact Hret].
Defined.

Lemma sync_disconnect_is_final_witness :
  let s := @Fake.synchronizer Fake.exact (Fake.server Fake.g90 3)
             (Fake.sdrpp "14074000") in
  let s1 := (@FrequencySync.start Fake.exact (s.1, s.2)).2 in
  FrequencySync.running s1.1 = true
  /\ FrequencySync.running (FrequencySync.disconnect (s1.1, s1.2)).2.1 = false
  /\ @FrequencySync.start Fake.exact (FrequencySync.disconnect (s1.1, s1.2)).2
     = (Ret false, (FrequencySync.disconnect (s1.1, s1.2)).2).
Proof.
  intros s s1.
  destruct (@sync_disconnect_is_final Fake.exact s1.1 s1.2)
    as (_ & Hoff & _ & _ & _ & Hstart & _).
  split; [vm_compute; reflexivity|]. split; [exact Hoff|exact Hstart].
Defined.

Lemma gateway_catches_and_unlocks_witness :
  let w := Fake.station (Fake.faulty Fake.is_set_vfo (Fake.server Fake.g90 3))
             (Fake.sdrpp "14074000") in
  connected_in w 0 = true
  /\ (@RigControl.set_frequency Fake.exact 0 7100000 w).1 = Ret false
  /\ length (trace (@RigControl.set_frequency Fake.exact 0 7100000 w).2)
     = S (length (trace w))
  /\ (@perform Fake.exact 0 (SetFrequency 7100000) w).1 = Ret tt
  /\ lock_depth (@perform Fake.exact 0 (SetFrequency 7100000) w).2 = lock_depth w.
Proof.
  intros w. split; [vm_compute; reflexivity|]. split; [vm_compute; reflexivity|].
  split; [vm_compute; reflexivity|].
  exact (@gateway_catches_and_unlocks Fake.exact 0 (SetFrequency 7100000) w).
Defined.

Lemma process_command_always_replies_witness :
  never_raises (@RigctldBridge._process_command Fake.exact "T on")
  /\ yields (fun reply => reply <> "") (@RigctldBridge._process_command Fake.exact "T on").
Proof. exact (@process_command_always_replies Fake.exact "T on"). Defined.
